(** * The notifications WebSocket session of [USPACYClient] (src/api.py)

    A shallow embedding of the WebSocket lifecycle code of the tray
    notifier: the message callback [on_ws2_message], the connect and
    shutdown entry points, the liveness watchdog and the reconnect
    supervisor, followed by the properties that the specification states
    about them.

    Conventions of the embedding.
    - The client object is the record [USPACYClient]; the [WebSocketApp]
      objects it creates live in a heap (a list), and a reference to one
      is its index.  [World] bundles the client, the heap, what was
      printed and the reconnect threads that were started.
    - [time.time()] is read at millisecond resolution: a time is a [Z]
      counting milliseconds, so [time.sleep(1.0)] advances it by 1000.
    - Python exceptions are values of [exn]; a method body is a
      computation in the monad [M], which threads the [World] and either
      returns or raises.
    - [json.loads] and [int] on a [str] belong to the Python runtime, not
      to the repository: they are the two operations of [PyRuntime]. *)

From Stdlib Require Import ZArith String Ascii List Bool Lia QArith.
From Stdlib Require Import DecimalString.
From stdpp Require Import base list.
Import ListNotations.
Local Open Scope Z_scope.

(** ** Python values *)

(** The subclasses of [Exception] that the modelled code can meet. *)
Inductive exn : Type :=
| JSONDecodeError
| RecursionError
| AttributeError
| TypeError
| ValueError
| OverflowError
| IndexError
| KeyError
| RuntimeError
| WebSocketConnectionClosedException
| OtherException (name : string).

Definition is_JSONDecodeError (e : exn) : bool :=
  match e with JSONDecodeError => true | _ => false end.

(** A Python [float] is kept as the rational it denotes, or as one of the
    three special values. *)
Inductive pyfloat : Type :=
| Finite (q : Q)
| Infinity (negative : bool)
| NaN.

#[local] Set Warnings "-register-all".

(** What [json.loads] returns.  A [dict] is an association list in which
    the first binding of a key is the one that counts. *)
Inductive json : Type :=
| JNull
| JBool (b : bool)
| JInt (z : Z)
| JFloat (f : pyfloat)
| JStr (s : string)
| JList (l : list json)
| JDict (d : list (string * json)).

Class PyRuntime : Type := {
  json_loads : string -> exn + json;
  int_of_str : string -> exn + Z
}.

Fixpoint assoc {A : Type} (key : string) (d : list (string * A)) : option A :=
  match d with
  | [] => None
  | (k, v) :: d' => if String.eqb key k then Some v else assoc key d'
  end.

(** [info.get(key, default)]: only a [dict] has the method. *)
Definition dict_get (info : json) (key : string) (default : json) : exn + json :=
  match info with
  | JDict d => inr (match assoc key d with Some v => v | None => default end)
  | _ => inl AttributeError
  end.

(** [int(x)]: truncation toward zero on a float. *)
Definition py_int `{PyRuntime} (x : json) : exn + Z :=
  match x with
  | JInt z => inr z
  | JBool b => inr (if b then 1 else 0)
  | JFloat (Finite q) => inr (Z.quot (Qnum q) (Zpos (Qden q)))
  | JFloat (Infinity _) => inl OverflowError
  | JFloat NaN => inl ValueError
  | JStr s => int_of_str s
  | JNull | JList _ | JDict _ => inl TypeError
  end.

(** [x[i]] for a literal index [i]. *)
Definition py_getitem (x : json) (i : nat) : exn + json :=
  match x with
  | JList l => match l !! i with Some v => inr v | None => inl IndexError end
  | JStr s =>
      match String.get i s with
      | Some c => inr (JStr (String c EmptyString))
      | None => inl IndexError
      end
  | JDict _ => inl KeyError
  | JNull | JBool _ | JInt _ | JFloat _ => inl TypeError
  end.

(** [s.startswith(p)] and the slice [s[n:]]. *)
Definition startswith (s p : string) : bool := String.prefix p s.

Fixpoint slice_from (n : nat) (s : string) : string :=
  match n, s with
  | O, _ => s
  | S n', String _ s' => slice_from n' s'
  | S _, EmptyString => EmptyString
  end.

Definition dquote : string := String "034"%char EmptyString.

(** ** The objects *)

Record WebSocket : Type := { connected : bool }.

(** [websocket.WebSocketApp]: its [sock] attribute is [None] until the
    run loop has connected; [wire] collects the frames that [send]
    transmitted. *)
Record WebSocketApp : Type := {
  sock : option WebSocket;
  keep_running : bool;
  wire : list string
}.

(** The handler object, by what its [handle(event_type, payload)] does:
    return, or raise. *)
Definition Handler : Type := json -> json -> option exn.

Inductive thread_pc : Type := AtLoopHead | Sleeping | Finished.

Record USPACYClient : Type := {
  access_token : option string;
  token_expiry : Z;
  ws_notif : option nat;
  notifications_handler : option Handler;
  _ws2_should_run : bool;
  _ping2_interval_sec : Z;
  _ping2_timeout_sec : Z;
  _watchdog2_thread : option thread_pc;
  _last2_rx_ts : Z;
  _reconnect2_attempt : Z;
  _max2_backoff : Z
}.

(** One constructor per [print] of the WebSocket code. *)
Inductive log_line : Type :=
| WS_IN_RAW (message : string)
| WS_OUT_RAW (data : string)
| HandshakeOK (interval timeout : Z)
| HandshakeParseFailed (e : exn)
| PongSendFailed (e : exn)
| HandlerFailed (e : exn)
| PayloadParseFailed (e : exn)
| MessageFailed (e : exn)
| AlreadyConnected
| Opened
| Closed
| WatchdogIdle (idle timeout : Z)
| WatchdogError (e : exn)
| StillConnected
| ReconnectIn (delay : Z)
| AlreadyRestored
| ReconnectFailed (e : exn)
| TransportFailed (e : exn).

Record World : Type := {
  self : USPACYClient;
  heap : list WebSocketApp;
  stdout : list log_line;
  threads : list bool
}.

(** [USPACYClient.__init__], the fields above. *)
Definition init_client : USPACYClient :=
  {| access_token := None; token_expiry := 0; ws_notif := None;
     notifications_handler := None; _ws2_should_run := false;
     _ping2_interval_sec := 25; _ping2_timeout_sec := 60;
     _watchdog2_thread := None; _last2_rx_ts := 0;
     _reconnect2_attempt := 0; _max2_backoff := 30 |}.

Definition init_world : World :=
  {| self := init_client; heap := []; stdout := []; threads := [] |}.

(** Attribute assignments. *)
Definition set_access_token (v : option string) (c : USPACYClient) : USPACYClient :=
  {| access_token := v; token_expiry := token_expiry c; ws_notif := ws_notif c;
     notifications_handler := notifications_handler c;
     _ws2_should_run := _ws2_should_run c;
     _ping2_interval_sec := _ping2_interval_sec c;
     _ping2_timeout_sec := _ping2_timeout_sec c;
     _watchdog2_thread := _watchdog2_thread c; _last2_rx_ts := _last2_rx_ts c;
     _reconnect2_attempt := _reconnect2_attempt c; _max2_backoff := _max2_backoff c |}.

Definition set_token_expiry (v : Z) (c : USPACYClient) : USPACYClient :=
  {| access_token := access_token c; token_expiry := v; ws_notif := ws_notif c;
     notifications_handler := notifications_handler c;
     _ws2_should_run := _ws2_should_run c;
     _ping2_interval_sec := _ping2_interval_sec c;
     _ping2_timeout_sec := _ping2_timeout_sec c;
     _watchdog2_thread := _watchdog2_thread c; _last2_rx_ts := _last2_rx_ts c;
     _reconnect2_attempt := _reconnect2_attempt c; _max2_backoff := _max2_backoff c |}.

Definition set_ws_notif (v : option nat) (c : USPACYClient) : USPACYClient :=
  {| access_token := access_token c; token_expiry := token_expiry c; ws_notif := v;
     notifications_handler := notifications_handler c;
     _ws2_should_run := _ws2_should_run c;
     _ping2_interval_sec := _ping2_interval_sec c;
     _ping2_timeout_sec := _ping2_timeout_sec c;
     _watchdog2_thread := _watchdog2_thread c; _last2_rx_ts := _last2_rx_ts c;
     _reconnect2_attempt := _reconnect2_attempt c; _max2_backoff := _max2_backoff c |}.

Definition set_notifications_handler (v : option Handler) (c : USPACYClient) : USPACYClient :=
  {| access_token := access_token c; token_expiry := token_expiry c; ws_notif := ws_notif c;
     notifications_handler := v;
     _ws2_should_run := _ws2_should_run c;
     _ping2_interval_sec := _ping2_interval_sec c;
     _ping2_timeout_sec := _ping2_timeout_sec c;
     _watchdog2_thread := _watchdog2_thread c; _last2_rx_ts := _last2_rx_ts c;
     _reconnect2_attempt := _reconnect2_attempt c; _max2_backoff := _max2_backoff c |}.

Definition set_ws2_should_run (v : bool) (c : USPACYClient) : USPACYClient :=
  {| access_token := access_token c; token_expiry := token_expiry c; ws_notif := ws_notif c;
     notifications_handler := notifications_handler c;
     _ws2_should_run := v;
     _ping2_interval_sec := _ping2_interval_sec c;
     _ping2_timeout_sec := _ping2_timeout_sec c;
     _watchdog2_thread := _watchdog2_thread c; _last2_rx_ts := _last2_rx_ts c;
     _reconnect2_attempt := _reconnect2_attempt c; _max2_backoff := _max2_backoff c |}.

Definition set_ping2_interval_sec (v : Z) (c : USPACYClient) : USPACYClient :=
  {| access_token := access_token c; token_expiry := token_expiry c; ws_notif := ws_notif c;
     notifications_handler := notifications_handler c;
     _ws2_should_run := _ws2_should_run c;
     _ping2_interval_sec := v;
     _ping2_timeout_sec := _ping2_timeout_sec c;
     _watchdog2_thread := _watchdog2_thread c; _last2_rx_ts := _last2_rx_ts c;
     _reconnect2_attempt := _reconnect2_attempt c; _max2_backoff := _max2_backoff c |}.

Definition set_ping2_timeout_sec (v : Z) (c : USPACYClient) : USPACYClient :=
  {| access_token := access_token c; token_expiry := token_expiry c; ws_notif := ws_notif c;
     notifications_handler := notifications_handler c;
     _ws2_should_run := _ws2_should_run c;
     _ping2_interval_sec := _ping2_interval_sec c;
     _ping2_timeout_sec := v;
     _watchdog2_thread := _watchdog2_thread c; _last2_rx_ts := _last2_rx_ts c;
     _reconnect2_attempt := _reconnect2_attempt c; _max2_backoff := _max2_backoff c |}.

Definition set_watchdog2_thread (v : option thread_pc) (c : USPACYClient) : USPACYClient :=
  {| access_token := access_token c; token_expiry := token_expiry c; ws_notif := ws_notif c;
     notifications_handler := notifications_handler c;
     _ws2_should_run := _ws2_should_run c;
     _ping2_interval_sec := _ping2_interval_sec c;
     _ping2_timeout_sec := _ping2_timeout_sec c;
     _watchdog2_thread := v; _last2_rx_ts := _last2_rx_ts c;
     _reconnect2_attempt := _reconnect2_attempt c; _max2_backoff := _max2_backoff c |}.

Definition set_last2_rx_ts (v : Z) (c : USPACYClient) : USPACYClient :=
  {| access_token := access_token c; token_expiry := token_expiry c; ws_notif := ws_notif c;
     notifications_handler := notifications_handler c;
     _ws2_should_run := _ws2_should_run c;
     _ping2_interval_sec := _ping2_interval_sec c;
     _ping2_timeout_sec := _ping2_timeout_sec c;
     _watchdog2_thread := _watchdog2_thread c; _last2_rx_ts := v;
     _reconnect2_attempt := _reconnect2_attempt c; _max2_backoff := _max2_backoff c |}.

Definition set_reconnect2_attempt (v : Z) (c : USPACYClient) : USPACYClient :=
  {| access_token := access_token c; token_expiry := token_expiry c; ws_notif := ws_notif c;
     notifications_handler := notifications_handler c;
     _ws2_should_run := _ws2_should_run c;
     _ping2_interval_sec := _ping2_interval_sec c;
     _ping2_timeout_sec := _ping2_timeout_sec c;
     _watchdog2_thread := _watchdog2_thread c; _last2_rx_ts := _last2_rx_ts c;
     _reconnect2_attempt := v; _max2_backoff := _max2_backoff c |}.

Definition with_self (f : USPACYClient -> USPACYClient) (w : World) : World :=
  {| self := f (self w); heap := heap w; stdout := stdout w; threads := threads w |}.

Definition with_heap (f : list WebSocketApp -> list WebSocketApp) (w : World) : World :=
  {| self := self w; heap := f (heap w); stdout := stdout w; threads := threads w |}.

Definition with_stdout (f : list log_line -> list log_line) (w : World) : World :=
  {| self := self w; heap := heap w; stdout := f (stdout w); threads := threads w |}.

Definition with_threads (f : list bool -> list bool) (w : World) : World :=
  {| self := self w; heap := heap w; stdout := stdout w; threads := f (threads w) |}.

(** ** Computations that can raise *)

Inductive outcome (A : Type) : Type :=
| Return (a : A)
| Raised (e : exn).
Arguments Return {A} a.
Arguments Raised {A} e.

Definition M (A : Type) : Type := World -> World * outcome A.

Definition ret {A : Type} (a : A) : M A := fun w => (w, Return a).

Definition bind {A B : Type} (c : M A) (k : A -> M B) : M B :=
  fun w =>
    match c w with
    | (w', Return a) => k a w'
    | (w', Raised e) => (w', Raised e)
    end.

Definition raise {A : Type} (e : exn) : M A := fun w => (w, Raised e).

(** [try: body  except <catches> as e: handler e]. *)
Definition try_except {A : Type} (body : M A) (catches : exn -> bool)
    (handler : exn -> M A) : M A :=
  fun w =>
    match body w with
    | (w', Return a) => (w', Return a)
    | (w', Raised e) => if catches e then handler e w' else (w', Raised e)
    end.

Definition Exception (e : exn) : bool := true.

Definition lift {A : Type} (r : exn + A) : M A :=
  match r with inr a => ret a | inl e => raise e end.

Definition gets {A : Type} (f : USPACYClient -> A) : M A :=
  fun w => (w, Return (f (self w))).

Definition assign (f : USPACYClient -> USPACYClient) : M unit :=
  fun w => (with_self f w, Return tt).

Definition print (l : log_line) : M unit :=
  fun w => (with_stdout (fun out => out ++ [l]) w, Return tt).

Declare Scope py_scope.
Delimit Scope py_scope with py.
Notation "x <- c ;; k" := (bind c (fun x => k))
  (at level 100, c at next level, k at level 200, right associativity) : py_scope.
Notation "c ;; k" := (bind c (fun _ => k))
  (at level 100, k at level 200, right associativity) : py_scope.
Local Open Scope py_scope.

(** ** The transport (websocket-client) *)

Definition sock_connected (a : WebSocketApp) : bool :=
  match sock a with Some s => connected s | None => false end.

(** The test [self.ws_notif and getattr(self.ws_notif, "sock", None) and
    self.ws_notif.sock.connected]. *)
Definition reports_connected (w : World) : bool :=
  match ws_notif (self w) with
  | Some i =>
      match heap w !! i with
      | Some a => sock_connected a
      | None => false
      end
  | None => false
  end.

Definition look {A : Type} (f : World -> A) : M A := fun w => (w, Return (f w)).

Definition transmit (data : string) (a : WebSocketApp) : WebSocketApp :=
  {| sock := sock a; keep_running := keep_running a; wire := wire a ++ [data] |}.

Definition closed_app (a : WebSocketApp) : WebSocketApp :=
  {| sock := None; keep_running := false; wire := wire a |}.

(** [WebSocketApp.send]: raises unless the socket is there. *)
Definition ws_send (ws : nat) (data : string) : M unit :=
  fun w =>
    match heap w !! ws with
    | Some a =>
        if sock_connected a
        then (with_heap (fun h => <[ws := transmit data a]> h) w, Return tt)
        else (w, Raised WebSocketConnectionClosedException)
    | None => (w, Raised WebSocketConnectionClosedException)
    end.

(** [WebSocketApp.close]: stops the run loop and drops the socket. *)
Definition ws_close (ws : nat) : M unit :=
  fun w => (with_heap (fun h => alter closed_app ws h) w, Return tt).

(** [websocket.WebSocketApp(url, ...)]: a new object, not yet connected. *)
Definition new_app : WebSocketApp :=
  {| sock := None; keep_running := true; wire := [] |}.

(** ** The client's methods *)

Definition _send_ws (ws : nat) (data : string) : M unit :=
  print (WS_OUT_RAW data) ;;
  ws_send ws data.

(** Truth value of [self.access_token], an [Optional[str]]. *)
Definition truthy (t : option string) : bool :=
  match t with
  | Some s => negb (String.eqb s EmptyString)
  | None => false
  end.

(** The f-string [f'40{{"token":"{self.access_token}"}}']. *)
Definition auth_message (token : string) : string :=
  ("40{" ++ dquote ++ "token" ++ dquote ++ ":" ++ dquote ++ token ++ dquote ++ "}")%string.

Section Receive.
Context `{PyRuntime}.

(** The body of the inner [try] of the handshake branch. *)
Definition read_handshake (message : string) : M unit :=
  info <- lift (json_loads (slice_from 1 message)) ;;
  v <- lift (dict_get info "pingInterval" (JInt 25000)) ;;
  n <- lift (py_int v) ;;
  assign (set_ping2_interval_sec (Z.max 5 (n / 1000))) ;;
  v <- lift (dict_get info "pingTimeout" (JInt 60000)) ;;
  n <- lift (py_int v) ;;
  assign (set_ping2_timeout_sec (Z.max 10 (n / 1000))) ;;
  i <- gets _ping2_interval_sec ;;
  t <- gets _ping2_timeout_sec ;;
  print (HandshakeOK i t).

Definition call_handler (handler : Handler) (event_type payload : json) : M unit :=
  match handler event_type payload with
  | None => ret tt
  | Some e => raise e
  end.

(** The body of the [try] of the event branch. *)
Definition read_event (message : string) : M unit :=
  event_data <- lift (json_loads (slice_from 2 message)) ;;
  event_type <- lift (py_getitem event_data 0) ;;
  payload <- lift (py_getitem event_data 1) ;;
  h <- gets notifications_handler ;;
  match h with
  | Some handler =>
      try_except (call_handler handler event_type payload)
        Exception (fun e => print (HandlerFailed e))
  | None => ret tt
  end.

(** The body of the outer [try] of [on_ws2_message]. *)
Definition dispatch (ws : nat) (message : string) : M unit :=
  if startswith message "0" then
    try_except (read_handshake message)
      Exception
      (fun e =>
         print (HandshakeParseFailed e) ;;
         assign (set_ping2_interval_sec 25) ;;
         assign (set_ping2_timeout_sec 60)) ;;
    token <- gets access_token ;;
    (if truthy token
     then _send_ws ws (auth_message (default EmptyString token))
     else ret tt) ;;
    assign (set_reconnect2_attempt 0)
  else if startswith message "2" then
    try_except (_send_ws ws "3") Exception (fun e => print (PongSendFailed e))
  else if String.eqb message "3" then ret tt
  else if startswith message "40" then ret tt
  else if startswith message "41" then ret tt
  else if startswith message "42" then
    try_except (read_event message)
      is_JSONDecodeError (fun e => print (PayloadParseFailed e))
  else ret tt.

Definition on_ws2_message (now : Z) (ws : nat) (message : string) : M unit :=
  print (WS_IN_RAW message) ;;
  assign (set_last2_rx_ts now) ;;
  try_except (dispatch ws message)
    Exception (fun e => print (MessageFailed e)).

End Receive.

Definition _start_watchdog2 : M unit :=
  t <- gets _watchdog2_thread ;;
  match t with
  | Some AtLoopHead | Some Sleeping => ret tt
  | Some Finished | None => assign (set_watchdog2_thread (Some AtLoopHead))
  end.

Definition _stop_watchdog2 : M unit :=
  assign (set_ws2_should_run false).

(** The [while] test of the watchdog's [loop]. *)
Definition watchdog_test (w : World) : bool :=
  _ws2_should_run (self w) && reports_connected w.

(** What the watchdog does when it wakes from [time.sleep(1.0)] at time
    [now]; the result says whether the loop goes on. *)
Definition watchdog_check (now : Z) : M bool :=
  try_except
    (last <- gets _last2_rx_ts ;;
     if last <=? 0 then ret true
     else
       let idle := now - last in
       timeout <- gets _ping2_timeout_sec ;;
       if idle >? timeout * 1000 then
         print (WatchdogIdle (idle / 1000) timeout) ;;
         try_except
           (ws <- gets ws_notif ;;
            match ws with
            | Some i => ws_close i
            | None => raise AttributeError
            end)
           Exception (fun _ => ret tt) ;;
         ret false
       else ret true)
    Exception (fun e => print (WatchdogError e) ;; ret false).

(** One move of the watchdog thread: the loop test, or the wake-up. *)
Definition watchdog_step (now : Z) : M unit :=
  t <- gets _watchdog2_thread ;;
  match t with
  | Some AtLoopHead =>
      go <- look watchdog_test ;;
      assign (set_watchdog2_thread (Some (if go then Sleeping else Finished)))
  | Some Sleeping =>
      go <- watchdog_check now ;;
      assign (set_watchdog2_thread (Some (if go then AtLoopHead else Finished)))
  | Some Finished | None => ret tt
  end.

(** Where [connect_notifications_websocket] can raise: in the
    constructor of the [WebSocketApp], or when the thread is started. *)
Inductive connect_fault : Type :=
| NoFault
| ConstructorRaises (e : exn)
| ThreadStartRaises (e : exn).

Definition connect_notifications_websocket (fault : connect_fault) : M unit :=
  c <- look reports_connected ;;
  if c then print AlreadyConnected
  else
    old <- gets ws_notif ;;
    match old with
    | Some i => try_except (ws_close i) Exception (fun _ => ret tt)
    | None => ret tt
    end ;;
    match fault with ConstructorRaises e => raise e | _ => ret tt end ;;
    n <- look (fun w => length (heap w)) ;;
    (fun w => (with_heap (fun h => h ++ [new_app]) w, Return tt)) ;;
    assign (set_ws_notif (Some n)) ;;
    assign (set_ws2_should_run true) ;;
    assign (set_reconnect2_attempt 0) ;;
    match fault with ThreadStartRaises e => raise e | _ => ret tt end.

(** The two [join]s wait for threads that this model does not run any
    further. *)
Definition shutdown_notifications : M unit :=
  assign (set_ws2_should_run false) ;;
  ws <- gets ws_notif ;;
  match ws with
  | Some i => try_except (ws_close i) Exception (fun _ => ret tt)
  | None => ret tt
  end ;;
  assign (set_ws_notif None) ;;
  assign (set_watchdog2_thread None).

(** [threading.Thread(target=do_reconnect, daemon=True).start()]. *)
Definition start_do_reconnect (immediate : bool) : M unit :=
  fun w => (with_threads (fun l => l ++ [immediate]) w, Return tt).

Definition _schedule2_reconnect (immediate : bool) : M unit :=
  c <- look reports_connected ;;
  if c then print StillConnected
  else
    run <- gets _ws2_should_run ;;
    if run then ret tt
    else
      assign (set_ws2_should_run true) ;;
      start_do_reconnect immediate.

(** The outcome of the HTTP round trip of [refresh_access_token]. *)
Inductive refresh_result : Type :=
| Refreshed (jwt : string) (expiry : Z)
| NotRefreshed
| RefreshRaises (e : exn).

Definition refresh_access_token (r : refresh_result) : M bool :=
  match r with
  | Refreshed jwt expiry =>
      assign (set_access_token (Some jwt)) ;;
      assign (set_token_expiry expiry) ;;
      ret true
  | NotRefreshed => ret false
  | RefreshRaises e => raise e
  end.

(** The delay that [do_reconnect] computes before it sleeps. *)
Definition reconnect_delay (immediate : bool) : M Z :=
  attempt <- gets _reconnect2_attempt ;;
  backoff <- gets _max2_backoff ;;
  let delay :=
    if immediate || (attempt =? 0) then 0
    else Z.min backoff (2 ^ Z.max 0 attempt) in
  print (ReconnectIn delay) ;;
  ret delay.

(** [do_reconnect] from the point where it has slept; [now] is the time
    then. *)
Definition reconnect_attempt (now : Z) (r : refresh_result)
    (fault : connect_fault) : M unit :=
  c <- look reports_connected ;;
  if c then
    print AlreadyRestored ;;
    assign (set_ws2_should_run false) ;;
    assign (set_reconnect2_attempt 0)
  else
    token <- gets access_token ;;
    expiry <- gets token_expiry ;;
    (if truthy token && (now >? expiry - 60000)
     then refresh_access_token r ;; ret tt
     else ret tt) ;;
    attempt <- gets _reconnect2_attempt ;;
    assign (set_reconnect2_attempt (attempt + 1)) ;;
    try_except (connect_notifications_websocket fault)
      Exception
      (fun e =>
         print (ReconnectFailed e) ;;
         assign (set_ws2_should_run false) ;;
         _schedule2_reconnect false).

Definition do_reconnect (immediate : bool) (now : Z) (r : refresh_result)
    (fault : connect_fault) : M Z :=
  delay <- reconnect_delay immediate ;;
  reconnect_attempt now r fault ;;
  ret delay.

Definition on_ws2_open (now : Z) : M unit :=
  print Opened ;;
  assign (set_last2_rx_ts now) ;;
  _start_watchdog2.

Definition on_ws2_close : M unit :=
  print Closed ;;
  _stop_watchdog2 ;;
  run <- gets _ws2_should_run ;;
  if negb run then ret tt
  else
    assign (set_ws2_should_run false) ;;
    _schedule2_reconnect true.

Definition on_ws2_error (e : exn) : M unit :=
  print (TransportFailed e).

(** ** The callbacks as the run loop of websocket-client drives them *)

Definition opened_app (a : WebSocketApp) : WebSocketApp :=
  {| sock := Some {| connected := true |}; keep_running := true; wire := wire a |}.

(** A [WebSocketApp] connects only while its run loop is kept running and
    it has no socket yet; [on_open] follows. *)
Definition transport_opened (ws : nat) (now : Z) : M unit :=
  fun w =>
    match heap w !! ws with
    | Some a =>
        if keep_running a && negb (sock_connected a)
        then on_ws2_open now (with_heap (fun h => alter opened_app ws h) w)
        else (w, Return tt)
    | None => (w, Return tt)
    end.

(** A frame arrives on a connected socket only. *)
Definition frame_received `{PyRuntime} (ws : nat) (now : Z) (message : string) : M unit :=
  fun w =>
    match heap w !! ws with
    | Some a =>
        if sock_connected a then on_ws2_message now ws message w
        else (w, Return tt)
    | None => (w, Return tt)
    end.

(** The run loop of [ws] ends: the socket is gone, then [on_close]. *)
Definition transport_closed (ws : nat) : M unit :=
  ws_close ws ;;
  on_ws2_close.

Inductive event : Type :=
| Connect (fault : connect_fault)
| Shutdown
| TransportOpened (ws : nat) (now : Z)
| FrameReceived (ws : nat) (now : Z) (message : string)
| TransportError (e : exn)
| TransportClosed (ws : nat)
| WatchdogMoves (now : Z)
| ScheduleReconnect (immediate : bool)
| ReconnectRuns (immediate : bool) (now : Z) (r : refresh_result) (fault : connect_fault).

Definition react `{PyRuntime} (ev : event) : M unit :=
  match ev with
  | Connect fault => connect_notifications_websocket fault
  | Shutdown => shutdown_notifications
  | TransportOpened ws now => transport_opened ws now
  | FrameReceived ws now message => frame_received ws now message
  | TransportError e => on_ws2_error e
  | TransportClosed ws => transport_closed ws
  | WatchdogMoves now => watchdog_step now
  | ScheduleReconnect immediate => _schedule2_reconnect immediate
  | ReconnectRuns immediate now r fault => do_reconnect immediate now r fault ;; ret tt
  end.

(** An exception that leaves a callback ends that thread's work and
    nothing else. *)
Definition step `{PyRuntime} (w : World) (ev : event) : World := fst (react ev w).

Definition run `{PyRuntime} (w : World) (trace : list event) : World :=
  fold_left step trace w.

(** The frames of one session, each with the time at which it arrives. *)
Definition receive `{PyRuntime} (ws : nat) (w : World) (frames : list (Z * string)) : World :=
  fold_left (fun w f => fst (on_ws2_message (fst f) ws (snd f) w)) frames w.

(** [n] rounds of the watchdog loop with nothing else happening: the
    loop test at [now], the wake-up one second later. *)
Fixpoint watchdog_rounds (n : nat) (now : Z) (w : World) : World :=
  match n with
  | O => w
  | S n' =>
      let w1 := fst (watchdog_step now w) in
      let w2 := fst (watchdog_step (now + 1000) w1) in
      watchdog_rounds n' (now + 1000) w2
  end.

(** ** Observations *)

(** The frames handed to [_send_ws], in order. *)
Definition emitted (w : World) : list string :=
  omap (fun l => match l with WS_OUT_RAW data => Some data | _ => None end) (stdout w).

(** What the client and the run loop make of a [WebSocketApp]. *)
Definition shape (a : WebSocketApp) : option WebSocket * bool :=
  (sock a, keep_running a).

(** The frames the session owes for one inbound frame. *)
Definition reply (token : option string) (message : string) : list string :=
  if startswith message "0" then
    if truthy token then [auth_message (default EmptyString token)] else []
  else if startswith message "2" then ["3"%string]
  else [].

(** Nothing of the connection changes: the same transport is current,
    every transport is as connected as before, the run flag, the
    watchdog thread, the token and the handler are the same, and no
    reconnect thread has been started. *)
Definition untouched (w w' : World) : Prop :=
  ws_notif (self w') = ws_notif (self w) /\
  _ws2_should_run (self w') = _ws2_should_run (self w) /\
  _watchdog2_thread (self w') = _watchdog2_thread (self w) /\
  access_token (self w') = access_token (self w) /\
  notifications_handler (self w') = notifications_handler (self w) /\
  _max2_backoff (self w') = _max2_backoff (self w) /\
  threads w' = threads w /\
  map shape (heap w') = map shape (heap w).

(** [untouched], and the negotiated intervals and the attempt counter
    stay too. *)
Definition settled (w w' : World) : Prop :=
  untouched w w' /\
  _ping2_interval_sec (self w') = _ping2_interval_sec (self w) /\
  _ping2_timeout_sec (self w') = _ping2_timeout_sec (self w) /\
  _reconnect2_attempt (self w') = _reconnect2_attempt (self w).

(** No frame is handed to a transport. *)
Definition silent (w w' : World) : Prop :=
  emitted w' = emitted w /\
  map wire (heap w') = map wire (heap w) /\
  access_token (self w') = access_token (self w).

Definition preserves {A : Type} (R : World -> World -> Prop) (c : M A) : Prop :=
  forall w, R w (fst (c w)).

(** Every transport but the current one has been closed. *)
Definition others_closed (w : World) : Prop :=
  forall i a, heap w !! i = Some a -> ws_notif (self w) <> Some i ->
    shape a = (None, false).

(** At most one transport reports connected. *)
Definition at_most_one_live (w : World) : Prop :=
  forall i j a b,
    heap w !! i = Some a -> heap w !! j = Some b ->
    sock_connected a = true -> sock_connected b = true -> i = j.

(** ** Two threads at statement granularity

    [on_ws2_close] and [_schedule2_reconnect] once more, one statement
    at a time, so that two threads can be interleaved.  A label is the
    line of src/api.py at which the thread stands; the [with] block of
    lines 320-323 is one move, as the lock makes it. *)
Module Race.

Inductive pc : Type :=
| L369
| L371
| L373
| L316 (immediate : bool)
| L320 (immediate : bool)
| L353 (immediate : bool)
| Done.

Definition statement (p : pc) (w : World) : World * pc :=
  match p with
  | L369 => (fst ((print Closed ;; _stop_watchdog2) w), L371)
  | L371 => if negb (_ws2_should_run (self w)) then (w, Done) else (w, L373)
  | L373 => (with_self (set_ws2_should_run false) w, L316 true)
  | L316 immediate =>
      if reports_connected w then (fst (print StillConnected w), Done)
      else (w, L320 immediate)
  | L320 immediate =>
      if _ws2_should_run (self w) then (w, Done)
      else (with_self (set_ws2_should_run true) w, L353 immediate)
  | L353 immediate => (fst (start_do_reconnect immediate w), Done)
  | Done => (w, Done)
  end.

(** One thread run on its own. *)
Fixpoint alone (fuel : nat) (p : pc) (w : World) : World :=
  match fuel with
  | O => w
  | S fuel' => let (w', p') := statement p w in alone fuel' p' w'
  end.

(** Two threads under a schedule: [true] moves the first thread,
    [false] the second. *)
Fixpoint interleave (schedule : list bool) (a b : pc) (w : World) : World * pc * pc :=
  match schedule with
  | [] => (w, a, b)
  | true :: rest => let (w', a') := statement a w in interleave rest a' b w'
  | false :: rest => let (w', b') := statement b w in interleave rest a b' w'
  end.

(** A thread that has taken the flag and is about to start the worker. *)
Definition about_to_start (p : pc) : nat :=
  match p with L353 _ => 1%nat | _ => 0%nat end.

(** The reconnect cycles begun since [w0]: the workers started, and the
    threads committed to starting one. *)
Definition cycles (w0 : World) (r : World * pc * pc) : nat :=
  let '(w, a, b) := r in
  (length (threads w) - length (threads w0) + about_to_start a + about_to_start b)%nat.

(** The labels of [_schedule2_reconnect] and of the head of
    [on_ws2_close]. *)
Definition scheduling (p : pc) : Prop :=
  match p with
  | L316 _ | L320 _ | L353 _ | Done => True
  | _ => False
  end.

Definition closing (p : pc) : Prop :=
  match p with
  | L369 | L371 | Done => True
  | _ => False
  end.

(** What holds while two scheduling requests race: at most one cycle
    has begun, and if one has, the flag is set. *)
Definition scheduling_invariant (w0 : World) (r : World * pc * pc) : Prop :=
  let '(w, a, b) := r in
  scheduling a /\ scheduling b /\
  (length (threads w0) <= length (threads w))%nat /\
  (cycles w0 r <= 1)%nat /\
  ((1 <= cycles w0 r)%nat -> _ws2_should_run (self w) = true).

(** What holds while two close handlers race: no thread has been
    started, and once either handler has moved the flag is clear. *)
Definition closing_invariant (w0 : World) (r : World * pc * pc) : Prop :=
  let '(w, a, b) := r in
  closing a /\ closing b /\
  threads w = threads w0 /\
  ((a = L369 /\ b = L369) \/ _ws2_should_run (self w) = false).

End Race.

(** ** JSON texts (RFC 8259)

    Needed to say what the auth frame is not: a recogniser of JSON texts
    and the encoder of the one-member object [{"token": t}]. *)
Module JsonText.

Definition is_ws (c : ascii) : bool :=
  match c with
  | " "%char | "009"%char | "010"%char | "013"%char => true
  | _ => false
  end.

Fixpoint skip_ws (s : string) : string :=
  match s with
  | String c s' => if is_ws c then skip_ws s' else s
  | EmptyString => s
  end.

Definition is_digit (c : ascii) : bool :=
  (48 <=? nat_of_ascii c)%nat && (nat_of_ascii c <=? 57)%nat.

Definition is_hex (c : ascii) : bool :=
  is_digit c
  || ((65 <=? nat_of_ascii c)%nat && (nat_of_ascii c <=? 70)%nat)
  || ((97 <=? nat_of_ascii c)%nat && (nat_of_ascii c <=? 102)%nat).

Fixpoint skip_digits (s : string) : string :=
  match s with
  | String c s' => if is_digit c then skip_digits s' else s
  | EmptyString => s
  end.

(** One or more digits. *)
Definition digits1 (s : string) : option string :=
  match s with
  | String c s' => if is_digit c then Some (skip_digits s') else None
  | EmptyString => None
  end.

Definition exponent (s : string) : option string :=
  match s with
  | String "e"%char s' | String "E"%char s' =>
      match s' with
      | String "+"%char s'' | String "-"%char s'' => digits1 s''
      | _ => digits1 s'
      end
  | _ => Some s
  end.

Definition fraction (s : string) : option string :=
  match s with
  | String "."%char s' =>
      match digits1 s' with Some r => exponent r | None => None end
  | _ => exponent s
  end.

Definition number (s : string) : option string :=
  let s1 := match s with String "-"%char s' => s' | _ => s end in
  match s1 with
  | String "0"%char s' => fraction s'
  | String c s' => if is_digit c then fraction (skip_digits s') else None
  | EmptyString => None
  end.

Definition is_escape (c : ascii) : bool :=
  match c with
  | "034"%char | "092"%char | "/"%char | "b"%char | "f"%char | "n"%char
  | "r"%char | "t"%char => true
  | _ => false
  end.

(** The rest of a string literal, after its opening quote. *)
Fixpoint string_body (s : string) : option string :=
  match s with
  | EmptyString => None
  | String "034"%char s' => Some s'
  | String "092"%char s' =>
      match s' with
      | String "u"%char (String h1 (String h2 (String h3 (String h4 s'')))) =>
          if is_hex h1 && is_hex h2 && is_hex h3 && is_hex h4
          then string_body s'' else None
      | String c s'' => if is_escape c then string_body s'' else None
      | EmptyString => None
      end
  | String c s' => if (nat_of_ascii c <? 32)%nat then None else string_body s'
  end.

Definition literal (l s : string) : option string :=
  if String.prefix l s then Some (slice_from (String.length l) s) else None.

(** [value fuel s]: what is left of [s] after one value and the white
    space around it. *)
Fixpoint value (fuel : nat) (s : string) : option string :=
  match fuel with
  | O => None
  | S fuel' =>
      match skip_ws s with
      | String "{"%char r =>
          match skip_ws r with
          | String "}"%char r' => Some (skip_ws r')
          | r' => members fuel' r'
          end
      | String "["%char r =>
          match skip_ws r with
          | String "]"%char r' => Some (skip_ws r')
          | r' => elements fuel' r'
          end
      | String "034"%char r => option_map skip_ws (string_body r)
      | String "t"%char _ as r => option_map skip_ws (literal "true" r)
      | String "f"%char _ as r => option_map skip_ws (literal "false" r)
      | String "n"%char _ as r => option_map skip_ws (literal "null" r)
      | r => option_map skip_ws (number r)
      end
  end
with members (fuel : nat) (s : string) : option string :=
  match fuel with
  | O => None
  | S fuel' =>
      match skip_ws s with
      | String "034"%char r =>
          match option_map skip_ws (string_body r) with
          | Some (String ":"%char r1) =>
              match value fuel' r1 with
              | Some (String ","%char r2) => members fuel' r2
              | Some (String "}"%char r2) => Some (skip_ws r2)
              | _ => None
              end
          | _ => None
          end
      | _ => None
      end
  end
with elements (fuel : nat) (s : string) : option string :=
  match fuel with
  | O => None
  | S fuel' =>
      match value fuel' s with
      | Some (String ","%char r) => elements fuel' r
      | Some (String "]"%char r) => Some (skip_ws r)
      | _ => None
      end
  end.

Definition is_json (s : string) : bool :=
  match value (2 * String.length s + 2) s with
  | Some EmptyString => true
  | _ => false
  end.

Definition hex_digit (n : nat) : ascii :=
  ascii_of_nat (if (n <? 10)%nat then 48 + n else 87 + n).

(** How a string character is written inside a JSON string literal. *)
Definition escape_char (c : ascii) : string :=
  match c with
  | "034"%char => String "092"%char (String "034"%char EmptyString)
  | "092"%char => String "092"%char (String "092"%char EmptyString)
  | _ =>
      if (nat_of_ascii c <? 32)%nat
      then (String "092"%char "u00" ++ String (hex_digit (nat_of_ascii c / 16))
                        (String (hex_digit (nat_of_ascii c mod 16)) EmptyString))%string
      else String c EmptyString
  end.

Fixpoint escape (s : string) : string :=
  match s with
  | EmptyString => EmptyString
  | String c s' => (escape_char c ++ escape s')%string
  end.

(** The JSON encoding of the object [{token: t}], without white space. *)
Definition token_object (t : string) : string :=
  ("{" ++ dquote ++ "token" ++ dquote ++ ":" ++ dquote ++ escape t ++ dquote ++ "}")%string.

Definition needs_escape (c : ascii) : bool :=
  match c with
  | "034"%char | "092"%char => true
  | _ => false
  end.

Fixpoint has_quote_or_backslash (t : string) : bool :=
  match t with
  | EmptyString => false
  | String c t' => needs_escape c || has_quote_or_backslash t'
  end.

(** Printable ASCII, on which the encoders of JSON agree. *)
Definition printable (c : ascii) : bool :=
  (32 <=? nat_of_ascii c)%nat && (nat_of_ascii c <? 127)%nat.

Fixpoint all_printable (t : string) : bool :=
  match t with
  | EmptyString => true
  | String c t' => printable c && all_printable t'
  end.

End JsonText.

(** ** Worlds and statements used by the properties *)

(** A session whose transport has just been lost: the client connected
    with a token, the transport opened and then dropped, and nobody asked
    the client to stop. *)
Definition lost_session : World :=
  {| self :=
       set_ws_notif (Some 0%nat)
         (set_ws2_should_run true
            (set_access_token (Some "tok123"%string) init_client));
     heap := [closed_app new_app];
     stdout := [];
     threads := [] |}.

(** A session that is up: the same client, its transport connected. *)
Definition open_session : World :=
  {| self :=
       set_last2_rx_ts 1000
         (set_watchdog2_thread (Some AtLoopHead)
            (set_ws_notif (Some 0%nat)
               (set_ws2_should_run true
                  (set_access_token (Some "tok123"%string) init_client))));
     heap := [opened_app new_app];
     stdout := [];
     threads := [] |}.

(** The backoff sequence in the words of the specification: delays
    1, 2, 4, 8 for attempts 0, 1, 2, 3 and the cap from attempt 5 on. *)
Definition stated_backoff (w : World) : Prop :=
  forall n delay,
    _reconnect2_attempt (self w) = n ->
    snd (reconnect_delay false w) = Return delay ->
    (n = 0 -> delay = 1) /\ (n = 1 -> delay = 2) /\ (n = 2 -> delay = 4) /\
    (n = 3 -> delay = 8) /\ (5 <= n -> delay = 30).


(** What a connect request makes of a world in which no transport
    reports connected: the old transport closed, a new one created and
    made current, the run flag set and the attempt counter cleared. *)
Definition close_current (w : World) : World :=
  match ws_notif (self w) with
  | Some i => with_heap (fun h => alter closed_app i h) w
  | None => w
  end.

Definition replaced (w : World) : World :=
  with_self
    (fun c =>
       set_reconnect2_attempt 0
         (set_ws2_should_run true
            (set_ws_notif (Some (length (heap w))) c)))
    (with_heap (fun h => h ++ [new_app]) (close_current w)).


(** A runtime whose [json.loads] knows the texts of a table, and rejects
    every other text; used to run the model on concrete frames. *)
Definition table_runtime (table : list (string * json)) : PyRuntime :=
  {| json_loads := fun s =>
       match assoc s table with
       | Some v => inr v
       | None => inl JSONDecodeError
       end;
     int_of_str := fun _ => inl ValueError |}.

(** The member [key] of a decoded payload, if the payload is an object
    that has it. *)
Definition member (payload : exn + json) (key : string) : option json :=
  match payload with
  | inr (JDict d) => assoc key d
  | _ => None
  end.

(** The two integers that the handshake branch reads from a decoded
    payload, in milliseconds, when the payload is an object and both
    members, or their defaults, convert. *)
Definition handshake_values `{PyRuntime} (payload : exn + json) : option (Z * Z) :=
  match payload with
  | inr (JDict d) =>
      match py_int (default (JInt 25000) (assoc "pingInterval" d)),
            py_int (default (JInt 60000) (assoc "pingTimeout" d)) with
      | inr a, inr b => Some (a, b)
      | _, _ => None
      end
  | _ => None
  end.

(** The text [{"pingInterval":1000,"pingTimeout":null}] and its value. *)
Definition half_handshake : string :=
  ("{" ++ dquote ++ "pingInterval" ++ dquote ++ ":1000," ++
   dquote ++ "pingTimeout" ++ dquote ++ ":null}")%string.

Definition half_handshake_value : json :=
  JDict [("pingInterval"%string, JInt 1000); ("pingTimeout"%string, JNull)].

(** The text [{"pingInterval":25000,"pingTimeout":60000}] and its value. *)
Definition usual_handshake : string :=
  ("{" ++ dquote ++ "pingInterval" ++ dquote ++ ":25000," ++
   dquote ++ "pingTimeout" ++ dquote ++ ":60000}")%string.

Definition usual_handshake_value : json :=
  JDict [("pingInterval"%string, JInt 25000); ("pingTimeout"%string, JInt 60000)].

(** The text [{"pingInterval":1000,"pingTimeout":2000}] and its value. *)
Definition short_handshake : string :=
  ("{" ++ dquote ++ "pingInterval" ++ dquote ++ ":1000," ++
   dquote ++ "pingTimeout" ++ dquote ++ ":2000}")%string.

Definition short_handshake_value : json :=
  JDict [("pingInterval"%string, JInt 1000); ("pingTimeout"%string, JInt 2000)].

Definition sample_runtime : PyRuntime :=
  table_runtime
    [(half_handshake, half_handshake_value);
     (usual_handshake, usual_handshake_value);
     (short_handshake, short_handshake_value)].

(** The clamp in the words of the specification: whenever a member is
    present with an integer below the floor, the session adopts the
    floor. *)
Definition stated_floor `{PyRuntime} (message : string) (w : World) : Prop :=
  forall now ws d v,
    startswith message "0" = true ->
    json_loads (slice_from 1 message) = inr (JDict d) ->
    (assoc "pingInterval" d = Some (JInt v) -> v / 1000 < 5 ->
     _ping2_interval_sec (self (fst (on_ws2_message now ws message w))) = 5) /\
    (assoc "pingTimeout" d = Some (JInt v) -> v / 1000 < 10 ->
     _ping2_timeout_sec (self (fst (on_ws2_message now ws message w))) = 10).


(** The frames of the three handshakes above, and an event frame that
    does not decode. *)
Definition half_frame : string := ("0" ++ half_handshake)%string.
Definition usual_frame : string := ("0" ++ usual_handshake)%string.
Definition short_frame : string := ("0" ++ short_handshake)%string.
Definition broken_event_frame : string := "42[oops"%string.

(** Between [w] and [w'] the session handed exactly the frames [out] to
    [_send_ws], kept its token, and, if the transport [ws] was
    connected, transmitted exactly [out] on it. *)
Definition sends (ws : nat) (out : list string) (w w' : World) : Prop :=
  emitted w' = emitted w ++ out /\
  access_token (self w') = access_token (self w) /\
  forall a, heap w !! ws = Some a -> sock_connected a = true ->
    exists a', heap w' !! ws = Some a' /\ sock_connected a' = true /\
               wire a' = wire a ++ out.

Definition is_ack (data : string) : bool := String.eqb data "3".

Definition is_probe (message : string) : bool := startswith message "2".


(** The text [["pushNotification",{"id":1}]] and its value. *)
Definition push_event : string :=
  ("[" ++ dquote ++ "pushNotification" ++ dquote ++ ",{" ++
   dquote ++ "id" ++ dquote ++ ":1}]")%string.

Definition push_event_value : json :=
  JList [JStr "pushNotification"; JDict [("id"%string, JInt 1)]].

Definition push_frame : string := ("42" ++ push_event)%string.

Definition event_runtime : PyRuntime :=
  table_runtime [(push_event, push_event_value)].

(** A handler that raises on every event. *)
Definition failing_handler : Handler :=
  fun _ _ => Some (OtherException "handler failed").

(** The time of the last frame stays. *)
Definition same_clock (w w' : World) : Prop :=
  _last2_rx_ts (self w') = _last2_rx_ts (self w).

(** The session that the watchdog watches: told to run, its current
    transport [i] connected, the timeout negotiated at 60 s, the last
    frame received at [last]. *)
Definition watched (i : nat) (last : Z) (w : World) : Prop :=
  _ws2_should_run (self w) = true /\
  ws_notif (self w) = Some i /\
  (exists a, heap w !! i = Some a /\ sock_connected a = true) /\
  _ping2_timeout_sec (self w) = 60 /\
  _last2_rx_ts (self w) = last.

(** A trace in which only frames of the open session and moves of the
    watchdog occur, no frame is a handshake, and neither a frame nor a
    wake-up of the watchdog comes later than [gap] after the frame
    before it (the session opened at [last]). *)
Fixpoint frames_keep_arriving (i : nat) (gap last : Z) (trace : list event) : Prop :=
  match trace with
  | [] => True
  | FrameReceived ws t message :: rest =>
      ws = i /\ startswith message "0" = false /\ t <= last + gap /\
      frames_keep_arriving i gap t rest
  | WatchdogMoves t :: rest =>
      t <= last + gap /\ frames_keep_arriving i gap last rest
  | _ => False
  end.


(** [c] keeps the property [P] of the world. *)
Definition keeps {A : Type} (P : World -> Prop) (c : M A) : Prop :=
  forall w, P w -> P (fst (c w)).


(** Two tokens with characters that JSON escapes: an [a], a double
    quote and a [b]; and two backslashes. *)
Definition quoted_token : string := ("a" ++ dquote ++ "b")%string.

Definition backslash_token : string :=
  String "092"%char (String "092"%char EmptyString).

(** What follows the packet type [40] in the auth frame. *)
Definition auth_payload (token : string) : string :=
  slice_from 2 (auth_message token).

(** The last clause of the statement on the auth frame, in its words: with
    a double quote or a backslash in the token, the frame is not valid
    JSON. *)
Definition stated_invalid (token : string) : Prop :=
  JsonText.has_quote_or_backslash token = true ->
  JsonText.is_json (auth_payload token) = false.


(** The two kinds of frame that the session sends: the acknowledgment,
    and the auth frame of some token. *)
Definition session_frame (data : string) : Prop :=
  data = "3"%string \/ exists token, data = auth_message token.

Definition only_session_frames (w : World) : Prop :=
  Forall session_frame (emitted w).


(** ** Statements about the lifecycle as a whole *)

(** No transport at all reports connected. *)
Definition nothing_live (w : World) : Prop :=
  forall i a, heap w !! i = Some a -> sock_connected a = false.

(** The test [self._watchdog2_thread and self._watchdog2_thread.is_alive()]. *)
Definition alive (t : option thread_pc) : bool :=
  match t with
  | Some AtLoopHead | Some Sleeping => true
  | Some Finished | None => false
  end.

(** The world in which the watchdog loop has left its [while]. *)
Definition watchdog_over (w : World) : World :=
  with_self (set_watchdog2_thread (Some Finished)) w.

(** The ranges that the numbers of the session stay in. *)
Definition within_bounds (w : World) : Prop :=
  5 <= _ping2_interval_sec (self w) /\
  10 <= _ping2_timeout_sec (self w) /\
  0 <= _reconnect2_attempt (self w) /\
  _max2_backoff (self w) = 30.

(** What the event branch prints for a decoded payload: nothing when the
    event was handed over, or dropped for want of a handler. *)
Definition delivery (handler : option Handler) (event_data : json) : list log_line :=
  match py_getitem event_data 0 with
  | inl e => [MessageFailed e]
  | inr event_type =>
      match py_getitem event_data 1 with
      | inl e => [MessageFailed e]
      | inr payload =>
          match handler with
          | Some h =>
              match h event_type payload with
              | Some e => [HandlerFailed e]
              | None => []
              end
          | None => []
          end
      end
  end.

(** A frame has been received: logged, and the time noted. *)
Definition noted (now : Z) (message : string) (w : World) : World :=
  with_self (set_last2_rx_ts now)
    (with_stdout (fun out => out ++ [WS_IN_RAW message]) w).

(** A second session: the transport of the first one was replaced by a
    connect request and is closed, the new one is connected and watched. *)
Definition second_session : World :=
  {| self :=
       set_last2_rx_ts 1000
         (set_watchdog2_thread (Some AtLoopHead)
            (set_ws_notif (Some 1%nat)
               (set_ws2_should_run true
                  (set_access_token (Some "tok123"%string) init_client))));
     heap := [closed_app new_app; opened_app new_app];
     stdout := [];
     threads := [] |}.

(** A session that was lost while its token was about to expire, with a
    reconnect worker under way. *)
Definition expiring_session : World :=
  with_self (set_token_expiry 3600000) lost_session.

(** A handler that takes every event. *)
Definition accepting_handler : Handler := fun _ _ => None.

(** ** The HTTP requests of the client

    [_make_request] and [refresh_access_token] (src/api.py, lines
    66-104 and 136-149), which call each other, and the methods that
    keep the cache of users on top of them: [get_me], [get_all_users]
    and [get_user_info] (lines 151-161 and 179-216).

    - The two tokens are kept as the decoded values that the server
      sent ([JNull] is [None]); [token_expiry] is a Python [float].
    - [time.time()] is read in seconds, as a rational; sums and
      comparisons of floats are exact.
    - The requests library is the environment: [network k req] is what
      [requests.post] or [requests.get] does with the request [req] when
      [k] requests were handed to the library before it.
    - The recursion limit of the interpreter is the parameter [depth]
      of the methods: each call takes one frame, and a call with no
      frame left raises [RecursionError]. *)
Module Http.

(** The truth value of a decoded value. *)
Definition py_truthy (v : json) : bool :=
  match v with
  | JNull => false
  | JBool b => b
  | JInt z => negb (z =? 0)
  | JFloat (Finite q) => negb (Qnum q =? 0)
  | JFloat (Infinity _) => true
  | JFloat NaN => true
  | JStr s => negb (String.eqb s EmptyString)
  | JList l => match l with [] => false | _ :: _ => true end
  | JDict d => match d with [] => false | _ :: _ => true end
  end.

(** [d[key]]. *)
Definition dict_item (d : json) (key : string) : exn + json :=
  match d with
  | JDict l => match assoc key l with Some v => inr v | None => inl KeyError end
  | JNull | JBool _ | JInt _ | JFloat _ | JStr _ | JList _ => inl TypeError
  end.

(** [d[key] = v] on a [dict]: the binding is replaced where it stands,
    or added at the end. *)
Fixpoint dict_set {A : Type} (key : string) (v : A) (d : list (string * A))
    : list (string * A) :=
  match d with
  | [] => [(key, v)]
  | (k, x) :: d' =>
      if String.eqb key k then (k, v) :: d' else (k, x) :: dict_set key v d'
  end.

(** The least integer that does not convert to a [float]. *)
Definition float_overflow : Z := 2 ^ 1024 - 2 ^ 970.

(** [now + x] for a [float] [now] and a decoded [x]. *)
Definition seconds_from (now : Q) (x : json) : exn + pyfloat :=
  match x with
  | JInt z =>
      if float_overflow <=? Z.abs z then inl OverflowError
      else inr (Finite (now + inject_Z z)%Q)
  | JBool b => inr (Finite (now + inject_Z (if b then 1 else 0))%Q)
  | JFloat (Finite q) => inr (Finite (now + q)%Q)
  | JFloat (Infinity negative) => inr (Infinity negative)
  | JFloat NaN => inr NaN
  | JNull | JStr _ | JList _ | JDict _ => inl TypeError
  end.

(** [now > expiry - 60]. *)
Definition expiring (now : Q) (expiry : pyfloat) : bool :=
  match expiry with
  | Finite q => negb (Qle_bool now (q - inject_Z 60)%Q)
  | Infinity negative => negative
  | NaN => false
  end.

(** The number that a key of a [dict] stands for, if it is one. *)
Definition numeric (v : json) : option Q :=
  match v with
  | JBool b => Some (inject_Z (if b then 1 else 0))
  | JInt z => Some (inject_Z z)
  | JFloat (Finite q) => Some q
  | JNull | JFloat (Infinity _) | JFloat NaN | JStr _ | JList _ | JDict _ => None
  end.

(** When two keys of a [dict] are the same key: numbers by their value,
    whatever their types.  The identity of objects is not modelled, so a
    NaN is the same key as nothing. *)
Definition py_key_eq (a b : json) : bool :=
  match numeric a, numeric b with
  | Some x, Some y => Qeq_bool x y
  | None, None =>
      match a, b with
      | JNull, JNull => true
      | JStr s, JStr t => String.eqb s t
      | JFloat (Infinity m), JFloat (Infinity n) => Bool.eqb m n
      | _, _ => false
      end
  | _, _ => false
  end.

(** A [list] or a [dict] cannot be a key. *)
Definition hashable (v : json) : bool :=
  match v with
  | JList _ | JDict _ => false
  | JNull | JBool _ | JInt _ | JFloat _ | JStr _ => true
  end.

(** [cache.get(key)] and [cache[key] = value] on the items of a [dict]. *)
Fixpoint cache_get (key : json) (d : list (json * json)) : option json :=
  match d with
  | [] => None
  | (k, v) :: d' => if py_key_eq key k then Some v else cache_get key d'
  end.

Fixpoint cache_set (key value : json) (d : list (json * json)) : list (json * json) :=
  match d with
  | [] => [(key, value)]
  | (k, v) :: d' =>
      if py_key_eq key k then (k, value) :: d' else (k, v) :: cache_set key value d'
  end.

(** [v is None]. *)
Definition is_None (v : json) : bool :=
  match v with JNull => true | _ => false end.

(** [isinstance(v, list)] and the elements of a [list]. *)
Definition is_list (v : json) : bool :=
  match v with JList _ => true | _ => false end.

Definition elements (v : json) : list json :=
  match v with JList l => l | _ => [] end.

(** What can be raised: the two classes of the requests library that
    [_make_request] names, [HTTPError] and every other
    [RequestException], and the exceptions of Python itself. *)
Inductive error : Type :=
| HTTPError
| RequestException
| Builtin (e : exn).

Definition is_RequestException (e : error) : bool :=
  match e with
  | HTTPError | RequestException => true
  | Builtin _ => false
  end.

(** [json.JSONDecodeError]; the error that [Response.json] raises on a
    body that is not JSON is one. *)
Definition is_json_JSONDecodeError (e : error) : bool :=
  match e with
  | Builtin e' => is_JSONDecodeError e'
  | HTTPError | RequestException => false
  end.

Record request : Type := {
  verb : string;
  url : string;
  json_body : json;
  query : json;
  headers : list (string * string)
}.

(** A [requests.Response], by what the code asks of it:
    [raise_for_status()], [content] and [json()]. *)
Record response : Type := {
  status_ok : bool;
  content : bool;
  decoded : error + json
}.

Inductive notice : Type :=
| TokenExpiring
| JsonParseFailed (url : string)
| HttpFailed
| ServerResponse
| RequestFailed
| NoRefreshToken
| TokenRefreshed
| TokenNotRefreshed
| MyUserId (id : json)
| UsersCached (entries : nat).

(** What lies outside the repository: [config.BASE_URL], how [str] and
    an f-string write a value that is not a [str], [str.strip], the
    clock and the network. *)
Class Env : Type := {
  BASE_URL : string;
  format_value : json -> string;
  strip : string -> string;
  clock : nat -> Q;
  network : nat -> request -> error + response
}.

(** The client, with the requests handed to the requests library, the
    number of clock readings made, and what was printed.  The [dict]
    [user_cache] is the list of its items in the order of insertion. *)
Record Client : Type := {
  access_token : json;
  refresh_token : json;
  token_expiry : pyfloat;
  user_cache : list (json * json);
  my_user_id : json;
  sent : list request;
  readings : nat;
  printed : list notice
}.

(** [USPACYClient.__init__]. *)
Definition init_client : Client :=
  {| access_token := JNull; refresh_token := JNull; token_expiry := Finite 0;
     user_cache := []; my_user_id := JNull;
     sent := []; readings := 0; printed := [] |}.

Definition set_access_token (v : json) (c : Client) : Client :=
  {| access_token := v; refresh_token := refresh_token c;
     token_expiry := token_expiry c; user_cache := user_cache c;
     my_user_id := my_user_id c; sent := sent c; readings := readings c;
     printed := printed c |}.

Definition set_token_expiry (v : pyfloat) (c : Client) : Client :=
  {| access_token := access_token c; refresh_token := refresh_token c;
     token_expiry := v; user_cache := user_cache c; my_user_id := my_user_id c;
     sent := sent c; readings := readings c; printed := printed c |}.

Definition set_user_cache (v : list (json * json)) (c : Client) : Client :=
  {| access_token := access_token c; refresh_token := refresh_token c;
     token_expiry := token_expiry c; user_cache := v; my_user_id := my_user_id c;
     sent := sent c; readings := readings c; printed := printed c |}.

Definition set_my_user_id (v : json) (c : Client) : Client :=
  {| access_token := access_token c; refresh_token := refresh_token c;
     token_expiry := token_expiry c; user_cache := user_cache c; my_user_id := v;
     sent := sent c; readings := readings c; printed := printed c |}.

Inductive result (A : Type) : Type :=
| Returns (a : A)
| Raises (e : error).
Arguments Returns {A} a.
Arguments Raises {A} e.

Definition IO (A : Type) : Type := Client -> Client * result A.

Definition ret {A : Type} (a : A) : IO A := fun c => (c, Returns a).

Definition bind {A B : Type} (m : IO A) (k : A -> IO B) : IO B :=
  fun c =>
    match m c with
    | (c', Returns a) => k a c'
    | (c', Raises e) => (c', Raises e)
    end.

Definition raise {A : Type} (e : error) : IO A := fun c => (c, Raises e).

Definition try_except {A : Type} (body : IO A) (catches : error -> bool)
    (handler : error -> IO A) : IO A :=
  fun c =>
    match body c with
    | (c', Returns a) => (c', Returns a)
    | (c', Raises e) => if catches e then handler e c' else (c', Raises e)
    end.

Definition lift {A : Type} (r : exn + A) : IO A :=
  match r with inr a => ret a | inl e => raise (Builtin e) end.

Definition gets {A : Type} (f : Client -> A) : IO A :=
  fun c => (c, Returns (f c)).

Definition assign (f : Client -> Client) : IO unit :=
  fun c => (f c, Returns tt).

Definition print (n : notice) : IO unit :=
  fun c =>
    ({| access_token := access_token c; refresh_token := refresh_token c;
        token_expiry := token_expiry c; user_cache := user_cache c;
        my_user_id := my_user_id c; sent := sent c; readings := readings c;
        printed := printed c ++ [n] |},
     Returns tt).

Declare Scope http_scope.
Delimit Scope http_scope with http.
Notation "x <- c ;; k" := (bind c (fun x => k))
  (at level 100, c at next level, k at level 200, right associativity) : http_scope.
Notation "c ;; k" := (bind c (fun _ => k))
  (at level 100, k at level 200, right associativity) : http_scope.
Local Open Scope http_scope.

Section Methods.
Context `{Env}.

(** [time.time()]. *)
Definition time_time : IO Q :=
  fun c =>
    ({| access_token := access_token c; refresh_token := refresh_token c;
        token_expiry := token_expiry c; user_cache := user_cache c;
        my_user_id := my_user_id c; sent := sent c;
        readings := S (readings c); printed := printed c |},
     Returns (clock (readings c))).

(** [requests.post(...)] or [requests.get(...)]. *)
Definition requests_send (req : request) : IO response :=
  fun c =>
    ({| access_token := access_token c; refresh_token := refresh_token c;
        token_expiry := token_expiry c; user_cache := user_cache c;
        my_user_id := my_user_id c; sent := sent c ++ [req];
        readings := readings c; printed := printed c |},
     match network (length (sent c)) req with
     | inr resp => Returns resp
     | inl e => Raises e
     end).

(** [str(v)], which is also how an f-string writes [v]. *)
Definition py_str (v : json) : string :=
  match v with
  | JStr s => s
  | _ => format_value v
  end.

Fixpoint _make_request (depth : nat) (method endpoint : string) (data : json)
    (headers : list (string * string)) (params : json) {struct depth} : IO json :=
  match depth with
  | O => raise (Builtin RecursionError)
  | S depth' =>
      let url := (BASE_URL ++ "/" ++ endpoint)%string in
      token <- gets access_token ;;
      (if py_truthy token then
         now <- time_time ;;
         expiry <- gets token_expiry ;;
         if expiring now expiry then
           print TokenExpiring ;;
           refresh_access_token depth' ;;
           ret tt
         else ret tt
       else ret tt) ;;
      token <- gets access_token ;;
      let headers :=
        if py_truthy token
        then dict_set "Authorization" ("Bearer " ++ py_str token)%string headers
        else headers in
      try_except
        (resp <-
           (if String.eqb method "POST" then
              requests_send
                {| verb := "POST"; url := url; json_body := data; query := JNull;
                   headers := headers |}
            else if String.eqb method "GET" then
              requests_send
                {| verb := "GET"; url := url; json_body := JNull; query := params;
                   headers := headers |}
            else raise (Builtin ValueError)) ;;
         (if status_ok resp then ret tt else raise HTTPError) ;;
         if content resp then
           try_except
             (match decoded resp with
              | inr v => ret v
              | inl e => raise e
              end)
             is_json_JSONDecodeError
             (fun _ => print (JsonParseFailed url) ;; ret JNull)
         else ret JNull)
        is_RequestException
        (fun e =>
           match e with
           | HTTPError => print HttpFailed ;; print ServerResponse ;; ret JNull
           | _ => print RequestFailed ;; ret JNull
           end)
  end

with refresh_access_token (depth : nat) {struct depth} : IO bool :=
  match depth with
  | O => raise (Builtin RecursionError)
  | S depth' =>
      token <- gets refresh_token ;;
      if negb (py_truthy token) then
        print NoRefreshToken ;;
        ret false
      else
        resp <- _make_request depth' "POST" "auth/v1/auth/refresh_token"
                  (JDict [("refreshToken"%string, token)]) [] JNull ;;
        jwt <- (if py_truthy resp then lift (dict_get resp "jwt" JNull) else ret resp) ;;
        if py_truthy jwt then
          jwt <- lift (dict_item resp "jwt") ;;
          assign (set_access_token jwt) ;;
          now <- time_time ;;
          seconds <- lift (dict_item resp "expireInSeconds") ;;
          expiry <- lift (seconds_from now seconds) ;;
          assign (set_token_expiry expiry) ;;
          print TokenRefreshed ;;
          ret true
        else
          print TokenNotRefreshed ;;
          ret false
  end.

(** The last lines of [refresh_access_token] (143-149): what it makes
    of the response. *)
Definition adopt (resp : json) : IO bool :=
  jwt <- (if py_truthy resp then lift (dict_get resp "jwt" JNull) else ret resp) ;;
  if py_truthy jwt then
    jwt <- lift (dict_item resp "jwt") ;;
    assign (set_access_token jwt) ;;
    now <- time_time ;;
    seconds <- lift (dict_item resp "expireInSeconds") ;;
    expiry <- lift (seconds_from now seconds) ;;
    assign (set_token_expiry expiry) ;;
    print TokenRefreshed ;;
    ret true
  else
    print TokenNotRefreshed ;;
    ret false.

(** [str(x) if x is not None else None]. *)
Definition str_or_none (x : json) : json :=
  match x with
  | JNull => JNull
  | _ => JStr (py_str x)
  end.

(** [self.user_cache[key] = entry]. *)
Definition store (key entry : json) : IO unit :=
  if hashable key
  then assign (fun c => set_user_cache (cache_set key entry (user_cache c)) c)
  else raise (Builtin TypeError).

(** [self.user_cache.get(key)]. *)
Definition cache_lookup (key : json) : IO json :=
  if hashable key
  then cache <- gets user_cache ;; ret (default JNull (cache_get key cache))
  else raise (Builtin TypeError).

(** The [dict] with the name and the data of a user. *)
Definition entry_of (u : json) : IO json :=
  first <- lift (dict_get u "firstName" (JStr EmptyString)) ;;
  last <- lift (dict_get u "lastName" (JStr EmptyString)) ;;
  ret (JDict [("name"%string, JStr (strip (py_str first ++ " " ++ py_str last)));
              ("data"%string, u)]).

Fixpoint for_each {A : Type} (l : list A) (body : A -> IO unit) : IO unit :=
  match l with
  | [] => ret tt
  | x :: l' => body x ;; for_each l' body
  end.

(** The body of the loop over the users. *)
Definition cache_user (u : json) : IO unit :=
  auth_uid <- lift (dict_get u "authUserId" JNull) ;;
  comp_uid <- lift (dict_get u "id" JNull) ;;
  entry <- entry_of u ;;
  for_each [auth_uid; str_or_none auth_uid; comp_uid; str_or_none comp_uid]
    (fun key =>
       match key with
       | JNull => ret tt
       | _ => store key entry
       end).

Definition get_all_users (depth : nat) : IO (list (json * json)) :=
  match depth with
  | O => raise (Builtin RecursionError)
  | S depth' =>
      users <- _make_request depth' "GET" "company/v1/users" JNull []
                 (JDict [("list"%string, JStr "all")]) ;;
      (if py_truthy users && is_list users then
         assign (set_user_cache []) ;;
         for_each (elements users) cache_user ;;
         cache <- gets user_cache ;;
         print (UsersCached (length cache))
       else ret tt) ;;
      gets user_cache
  end.

Definition get_user_info (user_id : json) : IO json :=
  match user_id with
  | JNull => ret JNull
  | _ =>
      found <- cache_lookup user_id ;;
      if py_truthy found then ret found
      else cache_lookup (JStr (py_str user_id))
  end.

Definition get_me (depth : nat) : IO json :=
  match depth with
  | O => raise (Builtin RecursionError)
  | S depth' =>
      me <- _make_request depth' "GET" "company/v1/users/me" JNull [] JNull ;;
      (if py_truthy me then
         id <- lift (dict_get me "id" JNull) ;;
         assign (set_my_user_id id) ;;
         print (MyUserId id) ;;
         entry <- entry_of me ;;
         key <- gets my_user_id ;;
         store key entry
       else ret tt) ;;
      ret me
  end.

(** The keys under which a user is cached, and the entry. *)
Definition keys_of (u : json) : list json :=
  match u with
  | JDict d =>
      let auth_uid := default JNull (assoc "authUserId" d) in
      let comp_uid := default JNull (assoc "id" d) in
      List.filter (fun key => negb (is_None key))
        [auth_uid; str_or_none auth_uid; comp_uid; str_or_none comp_uid]
  | _ => []
  end.

Definition entry (u : json) : json :=
  match u with
  | JDict d =>
      JDict [("name"%string,
              JStr (strip (py_str (default (JStr EmptyString) (assoc "firstName" d)) ++
                           " " ++
                           py_str (default (JStr EmptyString) (assoc "lastName" d)))));
             ("data"%string, u)]
  | _ => JNull
  end.

Definition has_key (key u : json) : bool :=
  existsb (py_key_eq key) (keys_of u).

(** The last user of a list that is cached under [key]. *)
Fixpoint owner (key : json) (l : list json) : option json :=
  match l with
  | [] => None
  | u :: l' =>
      match owner key l' with
      | Some u' => Some u'
      | None => if has_key key u then Some u else None
      end
  end.

(** A user that can be cached: an object whose two identifiers can be
    keys. *)
Definition cacheable (u : json) : Prop :=
  exists d, u = JDict d /\
    hashable (default JNull (assoc "authUserId" d)) = true /\
    hashable (default JNull (assoc "id" d)) = true.

(** [get_notifications]. *)
Definition get_notifications (depth : nat) (params : json) : IO json :=
  match depth with
  | O => raise (Builtin RecursionError)
  | S depth' =>
      _make_request depth' "GET" "notifications/v1/notifications" JNull [] params
  end.

(** A refresh is due at the next call: a token is held, and the clock
    will read later than a minute before it expires. *)
Definition due (c : Client) : bool :=
  py_truthy (access_token c) && expiring (clock (readings c)) (token_expiry c).

(** The client once a call has looked at the token and, if there is
    one, at the clock. *)
Definition checked (c : Client) : Client :=
  if py_truthy (access_token c)
  then fst (time_time c)
  else c.

(** Both tokens are held and the access token is about to expire, or
    has expired, now and at every later reading of the clock. *)
Definition stuck (c : Client) : Prop :=
  py_truthy (access_token c) = true /\
  py_truthy (refresh_token c) = true /\
  forall k, (readings c <= k)%nat -> expiring (clock k) (token_expiry c) = true.

(** The request that a call makes. *)
Definition outgoing (method endpoint : string) (data : json)
    (headers : list (string * string)) (params : json) (c : Client) : request :=
  {| verb := method;
     url := (BASE_URL ++ "/" ++ endpoint)%string;
     json_body := if String.eqb method "POST" then data else JNull;
     query := if String.eqb method "POST" then JNull else params;
     headers :=
       if py_truthy (access_token c)
       then dict_set "Authorization" ("Bearer " ++ py_str (access_token c))%string
              headers
       else headers |}.

End Methods.

(** What a call returns for a reply of the network. *)
Definition answer (reply : error + response) : result json :=
  match reply with
  | inl (Builtin e) => Raises (Builtin e)
  | inl HTTPError | inl RequestException => Returns JNull
  | inr resp =>
      if negb (status_ok resp) then Returns JNull
      else if negb (content resp) then Returns JNull
      else
        match decoded resp with
        | inr v => Returns v
        | inl (Builtin e) =>
            if is_JSONDecodeError e then Returns JNull else Raises (Builtin e)
        | inl HTTPError | inl RequestException => Returns JNull
        end
  end.

(** The exceptions of the requests library. *)
Definition from_requests {A : Type} (r : result A) : bool :=
  match r with
  | Raises e => is_RequestException e
  | Returns _ => false
  end.

(** A computation from which no exception of the requests library
    escapes. *)
Definition contained {A : Type} (m : IO A) : Prop :=
  forall c, from_requests (snd (m c)) = false.

(** The tokens of a client, and what it knows of the users. *)
Definition tokens (c : Client) : json * json * pyfloat :=
  (access_token c, refresh_token c, token_expiry c).

Definition directory (c : Client) : list (json * json) * json :=
  (user_cache c, my_user_id c).

(** An environment for running the model: integers are written in
    decimal, the clock reads [start] and advances by one second with
    each reading, and the network gives the replies of a list in turn,
    and refuses once the list is used up. *)
Definition scripted (start : Q) (replies : list (error + response)) : Env :=
  {| BASE_URL := "https://example.invalid";
     format_value := fun v =>
       match v with
       | JInt z => NilZero.string_of_int (Z.to_int z)
       | _ => "?"%string
       end;
     strip := fun s => s;
     clock := fun k => (start + inject_Z (Z.of_nat k))%Q;
     network := fun k _ => nth k replies (inl RequestException) |}.

(** A client that signed in at time 0 with a token that lives an hour. *)
Definition signed_in : Client :=
  {| access_token := JStr "jwt-1"; refresh_token := JStr "refresh-1";
     token_expiry := Finite (inject_Z 3600); user_cache := []; my_user_id := JNull;
     sent := []; readings := 0; printed := [] |}.

(** A reply with a body that decodes to [v]. *)
Definition body (v : json) : error + response :=
  inr {| status_ok := true; content := true; decoded := inr v |}.

(** Two users; the [id] of the first is the [authUserId] of the second. *)
Definition ann : json :=
  JDict [("authUserId"%string, JInt 7); ("id"%string, JInt 3);
         ("firstName"%string, JStr "Ann"); ("lastName"%string, JStr "Lee")].

Definition bob : json :=
  JDict [("authUserId"%string, JInt 3); ("id"%string, JInt 9);
         ("firstName"%string, JStr "Bob"); ("lastName"%string, JStr "Ray")].

(** An answer of [company/v1/users/me] without an [id]. *)
Definition nameless : json :=
  JDict [("firstName"%string, JStr "Ann"); ("lastName"%string, JStr "Lee")].

End Http.


(** * Properties *)

(** ** What a computation leaves alone *)

Section Frames.
Context (R : World -> World -> Prop) `{!PreOrder R}.

Lemma preserves_ret {A : Type} (a : A) : preserves R (ret a).
Proof. intros w. simpl. reflexivity. Qed.

Lemma preserves_raise {A : Type} (e : exn) : preserves R (@raise A e).
Proof. intros w. simpl. reflexivity. Qed.

Lemma preserves_lift {A : Type} (r : exn + A) : preserves R (lift r).
Proof. destruct r; [apply preserves_raise | apply preserves_ret]. Qed.

Lemma preserves_gets {A : Type} (f : USPACYClient -> A) : preserves R (gets f).
Proof. intros w. simpl. reflexivity. Qed.

Lemma preserves_look {A : Type} (f : World -> A) : preserves R (look f).
Proof. intros w. simpl. reflexivity. Qed.

Lemma preserves_bind {A B : Type} (c : M A) (k : A -> M B) :
  preserves R c -> (forall a, preserves R (k a)) -> preserves R (bind c k).
Proof.
  intros Hc Hk w. unfold bind. specialize (Hc w).
  destruct (c w) as [w1 [a | e]]; simpl in *.
  - transitivity w1; [exact Hc | apply Hk].
  - exact Hc.
Qed.

Lemma preserves_try_except {A : Type} (body : M A) (catches : exn -> bool)
    (handler : exn -> M A) :
  preserves R body -> (forall e, preserves R (handler e)) ->
  preserves R (try_except body catches handler).
Proof.
  intros Hb Hh w. unfold try_except. specialize (Hb w).
  destruct (body w) as [w1 [a | e]]; simpl in *; [exact Hb |].
  destruct (catches e); simpl; [| exact Hb].
  transitivity w1; [exact Hb | apply Hh].
Qed.

End Frames.

#[export] Instance untouched_preorder : PreOrder untouched.
Proof.
  split.
  - intros w. unfold untouched. tauto.
  - intros a b c Hab Hbc. unfold untouched in *.
    destruct Hab as (? & ? & ? & ? & ? & ? & ? & ?).
    destruct Hbc as (? & ? & ? & ? & ? & ? & ? & ?).
    repeat split; congruence.
Qed.

#[export] Instance settled_preorder : PreOrder settled.
Proof.
  split.
  - intros w. split; [reflexivity | tauto].
  - intros a b c [Hab (? & ? & ?)] [Hbc (? & ? & ?)].
    split; [etransitivity; eassumption | repeat split; congruence].
Qed.

#[export] Instance silent_preorder : PreOrder silent.
Proof.
  split.
  - intros w. unfold silent. tauto.
  - intros a b c (? & ? & ?) (? & ? & ?). unfold silent. repeat split; congruence.
Qed.

#[export] Instance same_clock_preorder : PreOrder same_clock.
Proof.
  split.
  - intros w. reflexivity.
  - intros a b c Hab Hbc. unfold same_clock in *. congruence.
Qed.

(** The structure of a computation is taken apart down to its
    primitives. *)
Ltac frame_structure :=
  repeat match goal with
    | |- preserves ?R (bind _ _) => apply (@preserves_bind R _); [| intros ?]
    | |- preserves ?R (try_except _ _ _) =>
        apply (@preserves_try_except R _); [| intros ?]
    | |- preserves ?R (ret _) => apply (@preserves_ret R _)
    | |- preserves ?R (raise _) => apply (@preserves_raise R _)
    | |- preserves ?R (lift _) => apply (@preserves_lift R _)
    | |- preserves ?R (gets _) => apply (@preserves_gets R _)
    | |- preserves ?R (look _) => apply (@preserves_look R _)
    | |- preserves _ (let _ := _ in _) => cbv zeta
    | |- preserves _ (if true then _ else _) => cbv iota
    | |- preserves _ (if false then _ else _) => cbv iota
    | |- preserves _ (if ?b then _ else _) => destruct b
    | |- preserves _ (match ?x with _ => _ end) => destruct x
    end.

Ltac frame_primitive :=
  let w := fresh "w" in
  intros w; unfold settled; unfold untouched, silent, same_clock, emitted;
  simpl; rewrite ?omap_app; simpl; rewrite ?app_nil_r; tauto.

(** ** What a computation keeps true *)

Section Keeping.
Context (P : World -> Prop).

Lemma keeps_ret {A : Type} (a : A) : keeps P (ret a).
Proof. intros w Hw. exact Hw. Qed.

Lemma keeps_raise {A : Type} (e : exn) : keeps P (@raise A e).
Proof. intros w Hw. exact Hw. Qed.

Lemma keeps_lift {A : Type} (r : exn + A) : keeps P (lift r).
Proof. destruct r; intros w Hw; exact Hw. Qed.

Lemma keeps_gets {A : Type} (f : USPACYClient -> A) : keeps P (gets f).
Proof. intros w Hw. exact Hw. Qed.

Lemma keeps_look {A : Type} (f : World -> A) : keeps P (look f).
Proof. intros w Hw. exact Hw. Qed.

Lemma keeps_bind {A B : Type} (c : M A) (k : A -> M B) :
  keeps P c -> (forall a, keeps P (k a)) -> keeps P (bind c k).
Proof.
  intros Hc Hk w Hw. unfold bind. specialize (Hc w Hw).
  destruct (c w) as [w1 [a | e]]; simpl in *; [now apply Hk | exact Hc].
Qed.

Lemma keeps_try_except {A : Type} (body : M A) (catches : exn -> bool)
    (handler : exn -> M A) :
  keeps P body -> (forall e, keeps P (handler e)) ->
  keeps P (try_except body catches handler).
Proof.
  intros Hb Hh w Hw. unfold try_except. specialize (Hb w Hw).
  destruct (body w) as [w1 [a | e]]; simpl in *; [exact Hb |].
  destruct (catches e); simpl; [now apply Hh | exact Hb].
Qed.

End Keeping.

Ltac keep_structure :=
  repeat match goal with
    | |- keeps ?P (bind _ _) => apply (@keeps_bind P); [| intros ?]
    | |- keeps ?P (try_except _ _ _) => apply (@keeps_try_except P); [| intros ?]
    | |- keeps ?P (ret _) => apply (@keeps_ret P)
    | |- keeps ?P (raise _) => apply (@keeps_raise P)
    | |- keeps ?P (lift _) => apply (@keeps_lift P)
    | |- keeps ?P (gets _) => apply (@keeps_gets P)
    | |- keeps ?P (look _) => apply (@keeps_look P)
    | |- keeps _ (let _ := _ in _) => cbv zeta
    | |- keeps _ (if ?b then _ else _) => destruct b
    | |- keeps _ (match ?x with _ => _ end) => destruct x
    end.

(** A step that touches neither the heap nor [ws_notif]. *)
Ltac keep_primitive :=
  let w := fresh "w" in
  let Hw := fresh "Hw" in
  intros w Hw; exact Hw.

Lemma map_insert_same {A B : Type} (f : A -> B) (l : list A) (i : nat) (x y : A) :
  l !! i = Some x -> f y = f x -> map f (<[i := y]> l) = map f l.
Proof.
  revert i. induction l as [| z l IH]; intros [| i] Hi Hf; simpl in *;
    try discriminate; try reflexivity.
  - injection Hi as ->. now rewrite Hf.
  - f_equal. now apply IH.
Qed.

Lemma map_alter_same {A B : Type} (f : A -> B) (g : A -> A) (l : list A) (i : nat) :
  (forall x, f (g x) = f x) -> map f (alter g i l) = map f l.
Proof.
  intros Hg. revert i. induction l as [| z l IH]; intros [| i]; simpl;
    try reflexivity.
  - now rewrite Hg.
  - f_equal. apply IH.
Qed.

Lemma ws_send_untouched (ws : nat) (data : string) :
  preserves untouched (ws_send ws data).
Proof.
  intros w. unfold ws_send.
  destruct (heap w !! ws) as [a |] eqn:Ha; [| reflexivity].
  destruct (sock_connected a); [| reflexivity].
  unfold untouched. simpl. repeat split.
  now apply map_insert_same with (x := a).
Qed.

Lemma ws_send_settled (ws : nat) (data : string) :
  preserves settled (ws_send ws data).
Proof.
  intros w. split; [apply ws_send_untouched |].
  unfold ws_send. destruct (heap w !! ws) as [a |]; [| simpl; tauto].
  destruct (sock_connected a); simpl; tauto.
Qed.

Lemma ws_close_silent (ws : nat) : preserves silent (ws_close ws).
Proof.
  intros w. unfold silent, ws_close, emitted. simpl. repeat split.
  now apply map_alter_same.
Qed.

Create HintDb frames.
#[export] Hint Resolve ws_send_untouched ws_send_settled ws_close_silent : frames.

Section ReceiveFrames.
Context `{PyRuntime}.

Lemma on_ws2_message_untouched (now : Z) (ws : nat) (message : string) :
  preserves untouched (on_ws2_message now ws message).
Proof.
  unfold on_ws2_message, dispatch, read_handshake, read_event, call_handler, _send_ws.
  frame_structure; auto with frames; frame_primitive.
Qed.

End ReceiveFrames.

(** ** The close handler *)

Lemma on_ws2_close_unfold (w : World) :
  on_ws2_close w =
  (with_self (set_ws2_should_run false) (with_stdout (fun out => out ++ [Closed]) w),
   Return tt).
Proof. reflexivity. Qed.

(** C1.  [on_ws2_close] first calls [_stop_watchdog2], which clears
    [_ws2_should_run]; the test that follows therefore always takes the
    early [return].  Whatever the flag was when the transport closed, the
    handler returns with the flag cleared and without having started a
    reconnect thread.  At [lost_session], where the closure was
    unexpected, nothing is started, although the call on the last line of
    the handler, [_schedule2_reconnect(immediate=True)], would have
    started an immediate worker there. *)
Theorem on_ws2_close_never_reconnects :
  (forall w,
     snd (on_ws2_close w) = Return tt /\
     threads (fst (on_ws2_close w)) = threads w /\
     _ws2_should_run (self (fst (on_ws2_close w))) = false) /\
  _ws2_should_run (self lost_session) = true /\
  reports_connected lost_session = false /\
  threads (fst (on_ws2_close lost_session)) = [] /\
  threads (fst (_schedule2_reconnect true
                  (with_self (set_ws2_should_run false) lost_session))) = [true].
Proof.
  split; [| repeat split].
  intros w. rewrite on_ws2_close_unfold. simpl. auto.
Qed.

(** ** The backoff delay *)

Lemma reconnect_delay_value (immediate : bool) (w : World) :
  snd (reconnect_delay immediate w) =
  Return (if immediate || (_reconnect2_attempt (self w) =? 0) then 0
          else Z.min (_max2_backoff (self w))
                     (2 ^ Z.max 0 (_reconnect2_attempt (self w)))).
Proof. reflexivity. Qed.

(** C2, the statement of the specification fails: with the attempt
    counter at 0 a non-immediate scheduling computes the delay 0, not 1. *)
Lemma stated_backoff_fails :
  _reconnect2_attempt (self init_world) = 0 /\
  snd (reconnect_delay false init_world) = Return 0 /\
  ~ stated_backoff init_world.
Proof.
  repeat split. intros Hs.
  destruct (Hs 0 0 eq_refl eq_refl) as [H0 _].
  specialize (H0 eq_refl). discriminate.
Qed.

(** C2, amended.  A non-immediate scheduling with attempt counter [n]
    computes the delay 0 when [n = 0], and [min 30 (2 ^ n)] from [n = 1]
    on: 2, 4, 8 for [n = 1, 2, 3], and the cap 30 for every [n >= 5]. *)
Theorem backoff_sequence (w : World) (n : Z) :
  _max2_backoff (self w) = 30 ->
  _reconnect2_attempt (self w) = n ->
  exists delay,
    snd (reconnect_delay false w) = Return delay /\
    (n = 0 -> delay = 0) /\
    (1 <= n -> delay = Z.min 30 (2 ^ n)) /\
    (n = 1 -> delay = 2) /\ (n = 2 -> delay = 4) /\ (n = 3 -> delay = 8) /\
    (5 <= n -> delay = 30).
Proof.
  intros Hmax Hn. rewrite reconnect_delay_value, Hmax, Hn. simpl orb.
  clear Hmax Hn.
  eexists. split; [reflexivity |].
  repeat split; intros Hc; subst; try reflexivity.
  - destruct (Z.eqb_spec n 0) as [-> | _]; [lia |].
    now rewrite Z.max_r by lia.
  - destruct (Z.eqb_spec n 0) as [-> | _]; [lia |].
    rewrite Z.max_r by lia.
    assert (2 ^ 5 <= 2 ^ n) by (apply Z.pow_le_mono_r; lia).
    change (2 ^ 5) with 32 in *. lia.
Qed.

Lemma backoff_sequence_witness :
  exists delay,
    snd (reconnect_delay false (with_self (set_reconnect2_attempt 7) init_world))
      = Return delay /\
    (7 = 0 -> delay = 0) /\
    (1 <= 7 -> delay = Z.min 30 (2 ^ 7)) /\
    (7 = 1 -> delay = 2) /\ (7 = 2 -> delay = 4) /\ (7 = 3 -> delay = 8) /\
    (5 <= 7 -> delay = 30).
Proof.
  apply (backoff_sequence (with_self (set_reconnect2_attempt 7) init_world) 7);
    reflexivity.
Defined.

(** ** Connecting *)

Ltac run_methods :=
  unfold do_reconnect, reconnect_delay, reconnect_attempt,
    refresh_access_token, _schedule2_reconnect, shutdown_notifications,
    on_ws2_close, on_ws2_open, _start_watchdog2, _stop_watchdog2,
    start_do_reconnect, ws_close, bind, look, try_except, gets, assign,
    print, ret, raise in *;
  simpl in *.

Lemma alter_length_closed (i : nat) (h : list WebSocketApp) :
  length (alter closed_app i h) = length h.
Proof. apply length_alter. Qed.

Lemma connect_connected (fault : connect_fault) (w : World) :
  reports_connected w = true ->
  connect_notifications_websocket fault w =
  (with_stdout (fun out => out ++ [AlreadyConnected]) w, Return tt).
Proof.
  intros Hc. unfold connect_notifications_websocket, bind, look. simpl.
  now rewrite Hc.
Qed.

Lemma connect_disconnected (fault : connect_fault) (w : World) :
  reports_connected w = false ->
  connect_notifications_websocket fault w =
  match fault with
  | NoFault => (replaced w, Return tt)
  | ConstructorRaises e => (close_current w, Raised e)
  | ThreadStartRaises e => (replaced w, Raised e)
  end.
Proof.
  intros Hc. unfold connect_notifications_websocket, bind, look. simpl.
  rewrite Hc. unfold replaced, close_current, gets, try_except, ws_close.
  destruct w as [c h out th]; simpl.
  destruct (ws_notif c) as [i |]; destruct fault; simpl;
    rewrite ?alter_length_closed; reflexivity.
Qed.

Lemma replaced_not_connected (w : World) : reports_connected (replaced w) = false.
Proof.
  unfold reports_connected, replaced, close_current. simpl.
  destruct (ws_notif (self w)) as [i |]; simpl.
  - rewrite <- (alter_length_closed i (heap w)).
    now rewrite list_lookup_middle.
  - now rewrite list_lookup_middle.
Qed.

(** C3.  The attempt counter is cleared by the connect request itself:
    when no transport reports connected,
    [connect_notifications_websocket] leaves the counter at 0 although
    no handshake frame has arrived, and so the increment that
    [do_reconnect] makes just before it calls connect is lost: after a
    reconnect attempt the counter is 0, not one more than before.  When
    the connect call raises as the thread is started, the attempt that
    [do_reconnect] then schedules "with backoff" finds the counter at 0
    and computes the delay 0. *)
Theorem connect_resets_attempt_counter (w : World) (now : Z) (r : refresh_result) :
  reports_connected w = false ->
  (forall e, r <> RefreshRaises e) ->
  _reconnect2_attempt (self (fst (connect_notifications_websocket NoFault w))) = 0 /\
  _reconnect2_attempt (self (fst (reconnect_attempt now r NoFault w))) = 0 /\
  forall e,
    let w' := fst (reconnect_attempt now r (ThreadStartRaises e) w) in
    _reconnect2_attempt (self w') = 0 /\
    threads w' = threads w ++ [false] /\
    snd (reconnect_delay false w') = Return 0.
Proof.
  intros Hc Hr. split.
  { now rewrite (connect_disconnected NoFault w Hc). }
  assert (Hprefix : forall fault,
    exists w1, reports_connected w1 = false /\ threads w1 = threads w /\
      reconnect_attempt now r fault w =
      try_except (connect_notifications_websocket fault) Exception
        (fun e => print (ReconnectFailed e) ;;
                  assign (set_ws2_should_run false) ;;
                  _schedule2_reconnect false)%py w1).
  { intros fault. unfold reconnect_attempt, bind at 1, look. simpl. rewrite Hc.
    unfold bind at 1, gets at 1. simpl. unfold bind at 1, gets at 1. simpl.
    destruct (truthy (access_token (self w)) && (now >? token_expiry (self w) - 60000)).
    - destruct r as [jwt expiry | | e]; [| | now destruct (Hr e)].
      + eexists. split; [| split; [| reflexivity]]; [| reflexivity].
        unfold reports_connected in *. simpl. exact Hc.
      + eexists. split; [| split; [| reflexivity]]; [| reflexivity].
        unfold reports_connected in *. simpl. exact Hc.
    - eexists. split; [| split; [| reflexivity]]; [| reflexivity].
      unfold reports_connected in *. simpl. exact Hc. }
  split.
  - destruct (Hprefix NoFault) as (w1 & Hc1 & _ & ->).
    unfold try_except. now rewrite (connect_disconnected NoFault w1 Hc1).
  - intros e w'. subst w'.
    destruct (Hprefix (ThreadStartRaises e)) as (w1 & Hc1 & Ht1 & ->).
    clear Hprefix.
    unfold try_except. rewrite (connect_disconnected _ w1 Hc1). simpl.
    pose proof (replaced_not_connected w1) as Hn.
    run_methods. unfold reports_connected in *. simpl in *. rewrite Hn. simpl.
    rewrite <- Ht1. unfold close_current. destruct (ws_notif (self w1)); auto.
Qed.

Lemma connect_resets_attempt_counter_witness :
  _reconnect2_attempt (self lost_session) = 0 /\
  _reconnect2_attempt
    (self (fst (reconnect_attempt 5000 NotRefreshed NoFault lost_session))) = 0 /\
  snd (reconnect_delay false
         (fst (reconnect_attempt 5000 NotRefreshed
                 (ThreadStartRaises RuntimeError) lost_session))) = Return 0.
Proof.
  assert (Hr : forall e, NotRefreshed <> RefreshRaises e) by discriminate.
  destruct (connect_resets_attempt_counter lost_session 5000 NotRefreshed eq_refl Hr)
    as (_ & Ha & Hf).
  split; [reflexivity |]. split; [exact Ha |].
  destruct (Hf RuntimeError) as (_ & _ & Hd). exact Hd.
Defined.

(** ** The handshake *)

Ltac quiet_stdout :=
  unfold emitted; simpl; rewrite ?omap_app; simpl; rewrite ?app_nil_r;
  reflexivity.

Arguments slice_from : simpl never.
Arguments startswith : simpl never.

Section Handshake.
Context `{PyRuntime}.

(** The inner [try] of the handshake branch in closed form. *)
Lemma read_handshake_outcome (message : string) (w : World) :
  exists out,
    try_except (read_handshake message) Exception
      (fun e =>
         print (HandshakeParseFailed e) ;;
         assign (set_ping2_interval_sec 25) ;;
         assign (set_ping2_timeout_sec 60))%py w =
    (with_stdout (fun _ => out)
       (with_self
          (fun c =>
             match handshake_values (json_loads (slice_from 1 message)) with
             | Some (a, b) =>
                 set_ping2_timeout_sec (Z.max 10 (b / 1000))
                   (set_ping2_interval_sec (Z.max 5 (a / 1000)) c)
             | None => set_ping2_timeout_sec 60 (set_ping2_interval_sec 25 c)
             end) w),
     Return tt) /\
    emitted (with_stdout (fun _ => out) w) = emitted w.
Proof.
  unfold try_except, read_handshake, handshake_values, bind at 1.
  destruct (json_loads (slice_from 1 message)) as [e | info]; simpl.
  { eexists. split; [reflexivity | quiet_stdout]. }
  destruct info as [| b | z | f | s | l | d]; simpl;
    try (eexists; split; [reflexivity | quiet_stdout]).
  destruct (assoc "pingInterval" d) as [vi |];
    destruct (assoc "pingTimeout" d) as [vt |]; unfold bind, ret; simpl;
    repeat match goal with
      | |- context [py_int ?v] => is_var v; destruct (py_int v)
      end;
    simpl; eexists;
    (split; [reflexivity | quiet_stdout]).
Qed.

Lemma handshake_intervals_after (now : Z) (ws : nat) (message : string) (w : World) :
  startswith message "0" = true ->
  exists w',
    on_ws2_message now ws message w = (w', Return tt) /\
    (_ping2_interval_sec (self w'), _ping2_timeout_sec (self w')) =
    match handshake_values (json_loads (slice_from 1 message)) with
    | Some (a, b) => (Z.max 5 (a / 1000), Z.max 10 (b / 1000))
    | None => (25, 60)
    end.
Proof.
  intros Hs. unfold on_ws2_message, dispatch. rewrite Hs.
  unfold bind at 1 2, print at 1, assign at 1. simpl.
  unfold try_except at 1, bind at 1.
  match goal with
  | |- context [try_except (read_handshake message) Exception ?h ?w0] =>
      destruct (read_handshake_outcome message w0) as (out & -> & _)
  end.
  destruct (handshake_values (json_loads (slice_from 1 message))) as [[x y] |];
    unfold _send_ws; unfold bind, gets, print, assign, ws_send, ret; simpl;
    (destruct (truthy (access_token (self w))); simpl;
     [destruct (heap w !! ws) as [a |]; simpl;
      [destruct (sock_connected a); simpl |] |]);
    eexists; split; reflexivity.
Qed.

(** C4, amended.  On a handshake frame the callback never raises, and:
    a member that is absent (also because the payload is no object or
    does not decode) leaves its default, 25 s or 60 s; when the payload
    is an object both of whose members (or defaults) convert to
    integers, each value is divided by 1000 and raised to the floor, so
    a value below the floor gives 5 s, respectively 10 s; and when the
    payload does not decode, is no object, or either member does not
    convert, both defaults 25 s and 60 s are adopted. *)
Theorem handshake_intervals (now : Z) (ws : nat) (message : string) (w : World) :
  startswith message "0" = true ->
  let payload := json_loads (slice_from 1 message) in
  let w' := fst (on_ws2_message now ws message w) in
  snd (on_ws2_message now ws message w) = Return tt /\
  (member payload "pingInterval" = None -> _ping2_interval_sec (self w') = 25) /\
  (member payload "pingTimeout" = None -> _ping2_timeout_sec (self w') = 60) /\
  (forall a b, handshake_values payload = Some (a, b) ->
     _ping2_interval_sec (self w') = Z.max 5 (a / 1000) /\
     _ping2_timeout_sec (self w') = Z.max 10 (b / 1000) /\
     (a / 1000 < 5 -> _ping2_interval_sec (self w') = 5) /\
     (b / 1000 < 10 -> _ping2_timeout_sec (self w') = 10)) /\
  (handshake_values payload = None ->
     _ping2_interval_sec (self w') = 25 /\ _ping2_timeout_sec (self w') = 60).
Proof.
  intros Hs payload w'.
  destruct (handshake_intervals_after now ws message w Hs) as (w1 & Hr & Hv).
  subst w'. rewrite Hr. simpl. fold payload in Hv. split; [reflexivity |].
  set (w' := w1) in *.
  assert (Hi : _ping2_interval_sec (self w') =
               fst (match handshake_values payload with
                    | Some (a, b) => (Z.max 5 (a / 1000), Z.max 10 (b / 1000))
                    | None => (25, 60) end)) by now rewrite <- Hv.
  assert (Ht : _ping2_timeout_sec (self w') =
               snd (match handshake_values payload with
                    | Some (a, b) => (Z.max 5 (a / 1000), Z.max 10 (b / 1000))
                    | None => (25, 60) end)) by now rewrite <- Hv.
  clear Hv. repeat split.
  - intros Hm. rewrite Hi. unfold handshake_values, member in *.
    destruct payload as [e | [| ? | ? | ? | ? | ? | d]]; try reflexivity.
    rewrite Hm. simpl.
    destruct (py_int (default (JInt 60000) (assoc "pingTimeout" d))); reflexivity.
  - intros Hm. rewrite Ht. unfold handshake_values, member in *.
    destruct payload as [e | [| ? | ? | ? | ? | ? | d]]; try reflexivity.
    rewrite Hm. simpl.
    destruct (py_int (default (JInt 25000) (assoc "pingInterval" d))); reflexivity.
  - rewrite Hi, H0. reflexivity.
  - rewrite Ht, H0. reflexivity.
  - rewrite Hi, H0. simpl. lia.
  - rewrite Ht, H0. simpl. lia.
  - rewrite Hi, H0. reflexivity.
  - rewrite Ht, H0. reflexivity.
Qed.

End Handshake.

(** C4, the statement of the specification fails: in the frame
    [0{"pingInterval":1000,"pingTimeout":null}] the interval is present
    and below the floor, yet the session adopts 25 s, because the
    conversion of the other member raises and the [except] clause
    overwrites both. *)
Lemma stated_floor_fails :
  @json_loads sample_runtime (slice_from 1 half_frame) = inr half_handshake_value /\
  _ping2_interval_sec
    (self (fst (@on_ws2_message sample_runtime 0 0%nat half_frame init_world))) = 25 /\
  ~ @stated_floor sample_runtime half_frame init_world.
Proof.
  split; [reflexivity |]. split; [reflexivity |]. intros Hs.
  destruct (Hs 0 0%nat _ 1000 eq_refl eq_refl) as [Hi _].
  specialize (Hi eq_refl eq_refl). vm_compute in Hi. discriminate.
Qed.

Lemma handshake_intervals_witness :
  _ping2_interval_sec
    (self (fst (@on_ws2_message sample_runtime 0 0%nat short_frame init_world))) = 5 /\
  _ping2_timeout_sec
    (self (fst (@on_ws2_message sample_runtime 0 0%nat short_frame init_world))) = 10.
Proof.
  destruct (@handshake_intervals sample_runtime 0 0%nat short_frame init_world eq_refl)
    as (_ & _ & _ & Hv & _).
  destruct (Hv 1000 2000 eq_refl) as (_ & _ & Hi & Ht).
  split; [apply Hi | apply Ht]; reflexivity.
Defined.

(** ** Outbound frames *)

Lemma sends_nothing (ws : nat) (w w' : World) :
  silent w w' -> untouched w w' -> sends ws [] w w'.
Proof.
  intros (He & Hw & Ht) (_ & _ & _ & _ & _ & _ & _ & Hs).
  split; [now rewrite app_nil_r |]. split; [exact Ht |].
  intros a Ha Hc.
  assert (Hsh : map shape (heap w') !! ws = Some (shape a)).
  { rewrite Hs, list_lookup_fmap, Ha. reflexivity. }
  assert (Hwi : map wire (heap w') !! ws = Some (wire a)).
  { rewrite Hw, list_lookup_fmap, Ha. reflexivity. }
  rewrite list_lookup_fmap in Hsh. rewrite list_lookup_fmap in Hwi.
  destruct (heap w' !! ws) as [a' |]; [| discriminate].
  simpl in *. exists a'. split; [reflexivity |].
  injection Hsh as Hsock _. injection Hwi as Hwire.
  unfold sock_connected in *. rewrite Hsock, Hwire, app_nil_r. auto.
Qed.

Lemma sends_trans (ws : nat) (o1 o2 : list string) (w w1 w2 : World) :
  sends ws o1 w w1 -> sends ws o2 w1 w2 -> sends ws (o1 ++ o2) w w2.
Proof.
  intros (He1 & Ht1 & Hw1) (He2 & Ht2 & Hw2). split; [| split].
  - now rewrite He2, He1, app_assoc.
  - congruence.
  - intros a Ha Hc. destruct (Hw1 a Ha Hc) as (a1 & Ha1 & Hc1 & Hwa1).
    destruct (Hw2 a1 Ha1 Hc1) as (a2 & Ha2 & Hc2 & Hwa2).
    exists a2. split; [exact Ha2 |]. split; [exact Hc2 |].
    now rewrite Hwa2, Hwa1, app_assoc.
Qed.

(** [_send_ws] hands one frame over, whether or not [send] raises. *)
Lemma sends_send_ws (ws : nat) (data : string) (w : World) :
  sends ws [data] w (fst (_send_ws ws data w)).
Proof.
  unfold _send_ws, bind, print, ws_send. simpl.
  destruct (heap w !! ws) as [a |] eqn:Ha; simpl.
  - destruct (sock_connected a) eqn:Hc; simpl.
    + split; [| split; [reflexivity |]].
      * unfold emitted. simpl. now rewrite omap_app.
      * intros a0 Ha0 _. rewrite Ha in Ha0. injection Ha0 as <-.
        exists (transmit data a). split; [| split; [exact Hc | reflexivity]].
        apply list_lookup_insert_eq. now apply lookup_lt_Some with (x := a).
    + split; [| split; [reflexivity |]].
      * unfold emitted. simpl. now rewrite omap_app.
      * intros a0 Ha0 Hc0. rewrite Ha in Ha0. injection Ha0 as <-. congruence.
  - split; [| split; [reflexivity |]].
    + unfold emitted. simpl. now rewrite omap_app.
    + intros a0 Ha0. rewrite Ha in Ha0. discriminate.
Qed.

Lemma startswith_cons (c a : ascii) (m p : string) :
  startswith (String c m) (String a p) =
  if ascii_dec a c then startswith m p else false.
Proof. reflexivity. Qed.

Lemma startswith_empty (m : string) : startswith m EmptyString = true.
Proof. now destruct m. Qed.

Lemma startswith_0_not_2 (message : string) :
  startswith message "0" = true -> startswith message "2" = false.
Proof.
  destruct message as [| c m]; [discriminate |].
  rewrite !startswith_cons.
  destruct (ascii_dec "0" c) as [<- | Hn]; [reflexivity | discriminate].
Qed.

Section Outbound.
Context `{PyRuntime}.

Lemma on_ws2_message_silent (now : Z) (ws : nat) (message : string) :
  startswith message "0" = false ->
  startswith message "2" = false ->
  preserves silent (on_ws2_message now ws message).
Proof.
  intros H0 H2.
  unfold on_ws2_message, dispatch, read_event, call_handler. rewrite H0, H2.
  frame_structure; frame_primitive.
Qed.

Ltac sends_explicit :=
  split; [unfold emitted in *; simpl in *; rewrite ?omap_app in *; simpl in *;
          rewrite ?app_nil_r in *; congruence
         | split; [reflexivity |]].

(** One inbound frame: the session hands over exactly [reply]. *)
Lemma sends_on_ws2_message (now : Z) (ws : nat) (message : string) (w : World) :
  sends ws (reply (access_token (self w)) message) w
    (fst (on_ws2_message now ws message w)).
Proof.
  unfold reply.
  destruct (startswith message "0") eqn:H0; [| destruct (startswith message "2") eqn:H2].
  - (* handshake *)
    unfold on_ws2_message, dispatch. rewrite H0.
    unfold bind at 1 2, print at 1, assign at 1. simpl.
    unfold try_except at 1, bind at 1.
    match goal with
    | |- context [try_except (read_handshake message) Exception ?h ?w0] =>
        destruct (read_handshake_outcome message w0) as (out & -> & Hout)
    end.
    destruct (handshake_values (json_loads (slice_from 1 message))) as [[x y] |];
      unfold _send_ws; unfold bind, gets, print, assign, ws_send, ret; simpl;
      (destruct (truthy (access_token (self w))); simpl;
       [destruct (heap w !! ws) as [a |] eqn:Ha; simpl;
        [destruct (sock_connected a) eqn:Hc; simpl |] |]);
      sends_explicit; intros a0 Ha0 Hc0; simpl;
      try (rewrite Ha in Ha0; injection Ha0 as <-);
      try congruence;
      try (eexists; split;
           [apply list_lookup_insert_eq; now apply lookup_lt_Some with (x := a)
           | split; [exact Hc | reflexivity]]);
      exists a0; now rewrite app_nil_r.
  - (* probe *)
    unfold on_ws2_message, dispatch. rewrite H0, H2.
    unfold _send_ws; unfold try_except, bind, print, assign, ws_send, ret; simpl.
    destruct (heap w !! ws) as [a |] eqn:Ha; simpl;
      [destruct (sock_connected a) eqn:Hc; simpl |]; sends_explicit.
    + intros a0 Ha0 _. rewrite Ha in Ha0. injection Ha0 as <-.
      exists (transmit "3" a). split; [| split; [exact Hc | reflexivity]].
      apply list_lookup_insert_eq. now apply lookup_lt_Some with (x := a).
    + intros a0 Ha0 Hc0. congruence.
    + intros a0 Ha0. congruence.
  - (* every other frame *)
    apply sends_nothing.
    + now apply on_ws2_message_silent.
    + apply on_ws2_message_untouched.
Qed.

Lemma sends_receive (ws : nat) (frames : list (Z * string)) (w : World) :
  sends ws (flat_map (fun f => reply (access_token (self w)) (snd f)) frames)
    w (receive ws w frames).
Proof.
  revert w. induction frames as [| [now message] frames IH]; intros w.
  - simpl. apply sends_nothing; reflexivity.
  - simpl. eapply sends_trans; [apply sends_on_ws2_message |].
    pose proof (sends_on_ws2_message now ws message w) as (_ & Ht & _).
    unfold receive in IH. rewrite <- Ht. apply IH.
Qed.

End Outbound.

Lemma reply_acks (token : option string) (message : string) :
  filter (fun d => is_ack d = true) (reply token message) =
  if is_probe message then ["3"%string] else [].
Proof.
  unfold reply, is_probe.
  destruct (startswith message "0") eqn:H0.
  - rewrite (startswith_0_not_2 message H0). now destruct (truthy token).
  - now destruct (startswith message "2").
Qed.

Lemma reply_no_probe (token : option string) (message : string) :
  Forall (fun d => is_probe d = false) (reply token message).
Proof.
  unfold reply.
  destruct (startswith message "0"); [destruct (truthy token) |
    destruct (startswith message "2")]; repeat constructor.
Qed.

Ltac keep_frames :=
  let w := fresh "w" in
  let Hw := fresh "Hw" in
  intros w Hw; unfold only_session_frames, emitted in *; simpl;
  rewrite ?omap_app; simpl; rewrite ?app_nil_r;
  first
    [ exact Hw
    | apply Forall_app_2;
      [exact Hw
      | constructor;
        [first [left; reflexivity | right; eexists; reflexivity] | constructor]] ].

Lemma ws_send_keeps_frames (ws : nat) (data : string) :
  keeps only_session_frames (ws_send ws data).
Proof.
  intros w Hw. unfold ws_send.
  destruct (heap w !! ws) as [a |]; [destruct (sock_connected a) |]; exact Hw.
Qed.

#[export] Hint Resolve ws_send_keeps_frames : frames.

Section RunFrames.
Context `{PyRuntime}.

Lemma on_ws2_message_keeps_frames (now : Z) (ws : nat) (message : string) :
  keeps only_session_frames (on_ws2_message now ws message).
Proof.
  unfold on_ws2_message, dispatch, read_handshake, read_event, call_handler, _send_ws.
  keep_structure; auto with frames; keep_frames.
Qed.

Lemma react_keeps_frames (ev : event) : keeps only_session_frames (react ev).
Proof.
  destruct ev as [fault | | ws now | ws now message | e | ws | now | immediate
                 | immediate now r fault]; simpl.
  - unfold connect_notifications_websocket, ws_close.
    keep_structure; auto with frames; keep_frames.
  - unfold shutdown_notifications, ws_close.
    keep_structure; auto with frames; keep_frames.
  - intros w Hw. unfold transport_opened.
    destruct (heap w !! ws) as [a |]; [| exact Hw].
    destruct (keep_running a && negb (sock_connected a)); [| exact Hw].
    assert (Ho : keeps only_session_frames (on_ws2_open now)).
    { unfold on_ws2_open, _start_watchdog2. keep_structure; keep_frames. }
    apply Ho. exact Hw.
  - intros w Hw. unfold frame_received.
    destruct (heap w !! ws) as [a |]; [| exact Hw].
    destruct (sock_connected a); [| exact Hw].
    now apply on_ws2_message_keeps_frames.
  - unfold on_ws2_error. keep_frames.
  - unfold transport_closed, on_ws2_close, _stop_watchdog2, _schedule2_reconnect,
      start_do_reconnect, ws_close.
    keep_structure; auto with frames; keep_frames.
  - unfold watchdog_step, watchdog_check, ws_close.
    keep_structure; auto with frames; keep_frames.
  - unfold _schedule2_reconnect, start_do_reconnect.
    keep_structure; auto with frames; keep_frames.
  - unfold do_reconnect, reconnect_delay, reconnect_attempt, refresh_access_token,
      connect_notifications_websocket, _schedule2_reconnect, start_do_reconnect,
      ws_close.
    keep_structure; auto with frames; keep_frames.
Qed.

Lemma run_keeps_frames (trace : list event) (w : World) :
  only_session_frames w -> only_session_frames (run w trace).
Proof.
  revert w. induction trace as [| ev trace IH]; intros w Hw; [exact Hw |].
  simpl. apply IH. now apply react_keeps_frames.
Qed.

End RunFrames.



(** ** Errors on the receive path *)

Section ReceiveErrors.
Context `{PyRuntime}.

Lemma dispatch_event (ws : nat) (message : string) :
  startswith message "42" = true ->
  startswith message "0" = false /\
  dispatch ws message =
  try_except (read_event message) is_JSONDecodeError
    (fun e => print (PayloadParseFailed e)).
Proof.
  destruct message as [| c1 m]; [discriminate |].
  rewrite startswith_cons.
  destruct (ascii_dec "4" c1) as [<- | ?]; [| discriminate].
  destruct m as [| c2 m]; [discriminate |].
  rewrite startswith_cons.
  destruct (ascii_dec "2" c2) as [<- | ?]; [| discriminate].
  intros _. split; [reflexivity |].
  unfold dispatch. rewrite !startswith_cons. simpl. now rewrite startswith_empty.
Qed.

Lemma on_ws2_message_returns (now : Z) (ws : nat) (message : string) (w : World) :
  snd (on_ws2_message now ws message w) = Return tt.
Proof.
  unfold on_ws2_message, bind, print, assign, try_except. simpl.
  destruct (dispatch ws message _) as [w1 [[] | e]]; reflexivity.
Qed.


End ReceiveErrors.


(** ** The watchdog *)

Lemma ws_send_same_clock (ws : nat) (data : string) :
  preserves same_clock (ws_send ws data).
Proof.
  intros w. unfold ws_send, same_clock.
  destruct (heap w !! ws) as [a |]; [destruct (sock_connected a) |]; reflexivity.
Qed.

#[export] Hint Resolve ws_send_same_clock : frames.

Section ReceiveClock.
Context `{PyRuntime}.

Lemma on_ws2_message_clock (now : Z) (ws : nat) (message : string) (w : World) :
  _last2_rx_ts (self (fst (on_ws2_message now ws message w))) = now.
Proof.
  assert (Hd : preserves same_clock
                 (try_except (dispatch ws message) Exception
                    (fun e => print (MessageFailed e)))).
  { unfold dispatch, read_handshake, read_event, call_handler, _send_ws.
    frame_structure; auto with frames; frame_primitive. }
  unfold on_ws2_message, bind at 1 2, print at 1, assign at 1. simpl.
  rewrite Hd. reflexivity.
Qed.

Lemma on_ws2_message_settled (now : Z) (ws : nat) (message : string) :
  startswith message "0" = false ->
  preserves settled (on_ws2_message now ws message).
Proof.
  intros H0.
  unfold on_ws2_message, dispatch, read_event, call_handler, _send_ws. rewrite H0.
  frame_structure; auto with frames; frame_primitive.
Qed.

End ReceiveClock.

Lemma watchdog_step_silent (now : Z) : preserves silent (watchdog_step now).
Proof.
  unfold watchdog_step, watchdog_check.
  frame_structure; auto with frames; frame_primitive.
Qed.

Lemma shape_lookup (h h' : list WebSocketApp) (i : nat) (a : WebSocketApp) :
  map shape h' = map shape h -> h !! i = Some a ->
  exists a', h' !! i = Some a' /\ shape a' = shape a.
Proof.
  intros Hs Ha.
  assert (Hl : map shape h' !! i = Some (shape a)).
  { rewrite Hs, list_lookup_fmap, Ha. reflexivity. }
  rewrite list_lookup_fmap in Hl.
  destruct (h' !! i) as [a' |]; [| discriminate].
  exists a'. split; [reflexivity |]. simpl in Hl. congruence.
Qed.

Lemma watched_connected (i : nat) (last : Z) (w : World) :
  watched i last w -> reports_connected w = true.
Proof.
  intros (_ & Hws & (a & Ha & Hc) & _). unfold reports_connected.
  now rewrite Hws, Ha.
Qed.

(** A round in which the deadline has not passed leaves the world as it
    was. *)
Lemma watchdog_quiet_round (i : nat) (last now : Z) (w : World) :
  watched i last w ->
  _watchdog2_thread (self w) = Some AtLoopHead ->
  now + 1000 - last <= 60000 ->
  watchdog_rounds 1 now w = w.
Proof.
  intros Hw Ht Hn. pose proof (watched_connected i last w Hw) as Hc.
  destruct Hw as (Hrun & Hws & _ & Hto & Hlast).
  unfold watchdog_rounds, watchdog_step, watchdog_check, watchdog_test.
  unfold bind, gets, look, assign, try_except, ret. simpl.
  rewrite Ht. simpl. rewrite Hrun, Hc. simpl.
  rewrite Hlast.
  destruct w as [c h out th]. destruct c. simpl in *. subst.
  match goal with
  | |- context [?x <=? 0] => destruct (Z.leb_spec x 0); simpl; [reflexivity |]
  end.
  match goal with
  | |- context [?x >? ?y] => destruct (Z.gtb_spec x y); [lia | reflexivity]
  end.
Qed.

(** A round in which the deadline has passed closes the transport and
    ends the loop. *)
Lemma watchdog_firing_round (i : nat) (last now : Z) (w : World) :
  watched i last w ->
  _watchdog2_thread (self w) = Some AtLoopHead ->
  0 < last ->
  60000 < now + 1000 - last ->
  reports_connected (watchdog_rounds 1 now w) = false /\
  _watchdog2_thread (self (watchdog_rounds 1 now w)) = Some Finished.
Proof.
  intros Hw Ht Hpos Hn. pose proof (watched_connected i last w Hw) as Hc.
  destruct Hw as (Hrun & Hws & (a & Ha & _) & Hto & Hlast).
  unfold watchdog_rounds, watchdog_step, watchdog_check, watchdog_test.
  unfold bind, gets, look, assign, try_except, ret, print, ws_close. simpl.
  rewrite Ht. simpl. rewrite Hrun, Hc. simpl.
  rewrite Hlast.
  destruct (Z.leb_spec last 0); [lia |]. simpl. rewrite Hto.
  destruct (Z.gtb_spec (now + 1000 - last) (60 * 1000)); [| lia]. simpl.
  rewrite Hws. simpl.
  split; [| reflexivity].
  unfold reports_connected. simpl. rewrite Hws.
  rewrite list_lookup_alter, Ha.
  destruct (decide (i = i)); [reflexivity | congruence].
Qed.

Lemma watchdog_finished (n : nat) (now : Z) (w : World) :
  _watchdog2_thread (self w) = Some Finished ->
  watchdog_rounds n now w = w.
Proof.
  revert now. induction n as [| n IH]; intros now Ht; [reflexivity |].
  simpl. unfold watchdog_step, bind, gets. simpl. rewrite Ht. simpl.
  unfold bind, gets. simpl. rewrite Ht. simpl. now apply IH.
Qed.

Lemma watchdog_rounds_quiet (i : nat) (last : Z) (w : World) (n : nat) (t0 : Z) :
  watched i last w ->
  _watchdog2_thread (self w) = Some AtLoopHead ->
  t0 + 1000 * Z.of_nat n <= last + 60000 ->
  watchdog_rounds n t0 w = w.
Proof.
  intros Hw Ht. revert t0. induction n as [| n IH]; intros t0 Hn; [reflexivity |].
  change (watchdog_rounds (S n) t0 w)
    with (watchdog_rounds n (t0 + 1000) (watchdog_rounds 1 t0 w)).
  rewrite (watchdog_quiet_round i last t0 w Hw Ht) by lia.
  apply IH. lia.
Qed.

Lemma watchdog_rounds_fire (i : nat) (last : Z) (w : World) (n : nat) (t0 : Z) :
  watched i last w ->
  _watchdog2_thread (self w) = Some AtLoopHead ->
  0 < last ->
  (1 <= n)%nat ->
  last + 60000 < t0 + 1000 * Z.of_nat n ->
  reports_connected (watchdog_rounds n t0 w) = false.
Proof.
  intros Hw Ht Hpos. revert t0. induction n as [| n IH]; intros t0 H1 Hn; [lia |].
  change (watchdog_rounds (S n) t0 w)
    with (watchdog_rounds n (t0 + 1000) (watchdog_rounds 1 t0 w)).
  destruct (Z_le_gt_dec (t0 + 1000 - last) 60000) as [Hq | Hf].
  - rewrite (watchdog_quiet_round i last t0 w Hw Ht Hq).
    apply IH; lia.
  - destruct (watchdog_firing_round i last t0 w Hw Ht Hpos) as [Hc Hfin]; [lia |].
    now rewrite watchdog_finished.
Qed.

Section WatchdogRuns.
Context `{PyRuntime}.

Lemma frames_keep_watched (i : nat) (trace : list event) :
  forall (w : World) (last : Z),
    watched i last w ->
    frames_keep_arriving i 30000 last trace ->
    exists last', watched i last' (run w trace).
Proof.
  induction trace as [| ev trace IH]; intros w last Hw Hk.
  { exists last. exact Hw. }
  destruct ev as [| | | ws t message | | | t | |]; simpl in Hk; try contradiction.
  - (* a frame *)
    destruct Hk as (-> & H0 & Ht & Hk).
    change (run w (FrameReceived i t message :: trace))
      with (run (fst (frame_received i t message w)) trace).
    apply (IH _ t); [| exact Hk].
    destruct Hw as (Hrun & Hws & (a & Ha & Hc) & Hto & Hlast).
    unfold frame_received. rewrite Ha, Hc.
    destruct (on_ws2_message_settled t i message H0 w)
      as ((Hws' & Hrun' & _ & _ & _ & _ & _ & Hsh) & _ & Hto' & _).
    destruct (shape_lookup _ _ i a Hsh Ha) as (a' & Ha' & Hs').
    repeat split; try congruence.
    + exists a'. split; [exact Ha' |]. unfold sock_connected in *.
      injection Hs' as -> _. exact Hc.
    + apply on_ws2_message_clock.
  - (* a move of the watchdog *)
    destruct Hk as (Ht & Hk).
    change (run w (WatchdogMoves t :: trace))
      with (run (fst (watchdog_step t w)) trace).
    apply (IH _ last); [| exact Hk].
    pose proof (watched_connected i last w Hw) as Hc.
    destruct Hw as (Hrun & Hws & Hex & Hto & Hlast).
    unfold watchdog_step, watchdog_check.
    unfold bind, gets, look, assign, try_except, ret. simpl.
    destruct (_watchdog2_thread (self w)) as [[| |] |]; simpl;
      try (repeat split; assumption).
    rewrite Hlast.
    destruct (Z.leb_spec last 0); simpl; [repeat split; assumption |].
    rewrite Hto.
    destruct (Z.gtb_spec (t - last) (60 * 1000)); [lia |].
    simpl. repeat split; assumption.
Qed.


End WatchdogRuns.


(** ** One live session *)

Lemma ws_send_keeps (ws : nat) (data : string) : keeps others_closed (ws_send ws data).
Proof.
  intros w Hw. unfold ws_send.
  destruct (heap w !! ws) as [a |] eqn:Ha; [| exact Hw].
  destruct (sock_connected a); [| exact Hw].
  intros j b Hb Hj. simpl in *.
  destruct (decide (ws = j)) as [-> | Hne].
  - rewrite list_lookup_insert_eq in Hb by now apply lookup_lt_Some with (x := a).
    injection Hb as <-. now apply (Hw j a).
  - rewrite list_lookup_insert_ne in Hb by exact Hne. now apply (Hw j b).
Qed.

Lemma ws_close_keeps (ws : nat) : keeps others_closed (ws_close ws).
Proof.
  intros w Hw j b Hb Hj. unfold ws_close in *. simpl in *.
  rewrite list_lookup_alter in Hb.
  destruct (decide (ws = j)) as [-> | Hne]; [| now apply (Hw j b)].
  destruct (heap w !! j) as [a |]; [| discriminate].
  injection Hb as <-. reflexivity.
Qed.

Lemma close_current_closed (w : World) :
  others_closed w ->
  forall j b, heap (close_current w) !! j = Some b -> shape b = (None, false).
Proof.
  intros Hw j b Hb. unfold close_current in *.
  destruct (ws_notif (self w)) as [i |] eqn:Hi; simpl in *.
  - rewrite list_lookup_alter in Hb.
    destruct (decide (i = j)) as [-> | Hne].
    + destruct (heap w !! j) as [a |]; [| discriminate].
      injection Hb as <-. reflexivity.
    + apply (Hw j b Hb). congruence.
  - apply (Hw j b Hb). congruence.
Qed.

Lemma close_current_keeps (w : World) :
  others_closed w -> others_closed (close_current w).
Proof.
  intros Hw j b Hb _. now apply (close_current_closed w Hw j b).
Qed.

Lemma replaced_keeps (w : World) : others_closed w -> others_closed (replaced w).
Proof.
  intros Hw j b Hb Hj. unfold replaced in *. simpl in *.
  assert (Hlen : length (heap (close_current w)) = length (heap w)).
  { unfold close_current. destruct (ws_notif (self w)); simpl;
      [apply length_alter | reflexivity]. }
  destruct (decide (j < length (heap (close_current w)))%nat) as [Hlt | Hge].
  - rewrite lookup_app_l in Hb by exact Hlt.
    now apply (close_current_closed w Hw j b).
  - destruct (decide (j = length (heap w))) as [-> | Hne]; [now destruct Hj |].
    rewrite lookup_app_r in Hb by lia.
    destruct (j - length (heap (close_current w)))%nat as [| k] eqn:Hk; [lia |].
    discriminate.
Qed.

Lemma connect_keeps (fault : connect_fault) :
  keeps others_closed (connect_notifications_websocket fault).
Proof.
  intros w Hw. destruct (reports_connected w) eqn:Hc.
  - rewrite (connect_connected fault w Hc). exact Hw.
  - rewrite (connect_disconnected fault w Hc).
    destruct fault; simpl;
      [now apply replaced_keeps | now apply close_current_keeps | now apply replaced_keeps].
Qed.

#[export] Hint Resolve ws_send_keeps ws_close_keeps connect_keeps : frames.

Lemma shutdown_keeps : keeps others_closed shutdown_notifications.
Proof.
  intros w Hw j b Hb _.
  assert (Hh : heap (fst (shutdown_notifications w)) = heap (close_current w)).
  { unfold shutdown_notifications, close_current, bind, assign, gets, try_except,
      ws_close, ret. simpl.
    destruct (ws_notif (self w)); reflexivity. }
  rewrite Hh in Hb. now apply (close_current_closed w Hw j b).
Qed.

Lemma transport_opened_keeps (ws : nat) (now : Z) :
  keeps others_closed (transport_opened ws now).
Proof.
  intros w Hw. unfold transport_opened.
  destruct (heap w !! ws) as [a |] eqn:Ha; [| exact Hw].
  destruct (keep_running a && negb (sock_connected a)) eqn:Hk; [| exact Hw].
  assert (Hcur : ws_notif (self w) = Some ws).
  { destruct (decide (ws_notif (self w) = Some ws)) as [Hy | Hn]; [exact Hy |].
    pose proof (Hw ws a Ha Hn) as Hs. unfold shape in Hs.
    injection Hs as _ Hkr. rewrite Hkr in Hk. discriminate. }
  assert (Ho : keeps others_closed (on_ws2_open now)).
  { unfold on_ws2_open, _start_watchdog2. keep_structure; keep_primitive. }
  apply Ho. intros j b Hb Hj. simpl in *.
  rewrite list_lookup_alter in Hb.
  destruct (decide (ws = j)) as [-> | Hne]; [congruence |].
  now apply (Hw j b).
Qed.

Section Runs.
Context `{PyRuntime}.

Lemma react_keeps (ev : event) : keeps others_closed (react ev).
Proof.
  destruct ev as [fault | | ws now | ws now message | e | ws | now | immediate
                 | immediate now r fault]; simpl.
  - apply connect_keeps.
  - apply shutdown_keeps.
  - apply transport_opened_keeps.
  - intros w Hw. unfold frame_received.
    destruct (heap w !! ws) as [a |]; [| exact Hw].
    destruct (sock_connected a); [| exact Hw].
    revert w Hw.
    change (keeps others_closed (on_ws2_message now ws message)).
    unfold on_ws2_message, dispatch, read_handshake, read_event, call_handler, _send_ws.
    keep_structure; auto with frames; keep_primitive.
  - unfold on_ws2_error. keep_primitive.
  - unfold transport_closed, on_ws2_close, _stop_watchdog2, _schedule2_reconnect,
      start_do_reconnect.
    keep_structure; auto with frames; keep_primitive.
  - unfold watchdog_step, watchdog_check.
    keep_structure; auto with frames; keep_primitive.
  - unfold _schedule2_reconnect, start_do_reconnect.
    keep_structure; auto with frames; keep_primitive.
  - unfold do_reconnect, reconnect_delay, reconnect_attempt, refresh_access_token,
      _schedule2_reconnect, start_do_reconnect.
    keep_structure; auto with frames; keep_primitive.
Qed.

Lemma run_keeps (trace : list event) (w : World) :
  others_closed w -> others_closed (run w trace).
Proof.
  revert w. induction trace as [| ev trace IH]; intros w Hw; [exact Hw |].
  simpl. apply IH. now apply react_keeps.
Qed.

Lemma others_closed_one_live (w : World) : others_closed w -> at_most_one_live w.
Proof.
  intros Hw i j a b Ha Hb Hca Hcb.
  assert (Hcur : forall k c, heap w !! k = Some c -> sock_connected c = true ->
                             ws_notif (self w) = Some k).
  { intros k c Hk Hc.
    destruct (decide (ws_notif (self w) = Some k)) as [Hy | Hn]; [exact Hy |].
    pose proof (Hw k c Hk Hn) as Hs. unfold shape in Hs. injection Hs as Hso _.
    unfold sock_connected in Hc. rewrite Hso in Hc. discriminate. }
  pose proof (Hcur i a Ha Hca) as Hi. pose proof (Hcur j b Hb Hcb) as Hj.
  congruence.
Qed.


End Runs.


(** ** Racing reconnect requests *)

Module RaceFacts.
Import Race.

(** The statement machine agrees with the methods. *)
Lemma alone_on_ws2_close (w : World) : alone 6 L369 w = fst (on_ws2_close w).
Proof. reflexivity. Qed.

Lemma alone_schedule2_reconnect (immediate : bool) (w : World) :
  alone 3 (L316 immediate) w = fst (_schedule2_reconnect immediate w).
Proof.
  unfold _schedule2_reconnect, bind, look, gets, assign, print, start_do_reconnect.
  simpl. destruct (reports_connected w); [reflexivity |]. simpl.
  destruct (_ws2_should_run (self w)); reflexivity.
Qed.

Lemma scheduling_step_left (w0 w : World) (a b : pc) :
  scheduling_invariant w0 (w, a, b) ->
  scheduling_invariant w0 (let (w', a') := statement a w in (w', a', b)).
Proof.
  unfold scheduling_invariant, cycles.
  intros (Ha & Hb & Hlen & Hle & Hflag).
  destruct a as [| | | immediate | immediate | immediate |]; simpl in *;
    try contradiction.
  - destruct (reports_connected w); simpl; repeat split; auto.
  - destruct (_ws2_should_run (self w)) eqn:Hrun; simpl; repeat split; auto;
      try lia.
  - rewrite length_app in *. simpl in *. repeat split; auto; try lia.
    intros _. apply Hflag. lia.
  - repeat split; auto.
Qed.

Lemma scheduling_step_right (w0 w : World) (a b : pc) :
  scheduling_invariant w0 (w, a, b) ->
  scheduling_invariant w0 (let (w', b') := statement b w in (w', a, b')).
Proof.
  unfold scheduling_invariant, cycles.
  intros (Ha & Hb & Hlen & Hle & Hflag).
  destruct b as [| | | immediate | immediate | immediate |]; simpl in *;
    try contradiction.
  - destruct (reports_connected w); simpl; repeat split; auto.
  - destruct (_ws2_should_run (self w)) eqn:Hrun; simpl; repeat split; auto;
      try lia.
  - rewrite length_app in *. simpl in *. repeat split; auto; try lia.
    intros _. apply Hflag. lia.
  - repeat split; auto.
Qed.

Lemma scheduling_interleave (w0 : World) (schedule : list bool) :
  forall w a b,
    scheduling_invariant w0 (w, a, b) ->
    scheduling_invariant w0 (interleave schedule a b w).
Proof.
  induction schedule as [| [|] schedule IH]; intros w a b Hi; [exact Hi | |].
  - simpl. pose proof (scheduling_step_left w0 w a b Hi) as Hs.
    destruct (statement a w) as [w' a']. now apply IH.
  - simpl. pose proof (scheduling_step_right w0 w a b Hi) as Hs.
    destruct (statement b w) as [w' b']. now apply IH.
Qed.

Lemma closing_step_left (w0 w : World) (a b : pc) :
  closing_invariant w0 (w, a, b) ->
  closing_invariant w0 (let (w', a') := statement a w in (w', a', b)).
Proof.
  unfold closing_invariant.
  intros (Ha & Hb & Hth & Hflag).
  destruct a; simpl in *; try contradiction.
  - repeat split; auto.
  - destruct Hflag as [[Hf _] | Hf]; [discriminate |].
    rewrite Hf. simpl. repeat split; auto.
  - destruct Hflag as [[Hf _] | Hf]; [discriminate |]. repeat split; auto.
Qed.

Lemma closing_step_right (w0 w : World) (a b : pc) :
  closing_invariant w0 (w, a, b) ->
  closing_invariant w0 (let (w', b') := statement b w in (w', a, b')).
Proof.
  unfold closing_invariant.
  intros (Ha & Hb & Hth & Hflag).
  destruct b; simpl in *; try contradiction.
  - repeat split; auto.
  - destruct Hflag as [[_ Hf] | Hf]; [discriminate |].
    rewrite Hf. simpl. repeat split; auto.
  - destruct Hflag as [[_ Hf] | Hf]; [discriminate |]. repeat split; auto.
Qed.

Lemma closing_interleave (w0 : World) (schedule : list bool) :
  forall w a b,
    closing_invariant w0 (w, a, b) ->
    closing_invariant w0 (interleave schedule a b w).
Proof.
  induction schedule as [| [|] schedule IH]; intros w a b Hi; [exact Hi | |].
  - simpl. pose proof (closing_step_left w0 w a b Hi) as Hs.
    destruct (statement a w) as [w' a']. now apply IH.
  - simpl. pose proof (closing_step_right w0 w a b Hi) as Hs.
    destruct (statement b w) as [w' b']. now apply IH.
Qed.


End RaceFacts.


(** ** The auth frame as a text *)

Module AuthFrame.
Import JsonText.

Lemma length_append (a b : string) :
  String.length (a ++ b) = (String.length a + String.length b)%nat.
Proof. induction a as [| c a IH]; simpl; [reflexivity | now rewrite IH]. Qed.

Lemma escape_char_length (c : ascii) :
  (1 <= String.length (escape_char c))%nat /\
  (needs_escape c = true -> 2 <= String.length (escape_char c))%nat.
Proof.
  destruct c as [[] [] [] [] [] [] [] []]; simpl; split; intros; try lia;
    discriminate.
Qed.

Lemma escape_length (t : string) :
  (String.length t <= String.length (escape t))%nat /\
  (has_quote_or_backslash t = true -> String.length t < String.length (escape t))%nat.
Proof.
  induction t as [| c t [IH1 IH2]]; simpl; [split; [lia | discriminate] |].
  rewrite length_append.
  destruct (escape_char_length c) as [H1 H2].
  split; [lia |]. intros Hq.
  destruct (needs_escape c); simpl in Hq; [specialize (H2 eq_refl) | specialize (IH2 Hq)]; lia.
Qed.

Lemma escape_plain (t : string) :
  all_printable t = true -> has_quote_or_backslash t = false -> escape t = t.
Proof.
  induction t as [| c t IH]; simpl; [reflexivity |].
  intros Hp Hq.
  apply andb_true_iff in Hp as [Hc Hp]. apply orb_false_iff in Hq as [Hn Hq].
  rewrite (IH Hp Hq).
  destruct c as [[] [] [] [] [] [] [] []]; simpl in *; try reflexivity;
    discriminate.
Qed.

Lemma auth_message_encoding (t : string) :
  auth_message t = ("40" ++ token_object t)%string -> escape t = t.
Proof.
  intros He. unfold auth_message, token_object, dquote in He. simpl in He.
  repeat (injection He as He).
  assert (Hl : String.length (t ++ String "034" "}") =
               String.length (escape t ++ String "034" "}")) by now rewrite He.
  rewrite !length_append in Hl.
  assert (Hlen : String.length (escape t) = String.length t) by lia.
  clear He Hl. induction t as [| c t IH]; [reflexivity |].
  simpl in *. rewrite length_append in Hlen.
  destruct (escape_char_length c) as [H1 H2].
  destruct (escape_length t) as [H3 _].
  assert (Hc : String.length (escape_char c) = 1%nat) by lia.
  assert (Ht : String.length (escape t) = String.length t) by lia.
  rewrite (IH Ht). f_equal.
  destruct c as [[] [] [] [] [] [] [] []]; simpl in *; try reflexivity;
    discriminate.
Qed.

Lemma unescaped_means_plain (t : string) :
  escape t = t -> has_quote_or_backslash t = false.
Proof.
  intros He. destruct (has_quote_or_backslash t) eqn:Hq; [| reflexivity].
  destruct (escape_length t) as [_ Hlt]. specialize (Hlt Hq).
  rewrite He in Hlt. lia.
Qed.

(** C10, the last clause of the statement fails: the token of two
    backslashes contains a backslash, and the frame sent for it,
    [40{"token":"\\"}], carries a valid JSON text (which denotes another
    token, a single backslash). *)
Lemma stated_invalid_fails :
  has_quote_or_backslash backslash_token = true /\
  is_json (auth_payload backslash_token) = true /\
  ~ stated_invalid backslash_token.
Proof.
  split; [reflexivity |]. split; [vm_compute; reflexivity |].
  intros Hs. specialize (Hs eq_refl). vm_compute in Hs. discriminate.
Qed.

(** C10, amended.  On a handshake frame with the non-empty token [t]
    held, the frame handed to [_send_ws] is [auth_message t]: the
    opening of the object up to the quote that opens the value, then [t]
    as it is, then the closing quote and brace.  This frame is [40]
    followed by the JSON encoding of the object [{token: t}] only when
    [t] has no double quote and no backslash; with such a character in
    [t] it differs from that encoding; and it is that encoding when [t]
    is printable ASCII without the two characters.  With such a
    character in [t] the frame may fail to carry a JSON text (as for an
    [a], a double quote and a [b]), or carry one all the same (as for
    two backslashes). *)
Theorem auth_frame_is_unescaped `{PyRuntime} :
  (forall now ws message w t,
     startswith message "0" = true ->
     access_token (self w) = Some t -> t <> EmptyString ->
     emitted (fst (on_ws2_message now ws message w)) =
     emitted w ++
       [("40{" ++ dquote ++ "token" ++ dquote ++ ":" ++ dquote ++ t ++ dquote ++ "}")%string]) /\
  (forall t, auth_message t = ("40" ++ token_object t)%string ->
             has_quote_or_backslash t = false) /\
  (forall t, has_quote_or_backslash t = true ->
             auth_message t <> ("40" ++ token_object t)%string) /\
  (forall t, all_printable t = true -> has_quote_or_backslash t = false ->
             auth_message t = ("40" ++ token_object t)%string) /\
  (has_quote_or_backslash quoted_token = true /\
   is_json (auth_payload quoted_token) = false) /\
  (has_quote_or_backslash backslash_token = true /\
   is_json (auth_payload backslash_token) = true).
Proof.
  split; [| split; [| split; [| split; [| split]]]].
  - intros now ws message w t H0 Ht Hne.
    destruct (sends_on_ws2_message now ws message w) as (He & _).
    rewrite He. unfold reply. rewrite H0, Ht. simpl.
    destruct (String.eqb_spec t EmptyString) as [-> | _]; [now destruct Hne | reflexivity].
  - intros t He. now apply unescaped_means_plain, auth_message_encoding.
  - intros t Hq He.
    rewrite (unescaped_means_plain t (auth_message_encoding t He)) in Hq.
    discriminate.
  - intros t Hp Hq. unfold auth_message, token_object.
    now rewrite (escape_plain t Hp Hq).
  - split; vm_compute; reflexivity.
  - split; vm_compute; reflexivity.
Qed.

Lemma auth_frame_is_unescaped_witness :
  auth_message "tok123" = ("40" ++ token_object "tok123")%string /\
  auth_message quoted_token <> ("40" ++ token_object quoted_token)%string.
Proof.
  destruct (@auth_frame_is_unescaped sample_runtime) as (_ & _ & Hd & Hp & _).
  split; [apply Hp; reflexivity | apply Hd; reflexivity].
Defined.

End AuthFrame.

(** * Further properties of the lifecycle *)

(** ** Shutting down *)

Lemma shutdown_unfold (w : World) :
  shutdown_notifications w =
  (with_self
     (fun c => set_watchdog2_thread None (set_ws_notif None (set_ws2_should_run false c)))
     (close_current w),
   Return tt).
Proof.
  unfold shutdown_notifications, close_current, bind, assign, gets, try_except,
    ws_close, ret.
  destruct w as [c h out th]. simpl. destruct (ws_notif c); reflexivity.
Qed.

Lemma close_current_wire (w : World) :
  map wire (heap (close_current w)) = map wire (heap w).
Proof.
  unfold close_current. destruct (ws_notif (self w)); [| reflexivity].
  simpl. now apply map_alter_same.
Qed.

Lemma close_current_length (w : World) :
  length (heap (close_current w)) = length (heap w).
Proof.
  unfold close_current. destruct (ws_notif (self w)); [| reflexivity].
  simpl. apply length_alter.
Qed.


(** ** The reconnect worker *)

Lemma reconnect_attempt_connected (now : Z) (r : refresh_result)
    (fault : connect_fault) (w : World) :
  reports_connected w = true ->
  reconnect_attempt now r fault w =
  (with_self (fun c => set_reconnect2_attempt 0 (set_ws2_should_run false c))
     (with_stdout (fun out => out ++ [AlreadyRestored]) w),
   Return tt).
Proof.
  intros Hc. unfold reconnect_attempt, bind, look. simpl. now rewrite Hc.
Qed.

(** Before it connects, the worker may have refreshed the token and has
    counted the attempt; nothing else has changed. *)
Lemma reconnect_attempt_disconnected (now : Z) (r : refresh_result)
    (fault : connect_fault) (w : World) :
  reports_connected w = false ->
  (forall e, r <> RefreshRaises e) ->
  exists w1,
    reconnect_attempt now r fault w =
    try_except (connect_notifications_websocket fault) Exception
      (fun e => print (ReconnectFailed e) ;;
                assign (set_ws2_should_run false) ;;
                _schedule2_reconnect false) w1 /\
    heap w1 = heap w /\ threads w1 = threads w /\ stdout w1 = stdout w /\
    ws_notif (self w1) = ws_notif (self w) /\
    _ws2_should_run (self w1) = _ws2_should_run (self w).
Proof.
  intros Hc Hr. unfold reconnect_attempt, bind at 1, look. simpl. rewrite Hc.
  unfold bind at 1, gets at 1. simpl. unfold bind at 1, gets at 1. simpl.
  destruct (truthy (access_token (self w)) && (now >? token_expiry (self w) - 60000)).
  - destruct r as [jwt expiry | | e]; [| | now destruct (Hr e)];
      eexists; (split; [reflexivity |]); repeat split.
  - eexists; (split; [reflexivity |]); repeat split.
Qed.

Lemma shutdown_not_connected (w : World) :
  reports_connected (fst (shutdown_notifications w)) = false.
Proof. now rewrite shutdown_unfold. Qed.

(** X2.  A shutdown does not cancel reconnecting.  After
    [shutdown_notifications] a scheduling request finds the run flag
    clear and no transport connected, so it sets the flag and starts a
    worker; and a worker that was already sleeping when the client was
    shut down, and runs afterwards without a failing token refresh,
    creates a new transport, makes it current and sets the run flag
    again. *)
Theorem shutdown_does_not_cancel_reconnect (w : World) (immediate : bool) (now : Z)
    (r : refresh_result) :
  (forall e, r <> RefreshRaises e) ->
  let w1 := fst (shutdown_notifications w) in
  let w2 := fst (_schedule2_reconnect immediate w1) in
  let w3 := fst (reconnect_attempt now r NoFault w1) in
  threads w2 = threads w ++ [immediate] /\
  _ws2_should_run (self w2) = true /\
  snd (reconnect_attempt now r NoFault w1) = Return tt /\
  _ws2_should_run (self w3) = true /\
  ws_notif (self w3) = Some (length (heap w)) /\
  heap w3 !! length (heap w) = Some new_app.
Proof.
  intros Hr w1 w2 w3.
  pose proof (shutdown_not_connected w) as Hc. fold w1 in Hc.
  assert (Hth : threads w1 = threads w).
  { subst w1. rewrite shutdown_unfold. simpl. unfold close_current.
    now destruct (ws_notif (self w)). }
  assert (Hrun : _ws2_should_run (self w1) = false).
  { subst w1. now rewrite shutdown_unfold. }
  assert (Hws : ws_notif (self w1) = None).
  { subst w1. now rewrite shutdown_unfold. }
  assert (Hlen : length (heap w1) = length (heap w)).
  { subst w1. rewrite shutdown_unfold. simpl. apply close_current_length. }
  split; [| split].
  - subst w2. unfold _schedule2_reconnect, bind, look, gets, assign,
      start_do_reconnect. simpl. rewrite Hc. simpl. rewrite Hrun. simpl.
    now rewrite Hth.
  - subst w2. unfold _schedule2_reconnect, bind, look, gets, assign,
      start_do_reconnect. simpl. rewrite Hc. simpl. now rewrite Hrun.
  - subst w3.
    destruct (reconnect_attempt_disconnected now r NoFault w1 Hc Hr)
      as (w0 & -> & Hh & _ & _ & Hws0 & _).
    assert (Hc0 : reports_connected w0 = false).
    { unfold reports_connected. now rewrite Hws0, Hws. }
    unfold try_except. rewrite (connect_disconnected NoFault w0 Hc0). simpl.
    split; [reflexivity |]. split; [reflexivity |].
    split; [now rewrite Hh, Hlen |].
    unfold close_current. rewrite Hws0, Hws. rewrite Hh, <- Hlen.
    apply list_lookup_middle. reflexivity.
Qed.

Lemma shutdown_does_not_cancel_reconnect_witness :
  threads (fst (_schedule2_reconnect true (fst (shutdown_notifications open_session))))
    = [true] /\
  ws_notif
    (self (fst (reconnect_attempt 5000 NotRefreshed NoFault
                  (fst (shutdown_notifications open_session))))) = Some 1%nat.
Proof.
  assert (Hr : forall e, NotRefreshed <> RefreshRaises e) by discriminate.
  destruct (shutdown_does_not_cancel_reconnect open_session true 5000 NotRefreshed Hr)
    as (Ht & _ & _ & _ & Hws & _).
  split; [exact Ht | exact Hws].
Defined.

(** ** The watchdog without the run flag *)

Lemma watchdog_not_alive (n : nat) (now : Z) (w : World) :
  alive (_watchdog2_thread (self w)) = false ->
  watchdog_rounds n now w = w.
Proof.
  revert now. induction n as [| n IH]; intros now Ht; [reflexivity |].
  simpl. unfold watchdog_step, bind, gets. simpl.
  destruct (_watchdog2_thread (self w)) as [[| |] |] eqn:Hth;
    try discriminate; simpl; rewrite ?Hth; simpl;
    apply IH; reflexivity.
Qed.

(** With the run flag clear the loop test fails: a loop that stands at
    its test ends there and changes nothing else. *)
Lemma watchdog_round_flag_clear (now : Z) (w : World) :
  _ws2_should_run (self w) = false ->
  _watchdog2_thread (self w) = Some AtLoopHead ->
  watchdog_rounds 1 now w = watchdog_over w.
Proof.
  intros Hrun Ht.
  unfold watchdog_rounds, watchdog_step, watchdog_test, watchdog_over.
  unfold bind, gets, look, assign, ret. simpl.
  rewrite Ht. simpl. rewrite Hrun. reflexivity.
Qed.

Lemma watchdog_rounds_flag_clear (n : nat) (now : Z) (w : World) :
  _ws2_should_run (self w) = false ->
  _watchdog2_thread (self w) = Some AtLoopHead ->
  (1 <= n)%nat ->
  watchdog_rounds n now w = watchdog_over w.
Proof.
  intros Hrun Ht Hn. destruct n as [| n]; [lia |].
  change (watchdog_rounds (S n) now w)
    with (watchdog_rounds n (now + 1000) (watchdog_rounds 1 now w)).
  rewrite (watchdog_round_flag_clear now w Hrun Ht).
  now apply watchdog_not_alive.
Qed.

Lemma watchdog_check_flag (now : Z) :
  keeps (fun w => _ws2_should_run (self w) = false) (watchdog_check now).
Proof.
  unfold watchdog_check, ws_close. keep_structure; keep_primitive.
Qed.

Lemma watchdog_check_returns (now : Z) (w : World) :
  exists w1 go, watchdog_check now w = (w1, Return go).
Proof.
  unfold watchdog_check, try_except.
  match goal with
  | |- context [bind ?c ?k w] => destruct (bind c k w) as [w2 [go | e]]
  end.
  - eauto.
  - simpl. unfold bind, print, ret. simpl. eauto.
Qed.

(** Whatever the loop is doing, one round after the flag was cleared it
    has ended. *)
Lemma watchdog_ends_flag_clear (n : nat) (now : Z) (w : World) :
  _ws2_should_run (self w) = false ->
  (1 <= n)%nat ->
  alive (_watchdog2_thread (self (watchdog_rounds n now w))) = false.
Proof.
  intros Hrun Hn. destruct n as [| n]; [lia |].
  change (watchdog_rounds (S n) now w)
    with (watchdog_rounds n (now + 1000) (watchdog_rounds 1 now w)).
  assert (H1 : alive (_watchdog2_thread (self (watchdog_rounds 1 now w))) = false).
  { destruct (_watchdog2_thread (self w)) as [[| |] |] eqn:Ht.
    - now rewrite (watchdog_round_flag_clear now w Hrun Ht).
    - destruct (watchdog_check_returns now w) as (w1 & go & Hck).
      pose proof (watchdog_check_flag now w Hrun) as Hf.
      rewrite Hck in Hf. simpl in Hf.
      assert (Hs1 : fst (watchdog_step now w) =
                    with_self (set_watchdog2_thread
                                 (Some (if go then AtLoopHead else Finished))) w1).
      { unfold watchdog_step, bind, gets. simpl. rewrite Ht. simpl.
        rewrite Hck. reflexivity. }
      unfold watchdog_rounds. rewrite Hs1.
      destruct go; unfold watchdog_step, watchdog_test, bind, gets, look, assign;
        simpl; [now rewrite Hf | reflexivity].
    - rewrite watchdog_not_alive; now rewrite Ht.
    - rewrite watchdog_not_alive; now rewrite Ht. }
  now rewrite watchdog_not_alive.
Qed.

(** X3.  The close callback of any transport clears the run flag, also
    when the transport that closed is not the current one (a transport
    that a connect request has replaced) and the current one is still
    connected.  The connection is left as it is, but the watchdog loop,
    whose test reads the flag, ends within one round; a loop that stood
    at its test ends there and then, so that from then on no silence,
    however long, makes the watchdog close the transport. *)
Theorem close_callback_stops_watchdog (w : World) (j : nat) :
  let w' := fst (transport_closed j w) in
  _ws2_should_run (self w') = false /\
  threads w' = threads w /\
  (ws_notif (self w) <> Some j -> reports_connected w' = reports_connected w) /\
  (forall n t0, (1 <= n)%nat ->
     alive (_watchdog2_thread (self (watchdog_rounds n t0 w'))) = false) /\
  (_watchdog2_thread (self w) = Some AtLoopHead ->
   forall n t0, (1 <= n)%nat ->
     watchdog_rounds n t0 w' = watchdog_over w' /\
     reports_connected (watchdog_rounds n t0 w') = reports_connected w').
Proof.
  intros w'.
  assert (Hw' : w' = with_self (set_ws2_should_run false)
                       (with_stdout (fun out => out ++ [Closed])
                          (with_heap (fun h => alter closed_app j h) w))).
  { reflexivity. }
  assert (Hrun : _ws2_should_run (self w') = false) by now rewrite Hw'.
  split; [exact Hrun |]. split; [now rewrite Hw' |]. split; [| split].
  - intros Hj. rewrite Hw'. unfold reports_connected. simpl.
    destruct (ws_notif (self w)) as [i |]; [| reflexivity].
    rewrite list_lookup_alter.
    destruct (decide (j = i)) as [-> | _]; [now destruct Hj | reflexivity].
  - intros n t0 Hn. now apply watchdog_ends_flag_clear.
  - intros Ht n t0 Hn.
    assert (Ht' : _watchdog2_thread (self w') = Some AtLoopHead) by now rewrite Hw'.
    rewrite (watchdog_rounds_flag_clear n t0 w' Hrun Ht' Hn). split; reflexivity.
Qed.

Lemma close_callback_stops_watchdog_witness :
  reports_connected second_session = true /\
  reports_connected
    (watchdog_rounds 3600 1000 (fst (transport_closed 0 second_session))) = true.
Proof.
  split; [reflexivity |].
  destruct (close_callback_stops_watchdog second_session 0) as (_ & _ & Hc & _ & Hr).
  assert (Hn : (1 <= 3600)%nat) by lia.
  destruct (Hr eq_refl 3600%nat 1000 Hn) as (_ & ->).
  rewrite Hc; [reflexivity | discriminate].
Defined.

(** X4.  A reconnect worker that wakes up and finds the connection
    restored gives up, and in doing so clears the run flag of the
    session that is up: the connection and everything else are left
    alone, the attempt counter is cleared, and the watchdog loop of the
    restored session ends within one round.  When that loop stood at
    its test, the transport still reports connected after any number of
    silent rounds. *)
Theorem reconnect_abort_stops_watchdog (w : World) (now : Z) (r : refresh_result)
    (fault : connect_fault) :
  reports_connected w = true ->
  let w' := fst (reconnect_attempt now r fault w) in
  snd (reconnect_attempt now r fault w) = Return tt /\
  _ws2_should_run (self w') = false /\
  _reconnect2_attempt (self w') = 0 /\
  heap w' = heap w /\ threads w' = threads w /\
  ws_notif (self w') = ws_notif (self w) /\
  access_token (self w') = access_token (self w) /\
  reports_connected w' = true /\
  (forall n t0, (1 <= n)%nat ->
     alive (_watchdog2_thread (self (watchdog_rounds n t0 w'))) = false) /\
  (_watchdog2_thread (self w) = Some AtLoopHead ->
   forall n t0, (1 <= n)%nat ->
     reports_connected (watchdog_rounds n t0 w') = true).
Proof.
  intros Hc w'. subst w'. rewrite (reconnect_attempt_connected now r fault w Hc).
  simpl. repeat split.
  - exact Hc.
  - intros n t0 Hn. now apply watchdog_ends_flag_clear.
  - intros Ht n t0 Hn. rewrite watchdog_rounds_flag_clear; auto.
Qed.

Lemma reconnect_abort_stops_watchdog_witness :
  _ws2_should_run
    (self (fst (reconnect_attempt 5000 NotRefreshed NoFault open_session))) = false /\
  reports_connected
    (watchdog_rounds 3600 5000
       (fst (reconnect_attempt 5000 NotRefreshed NoFault open_session))) = true.
Proof.
  destruct (reconnect_abort_stops_watchdog open_session 5000 NotRefreshed NoFault eq_refl)
    as (_ & Hrun & _ & _ & _ & _ & _ & _ & _ & Hr).
  split; [exact Hrun |].
  apply Hr; [reflexivity | lia].
Defined.

Lemma reconnect_attempt_refresh_raises (now : Z) (e : exn) (fault : connect_fault)
    (w : World) :
  reports_connected w = false ->
  truthy (access_token (self w)) = true ->
  token_expiry (self w) - 60000 < now ->
  reconnect_attempt now (RefreshRaises e) fault w = (w, Raised e).
Proof.
  intros Hc Htok Hexp.
  assert (Hgt : (now >? token_expiry (self w) - 60000) = true).
  { apply Z.gtb_lt. exact Hexp. }
  unfold reconnect_attempt, bind at 1, look. simpl. rewrite Hc.
  unfold bind at 1, gets at 1. simpl. unfold bind at 1, gets at 1. simpl.
  rewrite Htok, Hgt. reflexivity.
Qed.

(** X5.  When the token refresh that a reconnect worker makes raises,
    the worker ends there: the exception leaves [do_reconnect], no
    transport has been created or closed and the client is as it was,
    with the run flag still set as the scheduling request left it.
    Every later scheduling request therefore finds the flag set and
    returns without starting a worker. *)
Theorem failed_refresh_strands_reconnect (w : World) (immediate : bool) (now : Z)
    (e : exn) (fault : connect_fault) :
  reports_connected w = false ->
  truthy (access_token (self w)) = true ->
  token_expiry (self w) - 60000 < now ->
  _ws2_should_run (self w) = true ->
  let w' := fst (do_reconnect immediate now (RefreshRaises e) fault w) in
  snd (do_reconnect immediate now (RefreshRaises e) fault w) = Raised e /\
  self w' = self w /\ heap w' = heap w /\ threads w' = threads w /\
  forall again, _schedule2_reconnect again w' = (w', Return tt).
Proof.
  intros Hc Htok Hexp Hrun w'.
  pose (w1 := fst (reconnect_delay immediate w)).
  assert (Hw' : do_reconnect immediate now (RefreshRaises e) fault w = (w1, Raised e)).
  { unfold do_reconnect, bind at 1.
    change (reconnect_delay immediate w)
      with (w1, @Return Z (if immediate || (_reconnect2_attempt (self w) =? 0) then 0
                           else Z.min (_max2_backoff (self w))
                                  (2 ^ Z.max 0 (_reconnect2_attempt (self w))))).
    cbv iota beta. unfold bind at 1.
    rewrite (reconnect_attempt_refresh_raises now e fault w1);
      [reflexivity | exact Hc | exact Htok | exact Hexp]. }
  subst w'. rewrite Hw'. simpl. repeat split.
  intros again. unfold _schedule2_reconnect, bind, look, gets, ret. simpl.
  change (reports_connected w1) with (reports_connected w). rewrite Hc. simpl.
  change (_ws2_should_run (self w1)) with (_ws2_should_run (self w)).
  now rewrite Hrun.
Qed.

Lemma failed_refresh_strands_reconnect_witness :
  snd (do_reconnect true 3599000 (RefreshRaises RecursionError) NoFault expiring_session)
    = Raised RecursionError /\
  threads
    (fst (_schedule2_reconnect true
            (fst (do_reconnect true 3599000 (RefreshRaises RecursionError) NoFault
                    expiring_session)))) = [].
Proof.
  assert (Hexp : token_expiry (self expiring_session) - 60000 < 3599000)
    by (simpl; lia).
  destruct (failed_refresh_strands_reconnect expiring_session true 3599000
              RecursionError NoFault eq_refl eq_refl Hexp eq_refl)
    as (Hr & _ & _ & _ & Hs).
  split; [exact Hr |]. now rewrite Hs.
Defined.

(** ** Ranges *)

Ltac keep_bounds :=
  let w := fresh "w" in
  let Hw := fresh "Hw" in
  intros w Hw; unfold within_bounds in *; simpl; lia.

Lemma ws_send_keeps_bounds (ws : nat) (data : string) :
  keeps within_bounds (ws_send ws data).
Proof.
  intros w Hw. unfold ws_send.
  destruct (heap w !! ws) as [a |]; [destruct (sock_connected a) |]; exact Hw.
Qed.

#[export] Hint Resolve ws_send_keeps_bounds : frames.

Lemma connect_keeps_bounds (fault : connect_fault) :
  keeps within_bounds (connect_notifications_websocket fault).
Proof.
  unfold connect_notifications_websocket, ws_close.
  keep_structure; keep_bounds.
Qed.

#[export] Hint Resolve connect_keeps_bounds : frames.

Lemma keeps_bind_gets {A B : Type} (P : World -> Prop) (f : USPACYClient -> A)
    (k : A -> M B) :
  (forall w, P w -> P (fst (k (f (self w)) w))) -> keeps P (bind (gets f) k).
Proof. intros Hk w Hw. unfold bind, gets. simpl. now apply Hk. Qed.

Lemma reconnect_attempt_keeps_bounds (now : Z) (r : refresh_result)
    (fault : connect_fault) :
  keeps within_bounds (reconnect_attempt now r fault).
Proof.
  unfold reconnect_attempt.
  apply keeps_bind; [apply keeps_look | intros c]. destruct c.
  { keep_structure; keep_bounds. }
  apply keeps_bind; [apply keeps_gets | intros token].
  apply keeps_bind; [apply keeps_gets | intros expiry].
  apply keeps_bind.
  { unfold refresh_access_token. keep_structure; keep_bounds. }
  intros _. apply keeps_bind_gets. intros w Hw.
  assert (Hk : keeps within_bounds
                 (try_except (connect_notifications_websocket fault) Exception
                    (fun e => print (ReconnectFailed e) ;;
                              assign (set_ws2_should_run false) ;;
                              _schedule2_reconnect false))).
  { unfold _schedule2_reconnect, start_do_reconnect.
    keep_structure; auto with frames; keep_bounds. }
  unfold bind at 1, assign at 1. simpl. apply Hk.
  unfold within_bounds in *. simpl. lia.
Qed.

Section Ranges.
Context `{PyRuntime}.

Lemma react_keeps_bounds (ev : event) : keeps within_bounds (react ev).
Proof.
  destruct ev as [fault | | ws now | ws now message | e | ws | now | immediate
                 | immediate now r fault]; simpl.
  - apply connect_keeps_bounds.
  - unfold shutdown_notifications, ws_close. keep_structure; keep_bounds.
  - intros w Hw. unfold transport_opened.
    destruct (heap w !! ws) as [a |]; [| exact Hw].
    destruct (keep_running a && negb (sock_connected a)); [| exact Hw].
    assert (Ho : keeps within_bounds (on_ws2_open now)).
    { unfold on_ws2_open, _start_watchdog2. keep_structure; keep_bounds. }
    apply Ho. exact Hw.
  - intros w Hw. unfold frame_received.
    destruct (heap w !! ws) as [a |]; [| exact Hw].
    destruct (sock_connected a); [| exact Hw].
    revert w Hw.
    change (keeps within_bounds (on_ws2_message now ws message)).
    unfold on_ws2_message, dispatch, read_handshake, read_event, call_handler, _send_ws.
    keep_structure; auto with frames; keep_bounds.
  - unfold on_ws2_error. keep_bounds.
  - unfold transport_closed, on_ws2_close, _stop_watchdog2, _schedule2_reconnect,
      start_do_reconnect, ws_close.
    keep_structure; auto with frames; keep_bounds.
  - unfold watchdog_step, watchdog_check, ws_close.
    keep_structure; auto with frames; keep_bounds.
  - unfold _schedule2_reconnect, start_do_reconnect.
    keep_structure; auto with frames; keep_bounds.
  - apply keeps_bind; [| intros; apply keeps_ret].
    unfold do_reconnect.
    apply keeps_bind; [unfold reconnect_delay; keep_structure; keep_bounds |].
    intros delay. apply keeps_bind; [apply reconnect_attempt_keeps_bounds |].
    intros; apply keeps_ret.
Qed.

Lemma run_keeps_bounds (trace : list event) (w : World) :
  within_bounds w -> within_bounds (run w trace).
Proof.
  revert w. induction trace as [| ev trace IH]; intros w Hw; [exact Hw |].
  simpl. apply IH. now apply react_keeps_bounds.
Qed.

Lemma init_within_bounds : within_bounds init_world.
Proof. unfold within_bounds. simpl. lia. Qed.


(** X7.  In every world that the client can have reached, the delay
    that a reconnect worker computes lies between 0 and 30 seconds; it is
    0 exactly when the request was immediate or the attempt counter is
    0, and at least 1 second otherwise. *)
Theorem reconnect_delay_in_range (trace : list event) (immediate : bool) :
  let w := run init_world trace in
  exists delay,
    snd (reconnect_delay immediate w) = Return delay /\
    0 <= delay <= 30 /\
    (delay = 0 <-> immediate = true \/ _reconnect2_attempt (self w) = 0).
Proof.
  intros w.
  assert (Hb : within_bounds w) by apply run_keeps_bounds, init_within_bounds.
  destruct Hb as (_ & _ & Hatt & Hmax).
  rewrite reconnect_delay_value, Hmax. eexists. split; [reflexivity |].
  destruct immediate; simpl; [split; [lia | tauto] |].
  destruct (Z.eqb_spec (_reconnect2_attempt (self w)) 0) as [H0 | H0];
    [split; [lia | tauto] |].
  assert (Hp : 0 < 2 ^ Z.max 0 (_reconnect2_attempt (self w)))
    by (apply Z.pow_pos_nonneg; lia).
  split; [lia |]. split; [lia |]. intros [Hi | Hi]; [discriminate | contradiction].
Qed.

End Ranges.


Lemma reconnect_delay_in_range_witness :
  exists delay,
    snd (reconnect_delay false
           (@run sample_runtime init_world
              [Connect (ConstructorRaises RuntimeError);
               ReconnectRuns true 0 NotRefreshed (ConstructorRaises RuntimeError)]))
      = Return delay /\ 0 <= delay <= 30.
Proof.
  destruct (@reconnect_delay_in_range sample_runtime
              [Connect (ConstructorRaises RuntimeError);
               ReconnectRuns true 0 NotRefreshed (ConstructorRaises RuntimeError)]
              false) as (delay & Hd & Hr & _).
  exists delay. split; [exact Hd | exact Hr].
Defined.

(** ** Establishing a session *)

Lemma replaced_new (w : World) :
  heap (replaced w) !! length (heap w) = Some new_app.
Proof.
  unfold replaced. simpl. rewrite <- (close_current_length w).
  now apply list_lookup_middle.
Qed.

(** X8.  A connect request made while nothing is connected, followed by
    the opening of the transport that it created, gives a session that
    is up: the new transport is the current one and connected, the
    transport that was current before is closed, the run flag is set,
    the attempt counter is 0, the time of the opening counts as the time
    of the last frame, and a watchdog loop is alive.  Nothing has been
    sent, no reconnect thread has been started, and the intervals
    negotiated by an earlier session are still in force. *)
Theorem connect_then_open_starts_session (w : World) (now : Z) :
  reports_connected w = false ->
  let n := length (heap w) in
  let w1 := fst (connect_notifications_websocket NoFault w) in
  let w2 := fst (transport_opened n now w1) in
  ws_notif (self w2) = Some n /\
  heap w2 !! n = Some (opened_app new_app) /\
  reports_connected w2 = true /\
  (forall i a, ws_notif (self w) = Some i -> heap w !! i = Some a ->
     heap w2 !! i = Some (closed_app a)) /\
  _ws2_should_run (self w2) = true /\
  _reconnect2_attempt (self w2) = 0 /\
  _last2_rx_ts (self w2) = now /\
  alive (_watchdog2_thread (self w2)) = true /\
  _ping2_interval_sec (self w2) = _ping2_interval_sec (self w) /\
  _ping2_timeout_sec (self w2) = _ping2_timeout_sec (self w) /\
  emitted w2 = emitted w /\ threads w2 = threads w.
Proof.
  intros Hc n w1 w2.
  assert (H1 : w1 = replaced w).
  { subst w1. now rewrite (connect_disconnected NoFault w Hc). }
  pose proof (replaced_new w) as Hnew. fold n in Hnew.
  assert (H2 : w2 = fst (on_ws2_open now
                           (with_heap (fun h => alter opened_app n h) (replaced w)))).
  { subst w2. rewrite H1. unfold transport_opened. now rewrite Hnew. }
  assert (Hold : forall i a, ws_notif (self w) = Some i -> heap w !! i = Some a ->
                   heap (replaced w) !! i = Some (closed_app a)).
  { intros i a Hi Ha.
    assert (Hlt : (i < n)%nat) by (now apply lookup_lt_Some with (x := a)).
    unfold replaced. simpl.
    rewrite lookup_app_l by (rewrite close_current_length; exact Hlt).
    unfold close_current. rewrite Hi. simpl.
    rewrite list_lookup_alter, Ha.
    destruct (decide (i = i)); [reflexivity | congruence]. }
  assert (Hself : self (replaced w) =
                  set_reconnect2_attempt 0
                    (set_ws2_should_run true (set_ws_notif (Some n) (self w)))).
  { unfold replaced, close_current. simpl. now destruct (ws_notif (self w)). }
  assert (Hout : stdout (replaced w) = stdout w).
  { unfold replaced, close_current. simpl. now destruct (ws_notif (self w)). }
  assert (Hth : threads (replaced w) = threads w).
  { unfold replaced, close_current. simpl. now destruct (ws_notif (self w)). }
  clearbody w2. clear H1 w1.
  remember (replaced w) as r eqn:Hr. clear Hr.
  assert (Hopen : alter opened_app n (heap r) !! n = Some (opened_app new_app)).
  { rewrite list_lookup_alter, Hnew.
    destruct (decide (n = n)); [reflexivity | congruence]. }
  assert (Hold' : forall i a, ws_notif (self w) = Some i -> heap w !! i = Some a ->
                    alter opened_app n (heap r) !! i = Some (closed_app a)).
  { intros i a Hi Ha.
    assert (Hlt : (i < n)%nat) by (now apply lookup_lt_Some with (x := a)).
    rewrite list_lookup_alter.
    destruct (decide (n = i)) as [-> | _]; [lia |]. now apply Hold. }
  rewrite H2. clear H2 w2.
  unfold on_ws2_open, _start_watchdog2, bind, print, assign, gets, ret.
  destruct r as [c h out th]. simpl in *. subst c out th. simpl.
  destruct (_watchdog2_thread (self w)) as [[| |] |] eqn:Hwd; simpl;
    (split; [reflexivity |]; split; [exact Hopen |];
     split; [unfold reports_connected; simpl; now rewrite Hopen |];
     split; [exact Hold' |];
     split; [reflexivity |]; split; [reflexivity |]; split; [reflexivity |];
     split; [rewrite ?Hwd; reflexivity |];
     split; [reflexivity |]; split; [reflexivity |];
     split; [| reflexivity];
     unfold emitted; simpl; rewrite omap_app; simpl; now rewrite app_nil_r).
Qed.

Lemma connect_then_open_starts_session_witness :
  reports_connected
    (fst (transport_opened 1 7000
            (fst (connect_notifications_websocket NoFault lost_session)))) = true /\
  heap (fst (transport_opened 1 7000
               (fst (connect_notifications_websocket NoFault lost_session)))) !! 0%nat
    = Some (closed_app (closed_app new_app)).
Proof.
  destruct (connect_then_open_starts_session lost_session 7000 eq_refl)
    as (_ & _ & Hc & Hold & _).
  split; [exact Hc |]. apply Hold; reflexivity.
Defined.

(** ** Frames *)

(** Indexing fails with [IndexError], [KeyError] or [TypeError]. *)
Lemma py_getitem_error (x : json) (i : nat) (e : exn) :
  py_getitem x i = inl e -> is_JSONDecodeError e = false.
Proof.
  destruct x as [| b | z | f | s | l | d]; simpl;
    try (intros [= <-]; reflexivity).
  - destruct (String.get i s); intros [= <-]; reflexivity.
  - destruct (l !! i); intros [= <-]; reflexivity.
Qed.

Section OtherFrames.
Context `{PyRuntime}.

(** X9.  A frame that is neither a handshake, nor a probe, nor an event
    (the acknowledgment [3], the namespace frames [40...] and [41...],
    the empty frame and every frame of an unknown type) is consumed
    without any effect but the two that every frame has: it is logged,
    and its arrival counts as a sign of life.  Nothing is sent, nothing
    else is printed and the callback returns. *)
Theorem other_frames_only_mark_liveness (now : Z) (ws : nat) (message : string)
    (w : World) :
  startswith message "0" = false ->
  startswith message "2" = false ->
  startswith message "42" = false ->
  on_ws2_message now ws message w = (noted now message w, Return tt).
Proof.
  intros H0 H2 H42. unfold on_ws2_message, dispatch. rewrite H0, H2, H42.
  unfold noted, bind, print, assign, try_except. simpl.
  destruct (String.eqb message "3"); [reflexivity |].
  destruct (startswith message "40"); [reflexivity |].
  destruct (startswith message "41"); reflexivity.
Qed.

(** X10.  An event frame whose payload decodes is handed to the
    registered handler as its first two elements, whatever follows them
    in the payload; the callback returns, and apart from the log and the
    time of the last frame the world is as before.  When the payload
    has fewer than two elements or cannot be indexed, the event is
    dropped with one line in the log and the handler is not called; when
    no handler is registered it is dropped without a line. *)
Theorem event_delivery (now : Z) (ws : nat) (message : string) (w : World)
    (event_data : json) :
  startswith message "42" = true ->
  json_loads (slice_from 2 message) = inr event_data ->
  on_ws2_message now ws message w =
    (with_stdout
       (fun out => out ++ delivery (notifications_handler (self w)) event_data)
       (noted now message w),
     Return tt) /\
  (forall event_type payload rest h,
     event_data = JList (event_type :: payload :: rest) ->
     notifications_handler (self w) = Some h ->
     h event_type payload = None ->
     on_ws2_message now ws message w = (noted now message w, Return tt)) /\
  (forall l, event_data = JList l -> (length l < 2)%nat ->
     delivery (notifications_handler (self w)) event_data = [MessageFailed IndexError]).
Proof.
  intros H42 Hj.
  destruct (dispatch_event ws message H42) as [_ Hd].
  assert (Hmain : on_ws2_message now ws message w =
    (with_stdout
       (fun out => out ++ delivery (notifications_handler (self w)) event_data)
       (noted now message w),
     Return tt)).
  { unfold on_ws2_message. rewrite Hd.
    unfold read_event, call_handler, delivery, noted, try_except, bind, print,
      assign, lift, gets, raise, ret. simpl.
    rewrite Hj. simpl.
    destruct (py_getitem event_data 0) as [e0 | event_type] eqn:H0; simpl.
    { now rewrite (py_getitem_error _ _ _ H0). }
    destruct (py_getitem event_data 1) as [e1 | payload] eqn:H1; simpl.
    { now rewrite (py_getitem_error _ _ _ H1). }
    destruct (notifications_handler (self w)) as [h |]; simpl.
    - destruct (h event_type payload) as [e |]; simpl;
        unfold with_stdout; simpl; rewrite ?app_nil_r; reflexivity.
    - unfold with_stdout. simpl. rewrite app_nil_r. reflexivity. }
  split; [exact Hmain |]. split.
  - intros event_type payload rest h -> Hh Hret. rewrite Hmain.
    unfold delivery. simpl. rewrite Hh, Hret.
    unfold with_stdout. simpl. now rewrite app_nil_r.
  - intros l -> Hl. unfold delivery. simpl.
    destruct l as [| a [| b l]]; simpl in *; try reflexivity. lia.
Qed.

End OtherFrames.

Lemma other_frames_only_mark_liveness_witness :
  @on_ws2_message sample_runtime 9000 0%nat "6" open_session
    = (noted 9000 "6" open_session, Return tt).
Proof.
  apply (@other_frames_only_mark_liveness sample_runtime 9000 0%nat "6" open_session);
    reflexivity.
Defined.

Lemma event_delivery_witness :
  @on_ws2_message event_runtime 9000 0%nat push_frame
    (with_self (set_notifications_handler (Some accepting_handler)) open_session)
  = (noted 9000 push_frame
       (with_self (set_notifications_handler (Some accepting_handler)) open_session),
     Return tt).
Proof.
  destruct (@event_delivery event_runtime 9000 0%nat push_frame
              (with_self (set_notifications_handler (Some accepting_handler))
                 open_session)
              push_event_value eq_refl eq_refl) as (_ & Hd & _).
  apply (Hd (JStr "pushNotification") (JDict [("id"%string, JInt 1)]) []
            accepting_handler); reflexivity.
Defined.

(** ** When a reconnect worker is started *)

Lemma ws_send_keeps_threads (l : list bool) (ws : nat) (data : string) :
  keeps (fun w => threads w = l) (ws_send ws data).
Proof.
  intros w Hw. unfold ws_send.
  destruct (heap w !! ws) as [a |]; [destruct (sock_connected a) |]; exact Hw.
Qed.

Lemma connect_keeps_threads (l : list bool) (fault : connect_fault) :
  keeps (fun w => threads w = l) (connect_notifications_websocket fault).
Proof.
  unfold connect_notifications_websocket, ws_close. keep_structure; keep_primitive.
Qed.

Lemma close_current_not_connected (w : World) :
  reports_connected (close_current w) = false.
Proof.
  unfold reports_connected, close_current.
  destruct (ws_notif (self w)) as [i |] eqn:Hi; simpl; rewrite Hi; [| reflexivity].
  rewrite list_lookup_alter.
  destruct (decide (i = i)); [| congruence].
  now destruct (heap w !! i).
Qed.

Lemma close_current_threads (w : World) : threads (close_current w) = threads w.
Proof. unfold close_current. now destruct (ws_notif (self w)). Qed.

Lemma replaced_threads (w : World) : threads (replaced w) = threads w.
Proof. unfold replaced. simpl. apply close_current_threads. Qed.

(** A scheduling request in closed form. *)
Lemma schedule2_reconnect_unfold (immediate : bool) (w : World) :
  _schedule2_reconnect immediate w =
  if reports_connected w then (with_stdout (fun out => out ++ [StillConnected]) w, Return tt)
  else if _ws2_should_run (self w) then (w, Return tt)
  else (with_threads (fun l => l ++ [immediate])
          (with_self (set_ws2_should_run true) w), Return tt).
Proof.
  unfold _schedule2_reconnect, bind, look, gets, assign, start_do_reconnect, print, ret.
  simpl. destruct (reports_connected w); [reflexivity |].
  now destruct (_ws2_should_run (self w)).
Qed.

Lemma fst_bind_ret {A B : Type} (c : M A) (b : B) (w : World) :
  fst (bind c (fun _ => ret b) w) = fst (c w).
Proof. unfold bind, ret. now destruct (c w) as [w1 [a | e]]. Qed.

Section Starting.
Context `{PyRuntime}.


End Starting.

(** * The HTTP requests *)

Module HttpFacts.
Import Http.
Local Open Scope http_scope.

(** ** Exceptions of the requests library do not escape *)


Lemma contained_ret {A : Type} (a : A) : contained (ret a).
Proof. intros c. reflexivity. Qed.

Lemma contained_raise {A : Type} (e : exn) : contained (@raise A (Builtin e)).
Proof. intros c. reflexivity. Qed.

Lemma contained_lift {A : Type} (r : exn + A) : contained (lift r).
Proof. destruct r; intros c; reflexivity. Qed.

Lemma contained_gets {A : Type} (f : Client -> A) : contained (gets f).
Proof. intros c. reflexivity. Qed.

Lemma contained_assign (f : Client -> Client) : contained (assign f).
Proof. intros c. reflexivity. Qed.

Lemma contained_print (n : notice) : contained (print n).
Proof. intros c. reflexivity. Qed.

Lemma contained_bind {A B : Type} (m : IO A) (k : A -> IO B) :
  contained m -> (forall a, contained (k a)) -> contained (bind m k).
Proof.
  intros Hm Hk c. unfold bind. specialize (Hm c).
  destruct (m c) as [c1 [a | e]]; simpl in *; [apply Hk | exact Hm].
Qed.

(** A [try] whose clauses catch the exceptions of the library and
    return lets none of them through, whatever its body does. *)
Lemma contained_try_except {A : Type} (body : IO A) (handler : error -> IO A) :
  (forall e, contained (handler e)) ->
  contained (try_except body is_RequestException handler).
Proof.
  intros Hh c. unfold try_except.
  destruct (body c) as [c1 [a | e]]; simpl; [reflexivity |].
  destruct (is_RequestException e) eqn:He; simpl; [apply Hh | exact He].
Qed.

Ltac contain :=
  repeat match goal with
    | |- contained (bind _ _) => apply contained_bind; [| intros ?]
    | |- contained (ret _) => apply contained_ret
    | |- contained (raise (Builtin _)) => apply contained_raise
    | |- contained (lift _) => apply contained_lift
    | |- contained (gets _) => apply contained_gets
    | |- contained (assign _) => apply contained_assign
    | |- contained (print _) => apply contained_print
    | |- contained (try_except _ is_RequestException _) =>
        apply contained_try_except; intros ?
    | |- contained (if ?b then _ else _) => destruct b
    | |- contained (match ?x with _ => _ end) => destruct x
    end.

Section Calls.
Context `{Env}.

Lemma contained_time_time : contained time_time.
Proof. intros c. reflexivity. Qed.

Lemma calls_contained (depth : nat) :
  (forall method endpoint data headers params,
     contained (_make_request depth method endpoint data headers params)) /\
  contained (refresh_access_token depth).
Proof.
  induction depth as [| depth [IHm IHr]].
  - split; intros; intros c; reflexivity.
  - split.
    + intros method endpoint data headers params. simpl.
      apply contained_bind; [apply contained_gets | intros token].
      apply contained_bind.
      { destruct (py_truthy token); [| apply contained_ret].
        apply contained_bind; [apply contained_time_time | intros now].
        apply contained_bind; [apply contained_gets | intros expiry].
        destruct (expiring now expiry); [| apply contained_ret].
        apply contained_bind; [apply contained_print | intros _].
        apply contained_bind; [apply IHr | intros _; apply contained_ret]. }
      intros _. contain.
    + simpl.
      apply contained_bind; [apply contained_gets | intros token].
      destruct (negb (py_truthy token)); [contain |].
      apply contained_bind; [apply IHm | intros resp].
      apply contained_bind.
      { destruct (py_truthy resp); [apply contained_lift | apply contained_ret]. }
      intros jwt. destruct (py_truthy jwt); [| contain].
      apply contained_bind; [apply contained_lift | intros jwt'].
      apply contained_bind; [apply contained_assign | intros _].
      apply contained_bind; [apply contained_time_time | intros now].
      contain.
Qed.

(** ** A call when no refresh is due *)

Lemma _make_request_once (depth : nat) (method endpoint : string) (data : json)
    (headers : list (string * string)) (params : json) (c : Client) :
  due c = false ->
  method = "POST"%string \/ method = "GET"%string ->
  exists c',
    _make_request (S depth) method endpoint data headers params c =
      (c', answer (network (length (sent c))
                     (outgoing method endpoint data headers params c))) /\
    sent c' = sent c ++ [outgoing method endpoint data headers params c] /\
    tokens c' = tokens c /\
    readings c' = readings (checked c) /\
    directory c' = directory c.
Proof.
  intros Hdue Hm. unfold due in Hdue. unfold checked, outgoing.
  simpl. unfold bind at 1, gets at 1. simpl. unfold bind at 1.
  destruct (py_truthy (access_token c)) eqn:Htok; simpl in Hdue.
  - unfold bind at 1, time_time at 1. simpl.
    unfold bind at 1, gets at 1. simpl. rewrite Hdue.
    unfold ret at 1. simpl. unfold bind at 1, gets at 1. simpl. rewrite Htok.
    unfold try_except, bind, requests_send, ret, raise, print. simpl.
    destruct Hm as [-> | ->]; simpl;
      (destruct (network _ _) as [[| | e] | [ok cont dec]]; simpl;
       [eexists; (split; [reflexivity | repeat split]) ..|];
       destruct ok; simpl; [| eexists; (split; [reflexivity | repeat split])];
       destruct cont; simpl; [| eexists; (split; [reflexivity | repeat split])];
       destruct dec as [[| | e] | v]; simpl; try (eexists; (split; [reflexivity | repeat split]));
       destruct (is_JSONDecodeError e); simpl; eexists; (split; [reflexivity | repeat split])).
  - unfold ret at 1. simpl. unfold bind at 1, gets at 1. simpl. rewrite Htok.
    unfold try_except, bind, requests_send, ret, raise, print. simpl.
    destruct Hm as [-> | ->]; simpl;
      (destruct (network _ _) as [[| | e] | [ok cont dec]]; simpl;
       [eexists; (split; [reflexivity | repeat split]) ..|];
       destruct ok; simpl; [| eexists; (split; [reflexivity | repeat split])];
       destruct cont; simpl; [| eexists; (split; [reflexivity | repeat split])];
       destruct dec as [[| | e] | v]; simpl; try (eexists; (split; [reflexivity | repeat split]));
       destruct (is_JSONDecodeError e); simpl; eexists; (split; [reflexivity | repeat split])).
Qed.


(** ** A refresh that is due *)

Lemma expiring_later (now later : Q) (expiry : pyfloat) :
  (now <= later)%Q -> expiring now expiry = true -> expiring later expiry = true.
Proof.
  destruct expiry as [q | negative |]; simpl; auto.
  intros Hle Hn. apply negb_true_iff in Hn. apply negb_true_iff.
  destruct (Qle_bool later (q - inject_Z 60)) eqn:Hl; [| reflexivity].
  apply Qle_bool_iff in Hl.
  assert (Hc : Qle_bool now (q - inject_Z 60) = true).
  { apply Qle_bool_iff. now apply Qle_trans with (y := later). }
  congruence.
Qed.

Lemma stuck_calls (depth : nat) :
  forall c, stuck c ->
    (forall method endpoint data hs params,
       exists c',
         _make_request depth method endpoint data hs params c
           = (c', Raises (Builtin RecursionError)) /\
         sent c' = sent c /\ tokens c' = tokens c) /\
    (exists c',
       refresh_access_token depth c = (c', Raises (Builtin RecursionError)) /\
       sent c' = sent c /\ tokens c' = tokens c).
Proof.
  induction depth as [| depth IH]; intros c (Htok & Href & Hexp).
  - split; [intros |]; exists c; repeat split.
  - split.
    + intros method endpoint data hs params. simpl.
      unfold bind at 1, gets at 1. simpl. rewrite Htok.
      unfold bind at 1. unfold bind at 1, time_time at 1. simpl.
      unfold bind at 1, gets at 1. simpl.
      rewrite (Hexp (readings c)) by lia.
      unfold bind at 1, print at 1. simpl. unfold bind at 1.
      match goal with
      | |- context [refresh_access_token depth ?c2] =>
          assert (Hs : stuck c2)
            by (repeat split; try assumption; intros k Hk; apply Hexp; simpl in Hk; lia);
          destruct (IH c2 Hs) as (_ & c3 & -> & Hsent & Htokens)
      end.
      exists c3. repeat split; assumption.
    + simpl. unfold bind at 1, gets at 1. simpl. rewrite Href. simpl.
      unfold bind at 1.
      assert (Hs : stuck c) by (repeat split; assumption).
      destruct (IH c Hs) as (Hm & _).
      destruct (Hm "POST"%string "auth/v1/auth/refresh_token"%string
                  (JDict [("refreshToken"%string, refresh_token c)]) [] JNull)
        as (c3 & -> & Hsent & Htokens).
      exists c3. repeat split; assumption.
Qed.

(** X11.  When the client holds an access token that is within a
    minute of its expiry, or past it, and a refresh token, no request
    can be made any more: [_make_request] calls [refresh_access_token],
    which makes its request through [_make_request], which finds the
    same token as close to expiry as before and calls
    [refresh_access_token] again.  Whatever the recursion limit, the call
    ends in [RecursionError]; not a single request has been sent and the
    tokens are as they were.  The same holds for
    [refresh_access_token] called directly and for [get_notifications]. *)
Theorem refresh_never_completes (depth : nat) (c : Client) :
  py_truthy (access_token c) = true ->
  py_truthy (refresh_token c) = true ->
  (forall i j, (i <= j)%nat -> (clock i <= clock j)%Q) ->
  expiring (clock (readings c)) (token_expiry c) = true ->
  (forall method endpoint data hs params,
     let out := _make_request depth method endpoint data hs params c in
     snd out = Raises (Builtin RecursionError) /\
     sent (fst out) = sent c /\ tokens (fst out) = tokens c) /\
  (let out := refresh_access_token depth c in
   snd out = Raises (Builtin RecursionError) /\
   sent (fst out) = sent c /\ tokens (fst out) = tokens c) /\
  (forall params,
     let out := get_notifications depth params c in
     snd out = Raises (Builtin RecursionError) /\
     sent (fst out) = sent c /\ tokens (fst out) = tokens c).
Proof.
  intros Htok Href Hmono Hexp.
  assert (Hs : stuck c).
  { repeat split; try assumption. intros k Hk.
    apply expiring_later with (now := clock (readings c)); [now apply Hmono | exact Hexp]. }
  split; [| split].
  - intros method endpoint data hs params out. subst out.
    destruct (stuck_calls depth c Hs) as (Hm & _).
    destruct (Hm method endpoint data hs params) as (c' & -> & Hsent & Htokens).
    simpl. auto.
  - destruct (stuck_calls depth c Hs) as (_ & c' & -> & Hsent & Htokens).
    simpl. auto.
  - intros params out. subst out. destruct depth as [| depth]; [simpl; auto |].
    destruct (stuck_calls depth c Hs) as (Hm & _). simpl.
    destruct (Hm "GET"%string "notifications/v1/notifications"%string JNull [] params)
      as (c' & -> & Hsent & Htokens).
    simpl. auto.
Qed.

(** ** What is sent, and what comes back *)

Lemma assoc_dict_set_eq {A : Type} (key : string) (v : A) (d : list (string * A)) :
  assoc key (dict_set key v d) = Some v.
Proof.
  induction d as [| [k x] d IH]; simpl.
  - now rewrite String.eqb_refl.
  - destruct (String.eqb key k) eqn:Hk; simpl; rewrite Hk; [reflexivity | exact IH].
Qed.

Lemma assoc_dict_set_ne {A : Type} (key other : string) (v : A)
    (d : list (string * A)) :
  other <> key -> assoc other (dict_set key v d) = assoc other d.
Proof.
  intros Hne. induction d as [| [k x] d IH]; simpl.
  - destruct (String.eqb_spec other key); [contradiction | reflexivity].
  - destruct (String.eqb_spec key k) as [<- | Hk]; simpl.
    + destruct (String.eqb_spec other key); [contradiction | reflexivity].
    + now rewrite IH.
Qed.

(** X12.  No exception of the requests library ever leaves
    [_make_request], whatever the state of the client and the
    recursion limit.  When no refresh is due, a [POST] or [GET] returns
    the decoded body if the status is fine, the body is not empty and it
    decodes, and [None] in every other case that the library reports: a
    connection that fails, a status that [raise_for_status] rejects, an
    empty body, a body that is not JSON; only an exception that is
    neither a [RequestException] nor a [JSONDecodeError] is passed on.
    The tokens are unchanged.  Any other method raises [ValueError]
    and sends nothing. *)
Theorem request_outcome (depth : nat) (method endpoint : string) (data : json)
    (hs : list (string * string)) (params : json) (c : Client) :
  from_requests (snd (_make_request depth method endpoint data hs params c)) = false /\
  (due c = false ->
   let out := _make_request (S depth) method endpoint data hs params c in
   (method = "POST"%string \/ method = "GET"%string ->
    snd out = answer (network (length (sent c))
                        (outgoing method endpoint data hs params c)) /\
    tokens (fst out) = tokens c) /\
   (method <> "POST"%string -> method <> "GET"%string ->
    snd out = Raises (Builtin ValueError) /\
    sent (fst out) = sent c /\ tokens (fst out) = tokens c)).
Proof.
  split.
  { destruct (calls_contained depth) as (Hm & _). apply Hm. }
  intros Hdue out. subst out. split.
  - intros Hm.
    destruct (_make_request_once depth method endpoint data hs params c Hdue Hm)
      as (c' & -> & _ & Htokens & _).
    simpl. auto.
  - intros Hp Hg. unfold due in Hdue.
    apply String.eqb_neq in Hp. apply String.eqb_neq in Hg.
    assert (Hex : exists c',
              _make_request (S depth) method endpoint data hs params c
                = (c', Raises (Builtin ValueError)) /\
              sent c' = sent c /\ tokens c' = tokens c).
    { simpl. unfold bind at 1, gets at 1. simpl. unfold bind at 1.
      destruct (py_truthy (access_token c)) eqn:Htok; simpl in Hdue.
      + unfold bind at 1, time_time at 1. simpl.
        unfold bind at 1, gets at 1. simpl. rewrite Hdue.
        unfold ret at 1. simpl. unfold bind at 1, gets at 1. simpl. rewrite Htok.
        unfold try_except, bind. rewrite Hp, Hg. simpl.
        eexists. split; [reflexivity | split; reflexivity].
      + unfold ret at 1. simpl. unfold bind at 1, gets at 1. simpl. rewrite Htok.
        unfold try_except, bind. rewrite Hp, Hg. simpl.
        eexists. split; [reflexivity | split; reflexivity]. }
    destruct Hex as (c' & -> & Hsent & Htokens). simpl. auto.
Qed.

(** X13.  When no refresh is due, a [POST] or [GET] sends exactly one
    request, to [BASE_URL/endpoint]; a [POST] carries [data] as its JSON
    body and no query, a [GET] carries [params] as its query and no
    body.  While an access token is held the request has the header
    [Authorization: Bearer <token>], which replaces an [Authorization]
    header of the caller; every other header of the caller is passed
    on, and without a token the headers are the caller's. *)
Theorem request_sent (depth : nat) (method endpoint : string) (data : json)
    (hs : list (string * string)) (params : json) (c : Client) :
  due c = false ->
  method = "POST"%string \/ method = "GET"%string ->
  exists req,
    sent (fst (_make_request (S depth) method endpoint data hs params c))
      = sent c ++ [req] /\
    verb req = method /\
    url req = (BASE_URL ++ "/" ++ endpoint)%string /\
    (method = "POST"%string -> json_body req = data /\ query req = JNull) /\
    (method = "GET"%string -> json_body req = JNull /\ query req = params) /\
    (py_truthy (access_token c) = true ->
     assoc "Authorization" (headers req)
       = Some ("Bearer " ++ py_str (access_token c))%string) /\
    (py_truthy (access_token c) = false -> headers req = hs) /\
    (forall key, key <> "Authorization"%string ->
       assoc key (headers req) = assoc key hs).
Proof.
  intros Hdue Hm.
  destruct (_make_request_once depth method endpoint data hs params c Hdue Hm)
    as (c' & -> & Hsent & _ & _).
  exists (outgoing method endpoint data hs params c). simpl.
  split; [exact Hsent |]. split; [reflexivity |]. split; [reflexivity |].
  split; [intros ->; split; reflexivity |].
  split; [intros ->; split; reflexivity |].
  split; [| split].
  - intros ->. apply assoc_dict_set_eq.
  - intros ->. reflexivity.
  - intros key Hkey. destruct (py_truthy (access_token c)); [| reflexivity].
    now apply assoc_dict_set_ne.
Qed.


(** ** Refreshing the token *)

Lemma refresh_access_token_unfold (depth : nat) (c : Client) :
  refresh_access_token (S depth) c =
  (token <- gets refresh_token ;;
   if negb (py_truthy token) then
     print NoRefreshToken ;;
     ret false
   else
     resp <- _make_request depth "POST" "auth/v1/auth/refresh_token"
               (JDict [("refreshToken"%string, token)]) [] JNull ;;
     adopt resp) c.
Proof. reflexivity. Qed.

Lemma adopt_refresh_token (resp : json) (c : Client) :
  refresh_token (fst (adopt resp c)) = refresh_token c.
Proof.
  unfold adopt, bind, lift, gets, assign, print, ret, raise, time_time,
    dict_get, dict_item.
  destruct (py_truthy resp) eqn:Hr.
  - destruct resp as [| b | z | f | s | l | d]; simpl; try reflexivity.
    destruct (assoc "jwt" d) as [j |]; simpl; [| reflexivity].
    destruct (py_truthy j); simpl; [| reflexivity].
    destruct (assoc "expireInSeconds" d) as [x |]; simpl; [| reflexivity].
    destruct (seconds_from _ x); reflexivity.
  - simpl. rewrite Hr. reflexivity.
Qed.

Lemma adopt_nothing (resp : json) (c : Client) :
  py_truthy resp = false ->
  snd (adopt resp c) = Returns false /\ tokens (fst (adopt resp c)) = tokens c.
Proof.
  intros Hr.
  assert (Ha : adopt resp c = (fst (print TokenNotRefreshed c), Returns false)).
  { unfold adopt, bind. rewrite Hr. simpl. rewrite Hr. reflexivity. }
  rewrite Ha. split; reflexivity.
Qed.

Lemma adopt_not_a_dict (resp : json) (c : Client) :
  py_truthy resp = true -> (forall d, resp <> JDict d) ->
  adopt resp c = (c, Raises (Builtin AttributeError)).
Proof.
  intros Hr Hd. unfold adopt, bind, lift, dict_get. rewrite Hr.
  destruct resp as [| b | z | f | s | l | d]; try reflexivity.
  now destruct (Hd d).
Qed.

Lemma adopt_no_jwt (d : list (string * json)) (c : Client) :
  py_truthy (default JNull (assoc "jwt" d)) = false ->
  snd (adopt (JDict d) c) = Returns false /\ tokens (fst (adopt (JDict d) c)) = tokens c.
Proof.
  intros Hj.
  assert (Ha : adopt (JDict d) c = (fst (print TokenNotRefreshed c), Returns false)).
  { unfold adopt, bind, lift, dict_get. destruct d as [| kv d']; [reflexivity |].
    change (py_truthy (JDict (kv :: d'))) with true. cbv iota.
    remember (kv :: d') as d eqn:Hd. clear Hd.
    destruct (assoc "jwt" d) as [j |]; simpl in Hj |- *; try rewrite Hj; reflexivity. }
  rewrite Ha. split; reflexivity.
Qed.

Lemma adopt_jwt (d : list (string * json)) (jwt : json) (c : Client) :
  assoc "jwt" d = Some jwt -> py_truthy jwt = true ->
  access_token (fst (adopt (JDict d) c)) = jwt /\
  match assoc "expireInSeconds" d with
  | None =>
      snd (adopt (JDict d) c) = Raises (Builtin KeyError) /\
      token_expiry (fst (adopt (JDict d) c)) = token_expiry c
  | Some seconds =>
      match seconds_from (clock (readings c)) seconds with
      | inr expiry =>
          snd (adopt (JDict d) c) = Returns true /\
          token_expiry (fst (adopt (JDict d) c)) = expiry
      | inl e =>
          snd (adopt (JDict d) c) = Raises (Builtin e) /\
          token_expiry (fst (adopt (JDict d) c)) = token_expiry c
      end
  end.
Proof.
  intros Hj Ht.
  assert (Hd : py_truthy (JDict d) = true) by (destruct d; [discriminate | reflexivity]).
  unfold adopt, bind, lift, dict_get, dict_item, assign, time_time, print, ret, raise.
  rewrite Hd, Hj. simpl. rewrite Ht. simpl.
  destruct (assoc "expireInSeconds" d) as [x |]; simpl; [| auto].
  destruct (seconds_from (clock (readings c)) x); simpl; auto.
Qed.


End Calls.

Lemma scripted_clock_monotone (start : Q) (replies : list (error + response))
    (i j : nat) :
  (i <= j)%nat ->
  (@clock (scripted start replies) i <= @clock (scripted start replies) j)%Q.
Proof.
  intros Hij. simpl. apply Qplus_le_r. rewrite <- Zle_Qle. lia.
Qed.

Lemma refresh_never_completes_witness :
  snd (@_make_request (scripted (inject_Z 3590) []) 1000 "GET" "company/v1/users/me"
         JNull [] JNull signed_in)
  = Raises (Builtin RecursionError).
Proof.
  destruct (@refresh_never_completes (scripted (inject_Z 3590) []) 1000 signed_in
              eq_refl eq_refl (scripted_clock_monotone _ _) eq_refl) as (Hm & _).
  apply Hm.
Defined.

Lemma request_outcome_witness :
  snd (@_make_request (scripted 0 [body (JList [])]) 1 "GET"
         "notifications/v1/notifications" JNull [] JNull signed_in)
  = Returns (JList []).
Proof.
  destruct (@request_outcome (scripted 0 [body (JList [])]) 0 "GET"
              "notifications/v1/notifications" JNull [] JNull signed_in)
    as (_ & Hd).
  destruct (Hd eq_refl) as (Hok & _).
  destruct (Hok (or_intror eq_refl)) as (Ho & _). exact Ho.
Defined.

Lemma request_sent_witness :
  exists req,
    sent (fst (@_make_request (scripted 0 []) 1 "POST" "auth/v1/auth/sign_in" JNull
                 [("Authorization"%string, "Basic abc"%string);
                  ("accept"%string, "application/json"%string)]
                 JNull signed_in)) = [req] /\
    assoc "Authorization" (headers req) = Some "Bearer jwt-1"%string /\
    assoc "accept" (headers req) = Some "application/json"%string.
Proof.
  destruct (@request_sent (scripted 0 []) 0 "POST" "auth/v1/auth/sign_in" JNull
              [("Authorization"%string, "Basic abc"%string);
               ("accept"%string, "application/json"%string)]
              JNull signed_in eq_refl (or_introl eq_refl))
    as (req & Hs & _ & _ & _ & _ & Ha & _ & Ho).
  exists req. split; [exact Hs |]. split; [exact (Ha eq_refl) |].
  rewrite Ho; [reflexivity | discriminate].
Defined.


End HttpFacts.

(** * The cache of users *)

Module UserCache.
Import Http HttpFacts.
Local Open Scope http_scope.

(** ** Keys *)

Lemma py_key_eq_sym (a b : json) : py_key_eq a b = py_key_eq b a.
Proof.
  unfold py_key_eq.
  destruct (numeric a) as [x |] eqn:Ha, (numeric b) as [y |] eqn:Hb; try reflexivity.
  - destruct (Qeq_bool x y) eqn:Hxy, (Qeq_bool y x) eqn:Hyx; try reflexivity.
    + apply Qeq_bool_iff in Hxy. apply Qeq_sym in Hxy. apply Qeq_bool_iff in Hxy.
      congruence.
    + apply Qeq_bool_iff in Hyx. apply Qeq_sym in Hyx. apply Qeq_bool_iff in Hyx.
      congruence.
  - destruct a as [| | | [| m |] | s | |], b as [| | | [| n |] | t | |];
      try reflexivity; try discriminate.
    + now destruct m, n.
    + apply String.eqb_sym.
Qed.

Lemma py_key_eq_trans (a b c : json) :
  py_key_eq a b = true -> py_key_eq b c = true -> py_key_eq a c = true.
Proof.
  unfold py_key_eq.
  destruct (numeric a) as [x |] eqn:Ha, (numeric b) as [y |] eqn:Hb,
    (numeric c) as [z |] eqn:Hc; try discriminate.
  - intros Hxy Hyz. apply Qeq_bool_iff in Hxy. apply Qeq_bool_iff in Hyz.
    apply Qeq_bool_iff. now apply Qeq_trans with (y := y).
  - destruct a as [| | | [| m |] | s | |], b as [| | | [| n |] | t | |];
      try discriminate; intros Hab;
      destruct c as [| | | [| p |] | r | |]; try discriminate; intros Hbc;
      try reflexivity.
    + destruct m, n, p; try discriminate; reflexivity.
    + apply String.eqb_eq in Hab. apply String.eqb_eq in Hbc. subst.
      apply String.eqb_refl.
Qed.

(** Storing under a key and looking up under another. *)
Lemma cache_get_set (key other value : json) (d : list (json * json)) :
  cache_get other (cache_set key value d) =
  if py_key_eq other key then Some value else cache_get other d.
Proof.
  induction d as [| [k v] d IH]; simpl.
  - now destruct (py_key_eq other key).
  - destruct (py_key_eq key k) eqn:Hk; simpl.
    + destruct (py_key_eq other k) eqn:Ho.
      * assert (Hok : py_key_eq other key = true).
        { apply py_key_eq_trans with (b := k); [exact Ho |].
          now rewrite py_key_eq_sym. }
        now rewrite Hok.
      * destruct (py_key_eq other key) eqn:Hok; [| reflexivity].
        assert (Ho' : py_key_eq other k = true)
          by now apply py_key_eq_trans with (b := key).
        congruence.
    + destruct (py_key_eq other k) eqn:Ho; [| exact IH].
      destruct (py_key_eq other key) eqn:Hok; [| reflexivity].
      assert (Hk' : py_key_eq key k = true).
      { apply py_key_eq_trans with (b := other); [| exact Ho].
        now rewrite py_key_eq_sym. }
      congruence.
Qed.

Lemma cache_get_fold (other value : json) (keys : list json) :
  forall d,
    cache_get other (fold_left (fun d key => cache_set key value d) keys d) =
    if existsb (py_key_eq other) keys then Some value else cache_get other d.
Proof.
  induction keys as [| key keys IH]; intros d; simpl; [reflexivity |].
  rewrite IH, cache_get_set.
  destruct (py_key_eq other key), (existsb (py_key_eq other) keys); reflexivity.
Qed.

Section Users.
Context `{Env}.

(** ** Caching one user *)

Lemma set_user_cache_same (c : Client) : set_user_cache (user_cache c) c = c.
Proof. now destruct c. Qed.

Lemma store_keys (value : json) (keys : list json) :
  Forall (fun key => hashable key = true) keys ->
  forall c,
    for_each keys
      (fun key => match key with JNull => ret tt | _ => store key value end) c =
    (set_user_cache
       (fold_left (fun d key => cache_set key value d)
          (List.filter (fun key => negb (is_None key)) keys) (user_cache c)) c,
     Returns tt).
Proof.
  induction 1 as [| key keys Hk _ IH]; intros c; simpl.
  - now rewrite set_user_cache_same.
  - unfold bind.
    assert (Hs : (match key with JNull => ret tt | _ => store key value end) c =
                 (if is_None key then c
                  else set_user_cache (cache_set key value (user_cache c)) c,
                  Returns tt)).
    { unfold store. destruct key; try discriminate; reflexivity. }
    rewrite Hs. rewrite IH. destruct (is_None key); reflexivity.
Qed.

Lemma str_or_none_hashable (x : json) : hashable (str_or_none x) = true.
Proof. now destruct x. Qed.

Lemma cache_user_cacheable (u : json) (c : Client) :
  cacheable u ->
  cache_user u c =
  (set_user_cache
     (fold_left (fun d key => cache_set key (entry u) d) (keys_of u) (user_cache c)) c,
   Returns tt).
Proof.
  intros (d & -> & Ha & Hc). unfold cache_user, entry_of.
  unfold bind at 1, lift at 1, dict_get at 1, ret at 1.
  unfold bind at 1, lift at 1, dict_get at 1, ret at 1.
  unfold bind at 1. unfold bind at 1, lift at 1, dict_get at 1, ret at 1.
  unfold bind at 1, lift at 1, dict_get at 1, ret at 1. unfold ret at 1.
  rewrite store_keys; [reflexivity |].
  repeat constructor; auto using str_or_none_hashable.
Qed.

(** ** Caching a list of users *)

Lemma cache_users (l : list json) :
  Forall cacheable l ->
  forall c,
    exists cache,
      for_each l cache_user c = (set_user_cache cache c, Returns tt) /\
      forall key,
        cache_get key cache =
        match owner key l with
        | Some u => Some (entry u)
        | None => cache_get key (user_cache c)
        end.
Proof.
  induction 1 as [| u l Hu _ IH]; intros c.
  - exists (user_cache c). simpl. now rewrite set_user_cache_same.
  - simpl. unfold bind. rewrite (cache_user_cacheable u c Hu).
    destruct (IH (set_user_cache
                    (fold_left (fun d key => cache_set key (entry u) d) (keys_of u)
                       (user_cache c)) c)) as (cache & -> & Hget).
    exists cache. split; [now destruct c |].
    intros key. rewrite Hget. destruct (owner key l); [reflexivity |].
    simpl. rewrite cache_get_fold. unfold has_key.
    now destruct (existsb (py_key_eq key) (keys_of u)).
Qed.

Lemma entry_truthy (u : json) : cacheable u -> py_truthy (entry u) = true.
Proof. now intros (d & -> & _). Qed.

Lemma owner_cacheable (key : json) (l : list json) (u : json) :
  Forall cacheable l -> owner key l = Some u -> cacheable u /\ has_key key u = true.
Proof.
  induction 1 as [| v l Hv _ IH]; simpl; [discriminate |].
  destruct (owner key l) as [u' |].
  - intros [= <-]. now apply IH.
  - destruct (has_key key v) eqn:Hk; [| discriminate].
    intros [= <-]. auto.
Qed.

(** ** Looking a user up *)

Lemma get_user_info_cached (key : json) (c : Client) :
  hashable key = true -> key <> JNull ->
  (forall k v, cache_get k (user_cache c) = Some v -> py_truthy v = true) ->
  get_user_info key c =
  (c, Returns (match cache_get key (user_cache c) with
               | Some v => v
               | None => default JNull (cache_get (JStr (py_str key)) (user_cache c))
               end)).
Proof.
  intros Hh Hn Ht.
  assert (Hg : get_user_info key c =
               (found <- cache_lookup key ;;
                if py_truthy found then ret found
                else cache_lookup (JStr (py_str key))) c).
  { destruct key; try reflexivity. now destruct Hn. }
  rewrite Hg. unfold cache_lookup, bind, gets, ret. rewrite Hh. simpl.
  destruct (cache_get key (user_cache c)) as [v |] eqn:Hc; simpl.
  - now rewrite (Ht key v Hc).
  - reflexivity.
Qed.

(** X15.  [get_all_users] caches every user of the answer under its
    [authUserId] and its [id], each in its own form and as a string.
    When the answer is a list of users that can be cached, the cache
    afterwards holds, under every key, the entry of the last user of the
    list that has the key, and nothing else: entries made before, such
    as the one of [get_me], are gone.  [get_user_info] then finds that
    entry under the key as it is given or, failing that, under its
    string form, and returns [None] for [None] and for a key that no
    user has.  When the answer is not a list with at least one element
    (an error that [_make_request] turned into [None], for instance)
    the cache is left as it was. *)
Theorem cached_users_are_found (depth : nat) (c : Client) :
  due c = false ->
  let reply := answer (network (length (sent c))
                         (outgoing "GET" "company/v1/users" JNull []
                            (JDict [("list"%string, JStr "all")]) c)) in
  let out := get_all_users (S (S depth)) c in
  (forall v, reply = Returns v -> py_truthy v && is_list v = false ->
     snd out = Returns (user_cache c) /\ user_cache (fst out) = user_cache c) /\
  (forall l, reply = Returns (JList l) -> l <> [] -> Forall cacheable l ->
     snd out = Returns (user_cache (fst out)) /\
     tokens (fst out) = tokens c /\
     (forall key,
        cache_get key (user_cache (fst out)) = option_map entry (owner key l)) /\
     (forall key, hashable key = true -> key <> JNull ->
        get_user_info key (fst out) =
        (fst out,
         Returns (match owner key l with
                  | Some u => entry u
                  | None => default JNull
                              (option_map entry (owner (JStr (py_str key)) l))
                  end))) /\
     get_user_info JNull (fst out) = (fst out, Returns JNull)).
Proof.
  intros Hdue reply out.
  destruct (_make_request_once depth "GET" "company/v1/users" JNull []
              (JDict [("list"%string, JStr "all")]) c Hdue (or_intror eq_refl))
    as (c1 & Hcall & _ & Htokens & _ & Hdir).
  fold reply in Hcall.
  assert (Hcache : user_cache c1 = user_cache c).
  { unfold directory in Hdir. congruence. }
  assert (Hout : out =
    (users <- (fun _ => (c1, reply)) ;;
     (if py_truthy users && is_list users then
        assign (set_user_cache []) ;;
        for_each (elements users) cache_user ;;
        cache <- gets user_cache ;;
        print (UsersCached (length cache))
      else ret tt) ;;
     gets user_cache) c).
  { subst out. unfold get_all_users. unfold bind at 1. rewrite Hcall. reflexivity. }
  split.
  - intros v Hv Hl.
    assert (Hres : out = (c1, Returns (user_cache c1))).
    { rewrite Hout. unfold bind at 1. rewrite Hv. unfold bind at 1. rewrite Hl.
      reflexivity. }
    rewrite Hres. simpl. now rewrite Hcache.
  - intros l Hl Hne Hall.
    assert (Hlist : py_truthy (JList l) && is_list (JList l) = true)
      by (destruct l; [now destruct Hne | reflexivity]).
    destruct (cache_users l Hall (set_user_cache [] c1)) as (cache & Hloop & Hget).
    assert (Hres : out =
                   (fst (print (UsersCached (length cache)) (set_user_cache cache c1)),
                    Returns cache)).
    { rewrite Hout. unfold bind at 1. rewrite Hl, Hlist. unfold elements.
      unfold bind at 1. unfold bind at 1, assign at 1. unfold bind at 1.
      rewrite Hloop. reflexivity. }
    rewrite Hres. simpl.
    assert (Hkeys : forall key, cache_get key cache = option_map entry (owner key l)).
    { intros key. rewrite Hget. now destruct (owner key l). }
    split; [reflexivity |]. split; [exact Htokens |]. split; [exact Hkeys |].
    split; [| reflexivity].
    intros key Hh Hn. rewrite get_user_info_cached; try assumption.
    + simpl. rewrite !Hkeys. now destruct (owner key l).
    + simpl. intros k v. rewrite Hkeys.
      destruct (owner k l) as [u |] eqn:Ho; [| discriminate].
      intros [= <-]. apply entry_truthy.
      now destruct (owner_cacheable k l u Hall Ho).
Qed.

(** X16.  [get_me] records the [id] of the answer as the user's own
    and caches the answer under it, leaving every entry under another
    key in place; [get_user_info] then finds the user under that [id].
    An answer without an [id] is cached under [None], where
    [get_user_info] does not look: it returns [None] for [None].  An
    answer that counts as false, such as the [None] that stands for a
    failed request, changes nothing. *)
Theorem get_me_caches_me (depth : nat) (c : Client) :
  due c = false ->
  let reply := answer (network (length (sent c))
                         (outgoing "GET" "company/v1/users/me" JNull [] JNull c)) in
  let out := get_me (S (S depth)) c in
  (forall v, reply = Returns v -> py_truthy v = false ->
     snd out = Returns v /\ directory (fst out) = directory c) /\
  (forall d, reply = Returns (JDict d) -> d <> [] ->
     hashable (default JNull (assoc "id" d)) = true ->
     snd out = Returns (JDict d) /\
     my_user_id (fst out) = default JNull (assoc "id" d) /\
     (forall key,
        cache_get key (user_cache (fst out)) =
        if py_key_eq key (default JNull (assoc "id" d))
        then Some (entry (JDict d))
        else cache_get key (user_cache c)) /\
     (assoc "id" d = None ->
      cache_get JNull (user_cache (fst out)) = Some (entry (JDict d)) /\
      get_user_info (my_user_id (fst out)) (fst out) = (fst out, Returns JNull))).
Proof.
  intros Hdue reply out.
  destruct (_make_request_once depth "GET" "company/v1/users/me" JNull [] JNull c
              Hdue (or_intror eq_refl))
    as (c1 & Hcall & _ & Htokens & _ & Hdir).
  fold reply in Hcall.
  assert (Hout : out =
    (me <- (fun _ => (c1, reply)) ;;
     (if py_truthy me then
        id <- lift (dict_get me "id" JNull) ;;
        assign (set_my_user_id id) ;;
        print (MyUserId id) ;;
        entry <- entry_of me ;;
        key <- gets my_user_id ;;
        store key entry
      else ret tt) ;;
     ret me) c).
  { subst out. unfold get_me. unfold bind at 1. rewrite Hcall. reflexivity. }
  split.
  - intros v Hv Ht.
    assert (Hres : out = (c1, Returns v)).
    { rewrite Hout. unfold bind at 1. rewrite Hv. unfold bind at 1. rewrite Ht.
      reflexivity. }
    rewrite Hres. simpl. auto.
  - intros d Hd Hne Hh.
    assert (Ht : py_truthy (JDict d) = true)
      by (destruct d; [now destruct Hne | reflexivity]).
    assert (Hcache : user_cache c1 = user_cache c).
    { unfold directory in Hdir. congruence. }
    assert (Hres : out =
      (set_user_cache
         (cache_set (default JNull (assoc "id" d)) (entry (JDict d)) (user_cache c1))
         (fst (print (MyUserId (default JNull (assoc "id" d)))
                 (set_my_user_id (default JNull (assoc "id" d)) c1))),
       Returns (JDict d))).
    { rewrite Hout. unfold bind at 1. rewrite Hd, Ht.
      unfold entry_of, store, bind, lift, dict_get, assign, print, gets, ret.
      destruct (assoc "id" d) as [id |]; simpl in *; rewrite ?Hh; reflexivity. }
    rewrite Hres. simpl. rewrite Hcache.
    split; [reflexivity |]. split; [reflexivity |]. split.
    + intros key. apply cache_get_set.
    + intros Hid. rewrite Hid. simpl. split; [| reflexivity].
      now rewrite cache_get_set.
Qed.

End Users.

Lemma cached_users_are_found_witness :
  let out := @get_all_users (scripted 0 [body (JList [ann; bob])]) 2 signed_in in
  @get_user_info (scripted 0 [body (JList [ann; bob])]) (JInt 3) (fst out)
    = (fst out, Returns (@entry (scripted 0 [body (JList [ann; bob])]) bob)) /\
  @get_user_info (scripted 0 [body (JList [ann; bob])]) (JStr "7") (fst out)
    = (fst out, Returns (@entry (scripted 0 [body (JList [ann; bob])]) ann)) /\
  @get_user_info (scripted 0 [body (JList [ann; bob])]) (JInt 4) (fst out)
    = (fst out, Returns JNull).
Proof.
  intros out.
  assert (Hall : Forall cacheable [ann; bob]).
  { repeat constructor; eexists; (split; [reflexivity | split; reflexivity]). }
  assert (Hne : [ann; bob] <> []) by discriminate.
  destruct (@cached_users_are_found (scripted 0 [body (JList [ann; bob])]) 0 signed_in
              eq_refl) as (_ & Hl).
  destruct (Hl [ann; bob] eq_refl Hne Hall) as (_ & _ & _ & Hinfo & _).
  fold out in Hinfo.
  split; [| split]; rewrite Hinfo; try reflexivity; discriminate.
Defined.

Lemma get_me_caches_me_witness :
  let out := @get_me (scripted 0 [body nameless]) 2 signed_in in
  cache_get JNull (user_cache (fst out))
    = Some (@entry (scripted 0 [body nameless]) nameless) /\
  @get_user_info (scripted 0 [body nameless]) (my_user_id (fst out)) (fst out)
    = (fst out, Returns JNull).
Proof.
  intros out.
  assert (Hne : [("firstName"%string, JStr "Ann"); ("lastName"%string, JStr "Lee")]
                <> []) by discriminate.
  destruct (@get_me_caches_me (scripted 0 [body nameless]) 0 signed_in eq_refl)
    as (_ & Hd).
  destruct (Hd _ eq_refl Hne eq_refl) as (_ & _ & _ & Hnone).
  exact (Hnone eq_refl).
Defined.

End UserCache.
